(** * Image batch compressor: worker pipeline, unique naming, result queue

    A shallow embedding of [image_batch_compressor_pro_plus.py]:
    the path helper [ensure_unique_path], the EXIF helper
    [get_exif_bytes], the per-file worker [process_single_file_task],
    the submitting thread [worker_submit] and the queue consumer
    [poll_queue].

    Python values are modelled as follows.
    - [str] is [string] (a sequence of bytes); [str.lower]/[str.upper]
      are the ASCII case maps.
    - [int] is [Z]; the loop counter of [ensure_unique_path] is a [nat].
    - a [dict] is a [gmap string pyval]; [d.get(k, x)] is
      [default x (d !! k)].
    - the file system is the finite set of paths that exist.
    - Pillow and [os] calls that can raise are fields of a [World]
      record returning [exn + _]; an [exn] is an instance of
      [Exception].
    - the thread pool is a step relation over the pending and running
      calls, one step per scheduling event. *)

From Stdlib Require Import ZArith String Ascii List Lia.
From stdpp Require Import base tactics option list gmap strings pretty sets.

Local Open Scope Z_scope.

(** ** Python strings and [os.path] *)

Module PyStr.

(** [s.rfind(c)] for a one-character [c]: the highest index, or [-1]. *)
Fixpoint rfind_from (c : ascii) (s : string) (i last : Z) : Z :=
  match s with
  | EmptyString => last
  | String a s' => rfind_from c s' (i + 1) (if Ascii.eqb a c then i else last)
  end.

Definition rfind (c : ascii) (s : string) : Z := rfind_from c s 0 (-1).

(** [s[i:j]], [s[:j]] and [s[i:]] for indices [0 <= i]. *)
Definition slice (s : string) (i j : Z) : string :=
  substring (Z.to_nat i) (Z.to_nat (j - i)) s.

Definition slice_to (s : string) (j : Z) : string :=
  substring 0 (Z.to_nat j) s.

Definition slice_from (s : string) (i : Z) : string :=
  substring (Z.to_nat i) (String.length s - Z.to_nat i) s.

Definition startswith (c : ascii) (s : string) : bool :=
  match s with
  | String a _ => Ascii.eqb a c
  | EmptyString => false
  end.

Fixpoint endswith (c : ascii) (s : string) : bool :=
  match s with
  | EmptyString => false
  | String a EmptyString => Ascii.eqb a c
  | String _ s' => endswith c s'
  end.

(** [str.lower] and [str.upper] on ASCII text: the letters A-Z and a-z
    are mapped, every other byte is kept (Python also maps cased
    letters outside ASCII). *)
Definition lower_char (a : ascii) : ascii :=
  let n := nat_of_ascii a in
  if ((65 <=? n)%nat && (n <=? 90)%nat)%bool then ascii_of_nat (n + 32) else a.

Definition upper_char (a : ascii) : ascii :=
  let n := nat_of_ascii a in
  if ((97 <=? n)%nat && (n <=? 122)%nat)%bool then ascii_of_nat (n - 32) else a.

Fixpoint map_chars (f : ascii -> ascii) (s : string) : string :=
  match s with
  | EmptyString => EmptyString
  | String a s' => String (f a) (map_chars f s')
  end.

Definition lower : string -> string := map_chars lower_char.
Definition upper : string -> string := map_chars upper_char.

(** [x in (a, b, ...)] on strings. *)
Definition str_in (x : string) (l : list string) : bool :=
  existsb (String.eqb x) l.

End PyStr.

Module OsPath.
Import PyStr.

(** The scan of [genericpath._splitext] that skips leading dots:
    [true] when a character other than the dot is met before
    [dotIndex]. *)
Fixpoint splitext_scan (n : nat) (p : string) (filenameIndex : Z) : bool :=
  match n with
  | O => false
  | S n' =>
      if negb (String.eqb (slice p filenameIndex (filenameIndex + 1)) ".")
      then true
      else splitext_scan n' p (filenameIndex + 1)
  end.

(** [os.path.splitext] (POSIX: separator [/], no alternative separator). *)
Definition splitext (p : string) : string * string :=
  let sepIndex := rfind "/" p in
  let dotIndex := rfind "." p in
  if (Z.ltb sepIndex dotIndex
      && splitext_scan (Z.to_nat (dotIndex - (sepIndex + 1))) p (sepIndex + 1))%bool
  then (slice_to p dotIndex, slice_from p dotIndex)
  else (p, "").

(** [os.path.basename]. *)
Definition basename (p : string) : string :=
  slice_from p (rfind "/" p + 1).

(** [os.path.join] of two components. *)
Definition join (a b : string) : string :=
  if startswith "/" b then b
  else if (String.eqb a "" || endswith "/" a)%bool then a +:+ b
  else a +:+ "/" +:+ b.

End OsPath.

(** ** [ensure_unique_path] *)

(** The file system, as far as naming goes: the paths that exist. *)
Definition os_path_exists (fs : gset string) (p : string) : bool :=
  bool_decide (p ∈ fs).

(** The f-string [f"{base}_{counter}{ext}"]. *)
Definition suffixed (base ext : string) (counter : nat) : string :=
  base +:+ "_" +:+ pretty counter +:+ ext.

(** The [while] loop of [ensure_unique_path]; [None] when [fuel]
    iterations were not enough. *)
Fixpoint ensure_unique_loop (fuel : nat) (fs : gset string)
    (base ext : string) (counter : nat) (candidate : string) : option string :=
  if os_path_exists fs candidate then
    match fuel with
    | O => None
    | S fuel' =>
        ensure_unique_loop fuel' fs base ext (counter + 1)
          (suffixed base ext counter)
    end
  else Some candidate.

Definition ensure_unique_path_fuel (fuel : nat) (fs : gset string)
    (path : string) : option string :=
  let '(base, ext) := OsPath.splitext path in
  ensure_unique_loop fuel fs base ext 1 path.

(** The loop body runs at most once for [path] and once per existing
    suffixed name, so [S (size fs)] iterations are always enough
    ([ensure_unique_fuel_enough] below) and the default is never used. *)
Definition ensure_unique_path (fs : gset string) (path : string) : string :=
  default path (ensure_unique_path_fuel (S (size fs)) fs path).

(** ** Python values, images, exceptions *)

(** A Pillow image: its [size], [mode], [info] dictionary (only byte
    string entries matter here) and its pixels, one list of band
    values per pixel. *)
Record image := Image {
  img_size : Z * Z;
  img_mode : string;
  img_info : gmap string (list Byte.byte);
  img_pixels : list (list Z)
}.

Inductive pyval :=
| VNone
| VBool (b : bool)
| VInt (n : Z)
| VStr (s : string)
| VBytes (b : list Byte.byte)
| VImage (i : image).

(** An instance of Python's [Exception] class, which is what
    [except Exception] catches; [exn_str e] is [str(e)]. *)
Record exn := Exception { exn_str : string }.

(** Truth value of an [int]-or-[None] and of a [bytes]-or-[None]. *)
Definition truthy_int (o : option Z) : bool :=
  match o with
  | Some n => negb (n =? 0)
  | None => false
  end.

Definition truthy_bytes (o : option (list Byte.byte)) : bool :=
  match o with
  | Some (_ :: _) => true
  | _ => false
  end.

(** [a or b]. *)
Definition py_or (a b : option Z) : option Z :=
  if truthy_int a then a else b.

(** [x if x else d]. *)
Definition if_else (x : option Z) (d : Z) : Z :=
  if truthy_int x then default 0 x else d.

Definition THUMBNAIL_SIZE : Z * Z := (64, 48).
Definition WORKER_THREADS : nat := 4.

(** [Image.new(mode, size, color)]. *)
Definition Image_new (mode : string) (size : Z * Z) (color : list Z) : image :=
  {| img_size := size;
     img_mode := mode;
     img_info := ∅;
     img_pixels := repeat color (Z.to_nat (fst size * snd size)) |}.

(** [get_exif_bytes]: [img.info.get("exif", None)]. *)
Definition get_exif_bytes (img : image) : option (list Byte.byte) :=
  img_info img !! "exif".

(** ** The environment of one worker run *)

(** What the [os] and Pillow calls of one run of the worker answer,
    one field per call site, and the paths that exist when the output
    name is chosen. *)
Record World := {
  w_fs : gset string;
  w_getsize_inp : string -> exn + Z;
  w_open_inp : string -> exn + image;
  w_resize : image -> Z * Z -> exn + image;
  w_convert : image -> string -> exn + image;
  w_save : image -> string -> gmap string pyval -> exn + unit;
  w_getsize_out : string -> exn + Z;
  w_open_out : string -> exn + image;
  w_thumbnail : image -> Z * Z -> exn + image
}.

(** The library calls a run makes, in order. *)
Inductive call :=
| CallGetsize (path : string)
| CallOpen (path : string)
| CallResize (img : image) (size : Z * Z)
| CallConvert (img : image) (mode : string)
| CallSave (img : image) (path : string) (kwargs : gmap string pyval)
| CallThumbnail (img : image) (size : Z * Z)
| CallNew (mode : string) (size : Z * Z) (color : list Z).

(** The state a run acts on: the global queue [msg_q], and the calls
    made so far. The latter is a record kept here to state what the
    worker asks of the libraries; the program has no such variable. *)
Record state := State {
  st_calls : list call;
  msg_q : list (gmap string pyval)
}.

(** A computation either returns or raises, and updates the state. *)
Definition M (A : Type) : Type := state -> state * (exn + A).

Definition ret {A} (x : A) : M A := fun s => (s, inr x).

Definition raise {A} (e : exn) : M A := fun s => (s, inl e).

Definition bind {A B} (m : M A) (k : A -> M B) : M B :=
  fun s =>
    match m s with
    | (s', inr x) => k x s'
    | (s', inl e) => (s', inl e)
    end.

(** [try: body / except Exception as e: handler e]. *)
Definition try_except {A} (body : M A) (handler : exn -> M A) : M A :=
  fun s =>
    match body s with
    | (s', inr x) => (s', inr x)
    | (s', inl e) => handler e s'
    end.

(** A library call: recorded, then answered by the environment. *)
Definition lib_call {A} (c : call) (answer : exn + A) : M A :=
  fun s => (State (st_calls s ++ [c]) (msg_q s), answer).

(** A pure step that may raise. *)
Definition lift {A} (answer : exn + A) : M A := fun s => (s, answer).

(** [msg_q.put(m)] on the unbounded queue. *)
Definition msg_q_put (m : gmap string pyval) : M unit :=
  fun s => (State (st_calls s) (msg_q s ++ [m]), inr tt).

#[global] Instance M_ret : MRet M := @ret.
#[global] Instance M_bind : MBind M := fun A B k m => bind m k.

(** ** [process_single_file_task] *)

(** Lines 67-71: the size [img.resize] is called with, or [None] when
    the resize is skipped. *)
Definition resize_target (resize_flag : string) (new_w new_h : option Z)
    (size : Z * Z) : option (Z * Z) :=
  if (negb (String.eqb resize_flag "Original")
      && truthy_int (py_or new_w new_h))%bool
  then
    let '(src_w, src_h) := size in
    let tgt_w := if_else new_w src_w in
    let tgt_h := if_else new_h src_h in
    Some (tgt_w, tgt_h)
  else None.

(** Lines 78-86: [(target_ext, target_format)]; the format is [None]
    when Pillow is left to infer it from the extension. *)
Definition target_of (out_format ext : string) : string * option string :=
  if negb (String.eqb out_format "Same as input") then
    let target_ext := "." +:+ PyStr.lower out_format in
    let target_format := PyStr.upper out_format in
    let target_format :=
      if PyStr.str_in (PyStr.lower out_format) ["jpg"; "jpeg"]
      then "JPEG" else target_format in
    (target_ext, Some target_format)
  else (ext, None).

(** Lines 94-104: the keyword arguments of [img.save]. *)
Definition build_save_kwargs (target_ext : string)
    (target_format : option string) (quality : Z)
    (exif_bytes : option (list Byte.byte)) : gmap string pyval :=
  let save_kwargs : gmap string pyval := {[ "optimize" := VBool true ]} in
  let save_kwargs :=
    match target_format with
    | Some f => <[ "format" := VStr f ]> save_kwargs
    | None => save_kwargs
    end in
  let save_kwargs :=
    if (PyStr.str_in target_ext [".jpg"; ".jpeg"; ".webp"]
        || match target_format with
           | Some f => negb (String.eqb f "") && PyStr.str_in f ["JPEG"; "WEBP"]
           | None => false
           end)%bool
    then <[ "quality" := VInt quality ]> save_kwargs
    else save_kwargs in
  if truthy_bytes exif_bytes
  then <[ "exif" := VBytes (default [] exif_bytes) ]> save_kwargs
  else save_kwargs.

(** Line 107: [save_kwargs.get("format", "").upper() in ("JPEG",) and
    img.mode in ("RGBA", "P")]; [.upper()] of a value that is not a
    string raises. *)
Definition needs_rgb (save_kwargs : gmap string pyval) (img : image) : exn + bool :=
  match default (VStr "") (save_kwargs !! "format") with
  | VStr f =>
      inr (PyStr.str_in (PyStr.upper f) ["JPEG"]
           && PyStr.str_in (img_mode img) ["RGBA"; "P"])%bool
  | _ => inl (Exception "object has no attribute 'upper'")
  end.

Definition done_msg (task_id : Z) (inp_path save_path : string)
    (before_size after_size : Z) (thumb_img : image) : gmap string pyval :=
  {[ "task_id" := VInt task_id;
     "status" := VStr "done";
     "inp_path" := VStr inp_path;
     "out_path" := VStr save_path;
     "before_size" := VInt before_size;
     "after_size" := VInt after_size;
     "thumb" := VImage thumb_img;
     "error" := VNone ]}.

Definition error_msg (task_id : Z) (inp_path : string) (e : exn)
    : gmap string pyval :=
  {[ "task_id" := VInt task_id;
     "status" := VStr "error";
     "inp_path" := VStr inp_path;
     "out_path" := VNone;
     "before_size" := VNone;
     "after_size" := VNone;
     "thumb" := VNone;
     "error" := VStr (exn_str e) ]}.

(** Lines 117-118: the body of the inner [try]. *)
Definition thumb_body (w : World) (save_path : string) : M image :=
  thumb_img ← lib_call (CallOpen save_path) (w_open_out w save_path);
  lib_call (CallThumbnail thumb_img THUMBNAIL_SIZE)
    (w_thumbnail w thumb_img THUMBNAIL_SIZE).

(** Lines 116-121: the thumbnail, or the grey placeholder. *)
Definition make_thumbnail (w : World) (save_path : string) : M image :=
  try_except (thumb_body w save_path)
    (fun _ =>
       lib_call (CallNew "RGB" THUMBNAIL_SIZE [220; 220; 220])
         (inr (Image_new "RGB" THUMBNAIL_SIZE [220; 220; 220]))).

(** Lines 60-112: everything up to and including the second
    [os.path.getsize]; returns [(before_size, save_path, after_size)]. *)
Definition process_encode (w : World) (inp_path out_dir : string)
    (quality : Z) (resize_flag : string) (new_w new_h : option Z)
    (out_format : string) (preserve_meta : bool) : M (Z * string * Z) :=
  before_size ← lib_call (CallGetsize inp_path) (w_getsize_inp w inp_path);
  img ← lib_call (CallOpen inp_path) (w_open_inp w inp_path);
  let exif_bytes := if preserve_meta then get_exif_bytes img else None in
  img ← match resize_target resize_flag new_w new_h (img_size img) with
        | Some tgt => lib_call (CallResize img tgt) (w_resize w img tgt)
        | None => mret img
        end;
  let base := OsPath.basename inp_path in
  let '(name, ext) := OsPath.splitext base in
  let ext := PyStr.lower ext in
  let '(target_ext, target_format) := target_of out_format ext in
  let save_name := name +:+ target_ext in
  let save_path := OsPath.join out_dir save_name in
  let save_path := ensure_unique_path (w_fs w) save_path in
  let save_kwargs := build_save_kwargs target_ext target_format quality exif_bytes in
  rgb ← lift (needs_rgb save_kwargs img);
  img ← (if rgb : bool
         then lib_call (CallConvert img "RGB") (w_convert w img "RGB")
         else mret img);
  _ ← lib_call (CallSave img save_path save_kwargs)
        (w_save w img save_path save_kwargs);
  after_size ← lib_call (CallGetsize save_path) (w_getsize_out w save_path);
  mret (before_size, save_path, after_size).

(** Lines 60-133: the body of the outer [try]. *)
Definition process_body (w : World) (task_id : Z) (inp_path out_dir : string)
    (quality : Z) (resize_flag : string) (new_w new_h : option Z)
    (out_format : string) (preserve_meta : bool) : M unit :=
  '(before_size, save_path, after_size) ←
    process_encode w inp_path out_dir quality resize_flag new_w new_h
      out_format preserve_meta;
  thumb_img ← make_thumbnail w save_path;
  msg_q_put (done_msg task_id inp_path save_path before_size after_size thumb_img).

Definition process_single_file_task (w : World) (task_id : Z)
    (inp_path out_dir : string) (quality : Z) (resize_flag : string)
    (new_w new_h : option Z) (out_format : string) (preserve_meta : bool)
    : M unit :=
  try_except
    (process_body w task_id inp_path out_dir quality resize_flag new_w new_h
       out_format preserve_meta)
    (fun e => msg_q_put (error_msg task_id inp_path e)).

(** ** [start_compression] and [worker_submit] *)

(** One row of the [Treeview]: its item identifier, its column values
    and its image. *)
Record row := Row {
  row_item : string;
  row_cols : gmap string string;
  row_image : option image
}.

(** Lines 233-240: [files], the [(idx, item, path)] triples of the rows
    whose [path] column can be read. *)
Fixpoint build_files_from (idx : Z) (rows : list row) : list (Z * string * string) :=
  match rows with
  | [] => []
  | r :: rows' =>
      match row_cols r !! "path" with
      | Some path => (idx, row_item r, path) :: build_files_from (idx + 1) rows'
      | None => build_files_from (idx + 1) rows'
      end
  end.

Definition build_files (rows : list row) : list (Z * string * string) :=
  build_files_from 0 rows.

(** The settings every task of a batch is submitted with. *)
Record settings := Settings {
  out_dir : string;
  quality : Z;
  resize_flag : string;
  new_w : option Z;
  new_h : option Z;
  out_format : string;
  preserve_meta : bool
}.

(** The call [exe.submit] schedules for one entry of [files]. *)
Definition run_task (cfg : settings) (w : World) (t : Z * string * string) : M unit :=
  let '(idx, item, path) := t in
  process_single_file_task w idx path (out_dir cfg) (quality cfg)
    (resize_flag cfg) (new_w cfg) (new_h cfg) (out_format cfg)
    (preserve_meta cfg).

Definition all_done_msg : gmap string pyval := {[ "control" := VStr "all_done" ]}.

(** The submitting thread and its executor: the submitted calls not
    yet started, those running on one of the worker threads, the
    queue, whether some [f.result()] will raise, and whether the
    thread has put its completion message. *)
Record pool := Pool {
  pending : list (Z * string * string);
  running : list (Z * string * string);
  pool_q : list (gmap string pyval);
  raised : bool;
  notified : bool
}.

Definition is_inl {A B} (x : A + B) : bool :=
  match x with inl _ => true | inr _ => false end.

(** One scheduling step. A free worker thread takes the oldest pending
    call; a running call completes, in whatever environment it met,
    with its effect on the queue; once every future is done and none
    raised, the thread leaves the [with] block and puts [all_done]. *)
Inductive pool_step (cfg : settings) : pool -> pool -> Prop :=
| step_start t ps rs q r :
    (length rs < WORKER_THREADS)%nat ->
    pool_step cfg (Pool (t :: ps) rs q r false) (Pool ps (rs ++ [t]) q r false)
| step_finish w t ps rs1 rs2 q r s' res :
    run_task cfg w t (State [] q) = (s', res) ->
    pool_step cfg (Pool ps (rs1 ++ t :: rs2) q r false)
      (Pool ps (rs1 ++ rs2) (msg_q s') (r || is_inl res) false)
| step_all_done q :
    pool_step cfg (Pool [] [] q false false)
      (Pool [] [] (q ++ [all_done_msg]) false true).

Definition pool_init (files : list (Z * string * string))
    (q : list (gmap string pyval)) : pool :=
  Pool files [] q false false.

(** ** [poll_queue] *)

(** The widgets [poll_queue] touches. *)
Record gui := Gui {
  tree : list row;
  progress_value : Z;
  progress_maximum : Z;
  thumb_refs : gmap string image;
  dialogs : list (string * string);
  size_label : string;
  poll_scheduled : bool
}.

(** [tree.set(item, column)] and [tree.set(item, column, value)]. *)
Definition tree_get (t : list row) (item column : string) : option string :=
  r ← List.find (fun r => String.eqb (row_item r) item) t;
  row_cols r !! column.

Definition tree_set (t : list row) (item column value : string) : list row :=
  List.map (fun r =>
    if String.eqb (row_item r) item
    then Row (row_item r) (<[ column := value ]> (row_cols r)) (row_image r)
    else r) t.

Definition tree_item_image (t : list row) (item : string) (photo : image) : list row :=
  List.map (fun r =>
    if String.eqb (row_item r) item
    then Row (row_item r) (row_cols r) (Some photo)
    else r) t.

(** Lines 288-295: the first item whose [path] column equals
    [inp_path]. *)
Fixpoint find_target (t : list row) (inp_path : pyval) : option string :=
  match t with
  | [] => None
  | r :: t' =>
      match row_cols r !! "path", inp_path with
      | Some p, VStr p' =>
          if String.eqb p p' then Some (row_item r) else find_target t' inp_path
      | _, _ => find_target t' inp_path
      end
  end.

(** [str(v)] as the f-string of line 323 renders it (strings, [None],
    integers and booleans). *)
Definition py_str (v : pyval) : string :=
  match v with
  | VStr s => s
  | VNone => "None"
  | VInt n => pretty n
  | VBool true => "True"
  | VBool false => "False"
  | VBytes _ => "b'...'"
  | VImage _ => "<PIL.Image.Image>"
  end.

Definition py_truthy (v : pyval) : bool :=
  match v with
  | VNone => false
  | VBool b => b
  | VInt n => negb (n =? 0)
  | VStr s => negb (String.eqb s "")
  | VBytes b => match b with [] => false | _ => true end
  | VImage _ => true
  end.

Definition pyval_is_str (v : pyval) (s : string) : bool :=
  match v with
  | VStr s' => String.eqb s' s
  | _ => false
  end.

(** [d.get(k)] and [d.get(k, x)]. *)
Definition dict_get (d : gmap string pyval) (k : string) : pyval :=
  default VNone (d !! k).

Definition dict_get_default (d : gmap string pyval) (k : string) (x : pyval) : pyval :=
  default x (d !! k).

Section Poll.

(** [human_kb] formats a float quotient and the closing summary parses
    such strings back; both are kept abstract. *)
Variable human_kb : pyval -> string.
Variable totals_text : list row -> string.

(** Lines 306-312: the thumbnail update; a value [PhotoImage] rejects
    is ignored by the [except]. *)
Definition set_thumbnail (g : gui) (target_item : string) (thumb_img : pyval) : gui :=
  match thumb_img with
  | VImage photo =>
      Gui (tree_item_image (tree g) target_item photo) (progress_value g)
        (progress_maximum g) (<[ target_item := photo ]> (thumb_refs g))
        (dialogs g) (size_label g) (poll_scheduled g)
  | _ => g
  end.

Definition with_tree (g : gui) (t : list row) : gui :=
  Gui t (progress_value g) (progress_maximum g) (thumb_refs g) (dialogs g)
    (size_label g) (poll_scheduled g).

Definition with_progress_value (g : gui) (v : Z) : gui :=
  Gui (tree g) v (progress_maximum g) (thumb_refs g) (dialogs g)
    (size_label g) (poll_scheduled g).

(** Lines 279-324: the body of the [while] loop for one message, as
    it runs on what the workers put: sizes that are integers or
    [None], an [out_path] that is a string or [None]. (On a dictionary
    with other values [human_kb] or [basename] would raise, which the
    [except queue.Empty] of the loop does not catch.) *)
Definition poll_msg (g : gui) (msg : gmap string pyval) : gui :=
  if pyval_is_str (dict_get msg "control") "all_done" then
    let g := with_progress_value g (progress_maximum g) in
    Gui (tree g) (progress_value g) (progress_maximum g) (thumb_refs g)
      (dialogs g ++ [("Done", "Batch compression completed!")])
      (size_label g) (poll_scheduled g)
  else
    let inp_path := dict_get msg "inp_path" in
    match find_target (tree g) inp_path with
    | None => g
    | Some target_item =>
        if String.eqb target_item "" then g
        else if pyval_is_str (dict_get msg "status") "done" then
          let before := dict_get_default msg "before_size" (VInt 0) in
          let after := dict_get_default msg "after_size" (VInt 0) in
          let out_path := dict_get msg "out_path" in
          let thumb_img := dict_get msg "thumb" in
          let g := set_thumbnail g target_item thumb_img in
          let g := with_tree g (tree_set (tree g) target_item "before" (human_kb before)) in
          let g := with_tree g (tree_set (tree g) target_item "after" (human_kb after)) in
          let g := with_tree g (tree_set (tree g) target_item "status" "Done") in
          let g := with_tree g (tree_set (tree g) target_item "out"
                     (if py_truthy out_path
                      then OsPath.basename (py_str out_path) else "-")) in
          with_progress_value g (progress_value g + 1)
        else if pyval_is_str (dict_get msg "status") "error" then
          let err := dict_get msg "error" in
          let g := with_tree g (tree_set (tree g) target_item "status"
                     ("Error: " +:+ py_str err)) in
          with_progress_value g (progress_value g + 1)
        else g
    end.

(** [poll_queue]: drain the queue, then either schedule the next poll
    or write the totals. Returns the widgets and the emptied queue. *)
Definition poll_queue (g : gui) (q : list (gmap string pyval))
    : gui * list (gmap string pyval) :=
  let g := fold_left poll_msg q g in
  if progress_value g <? progress_maximum g then
    (Gui (tree g) (progress_value g) (progress_maximum g) (thumb_refs g)
       (dialogs g) (size_label g) true, [])
  else
    (Gui (tree g) (progress_value g) (progress_maximum g) (thumb_refs g)
       (dialogs g) (totals_text (tree g)) false, []).

End Poll.

(** ** [add_files], [add_file_row], [clear_files], [start_compression] *)

(** What the GUI functions meet outside the program: [os.path.isfile],
    [os.path.getsize], and the identifier [tree.insert] gives to the
    [n]-th item it creates. *)
Record GuiEnv := {
  g_isfile : string -> bool;
  g_getsize : string -> exn + Z;
  g_item : nat -> string
}.

(** Lines 171-177: whether some row already shows [path] in its
    [path] column. *)
Fixpoint has_path (t : list row) (path : string) : bool :=
  match t with
  | [] => false
  | r :: t' =>
      match row_cols r !! "path" with
      | Some p => if String.eqb p path then true else has_path t' path
      | None => has_path t' path
      end
  end.

(** Lines 192-195: [thumb_refs.pop(child, None)] for every child. *)
Definition pop_children (t : list row) (refs : gmap string image)
    : gmap string image :=
  fold_left (fun refs r => delete (row_item r) refs) t refs.

(** [clear_files]. *)
Definition clear_files (g : gui) : gui :=
  Gui [] 0 (progress_maximum g) (pop_children (tree g) (thumb_refs g))
    (dialogs g) "" (poll_scheduled g).

(** The entries of the seven widgets [start_compression] reads, and
    what the directory chooser returns (the empty string when it is
    dismissed). *)
Record inputs := Inputs {
  quality_input : string;
  resize_var : string;
  width_input : string;
  height_input : string;
  format_var : string;
  meta_var : bool;
  chosen_dir : string
}.

Section Gui.

(** [human_kb] formats a float quotient; [str.strip] and [int] are the
    interpreter's. [py_int s] is [None] when [int(s)] raises. *)
Variable human_kb : pyval -> string.
Variable py_strip : string -> string.
Variable py_int : string -> option Z.

(** [add_file_row]; [n] counts the items the tree has created so far.
    Returns the widgets, the new count, and the exception when
    [os.path.getsize] raised. *)
Definition add_file_row (env : GuiEnv) (g : gui) (n : nat) (path : string)
    : gui * nat * option exn :=
  if has_path (tree g) path then (g, n, None)
  else
    let idx := (length (tree g) + 1)%nat in
    match g_getsize env path with
    | inl e => (g, n, Some e)
    | inr size =>
        let item := g_item env n in
        let values : gmap string string :=
          {[ "#" := pretty idx;
             "name" := OsPath.basename path;
             "before" := human_kb (VInt size);
             "after" := "-";
             "status" := "Queued";
             "out" := "-" ]} in
        let blank := Image_new "RGB" THUMBNAIL_SIZE [240; 240; 240] in
        let r := Row item (<[ "path" := path ]> values) (Some blank) in
        (Gui (tree g ++ [r]) (progress_value g) (progress_maximum g)
           (<[ item := blank ]> (thumb_refs g)) (dialogs g) (size_label g)
           (poll_scheduled g),
         S n, None)
    end.

(** Lines 163-167 of [add_files]: the loop over the selected or dropped
    paths. An exception of [add_file_row] ends it. *)
Fixpoint add_files (env : GuiEnv) (g : gui) (n : nat) (paths : list string)
    : gui * nat * option exn :=
  match paths with
  | [] => (g, n, None)
  | p :: paths' =>
      let p := py_strip p in
      if g_isfile env p then
        match add_file_row env g n p with
        | (g', n', None) => add_files env g' n' paths'
        | (g', n', Some e) => (g', n', Some e)
        end
      else add_files env g n paths'
  end.

Definition show_dialog (g : gui) (title text : string) : gui :=
  Gui (tree g) (progress_value g) (progress_maximum g) (thumb_refs g)
    (dialogs g ++ [(title, text)]) (size_label g) (poll_scheduled g).

(** Lines 219-221: an entry that is blank after [strip] is [None],
    otherwise it goes through [int]; the outer [None] is the
    [ValueError]. *)
Definition parse_dimension (text : string) : option (option Z) :=
  if negb (String.eqb (py_strip text) "")
  then match py_int text with
       | Some v => Some (Some v)
       | None => None
       end
  else Some None.

(** Lines 250-253: every row of [files] goes back to [Queued]. *)
Definition mark_queued (t : list row) (files : list (Z * string * string))
    : list row :=
  fold_left
    (fun t f => tree_set (tree_set t f.1.2 "after" "-") f.1.2 "status" "Queued")
    files t.

(** [start_compression], up to the start of the submitting thread:
    the widgets afterwards and, when a batch was started, its settings
    and its [files]. *)
Definition start_compression (g : gui) (i : inputs)
    : gui * option (settings * list (Z * string * string)) :=
  match tree g with
  | [] => (show_dialog g "No files" "Please add image files first.", None)
  | _ :: _ =>
      match (match py_int (quality_input i) with
             | Some quality =>
                 if negb ((1 <=? quality) && (quality <=? 100))%bool
                 then None else Some quality
             | None => None
             end) with
      | None => (show_dialog g "Error" "Quality must be integer 1–100.", None)
      | Some quality =>
          let resize_flag := resize_var i in
          match (if negb (String.eqb resize_flag "Original")
                 then match parse_dimension (width_input i) with
                      | Some new_w =>
                          match parse_dimension (height_input i) with
                          | Some new_h => Some (new_w, new_h)
                          | None => None
                          end
                      | None => None
                      end
                 else Some (None, None)) with
          | None => (show_dialog g "Error" "Width/Height must be integers.", None)
          | Some (new_w, new_h) =>
              let out_format := format_var i in
              let preserve_meta := meta_var i in
              let out_dir := chosen_dir i in
              if String.eqb out_dir "" then (g, None)
              else
                let files := build_files (tree g) in
                match files with
                | [] => (show_dialog g "Error" "No valid files to process.", None)
                | _ :: _ =>
                    (Gui (mark_queued (tree g) files) 0
                       (Z.of_nat (length files)) (thumb_refs g) (dialogs g)
                       (size_label g) true,
                     Some (Settings out_dir quality resize_flag new_w new_h
                             out_format preserve_meta, files))
                end
          end
      end
  end.

End Gui.

(** * Vocabulary of the properties *)

(** ** Effects on the queue *)

(** A computation that leaves the queue as it found it. *)
Definition quiet {A} (m : M A) : Prop :=
  forall s, msg_q (m s).1 = msg_q s.

(** A computation that either returns after putting exactly one
    message satisfying [P], or raises without having put any. *)
Definition puts_one_or_raises (P : gmap string pyval -> Prop) (m : M unit) : Prop :=
  forall s,
    (exists x, (m s).2 = inr tt /\ msg_q (m s).1 = msg_q s ++ [x] /\ P x)
    \/ (exists e, (m s).2 = inl e /\ msg_q (m s).1 = msg_q s).

(** The message of a finished task. *)
Definition is_done_msg (task_id : Z) (inp_path : string) (m : gmap string pyval) : Prop :=
  exists save_path before_size after_size thumb_img,
    m = done_msg task_id inp_path save_path before_size after_size thumb_img.

(** The message of a failed task. *)
Definition is_error_msg (task_id : Z) (inp_path : string) (m : gmap string pyval) : Prop :=
  exists e, m = error_msg task_id inp_path e.

(** ** The calls of a run *)

(** Every call [m] adds to the record satisfies [Q]. *)
Definition calls_sat {A} (Q : call -> Prop) (m : M A) : Prop :=
  forall s c, c ∈ st_calls (m s).1 -> c ∈ st_calls s \/ Q c.

Section TaskTerms.

Variable w : World.
Variables (inp_path out_dir : string) (quality : Z).
Variables (resize_flag : string) (new_w new_h : option Z).
Variables (out_format : string) (preserve_meta : bool).

(** The target extension and format, the keyword arguments and the
    output path this task's settings lead to. *)
Definition task_target : string * option string :=
  target_of out_format
    (PyStr.lower (OsPath.splitext (OsPath.basename inp_path)).2).

Definition task_kwargs (img0 : image) : gmap string pyval :=
  build_save_kwargs task_target.1 task_target.2 quality
    (if preserve_meta then get_exif_bytes img0 else None).

Definition task_save_path : string :=
  ensure_unique_path (w_fs w)
    (OsPath.join out_dir
       ((OsPath.splitext (OsPath.basename inp_path)).1 +:+ task_target.1)).

(** [img1] is what the resize step makes of the decoded [img0]. *)
Definition resized (img0 img1 : image) : Prop :=
  match resize_target resize_flag new_w new_h (img_size img0) with
  | Some tgt => w_resize w img0 tgt = inr img1
  | None => img1 = img0
  end.

(** What holds of each call of a run of this task. *)
Definition call_ok (c : call) : Prop :=
  match c with
  | CallResize img tgt =>
      w_open_inp w inp_path = inr img
      /\ resize_target resize_flag new_w new_h (img_size img) = Some tgt
  | CallConvert img mode =>
      mode = "RGB"
      /\ exists img0, w_open_inp w inp_path = inr img0 /\ resized img0 img
           /\ needs_rgb (task_kwargs img0) img = inr true
  | CallSave img path kwargs =>
      exists img0 img1 rgb,
        w_open_inp w inp_path = inr img0 /\ resized img0 img1
        /\ needs_rgb (task_kwargs img0) img1 = inr rgb
        /\ (if rgb : bool then w_convert w img1 "RGB" = inr img else img = img1)
        /\ path = task_save_path
        /\ kwargs = task_kwargs img0
  | _ => True
  end.

End TaskTerms.

(** A computation that only adds to the record of calls. *)
Definition calls_kept {A} (m : M A) : Prop :=
  forall s c, c ∈ st_calls s -> c ∈ st_calls (m s).1.

(** What Pillow's [resize] and [convert] do to the size: the first
    returns an image of the size asked for, the second keeps it. *)
Definition keeps_sizes (w : World) : Prop :=
  (forall img tgt img', w_resize w img tgt = inr img' -> img_size img' = tgt)
  /\ (forall img mode img', w_convert w img mode = inr img' ->
        img_size img' = img_size img).

(** A run with the calls [calls] resized the decoded [img] to [tgt]:
    it called [img.resize] with that size, every [resize] call it made
    is that one, and whatever it passed to [img.save] is what that call
    returned, or its conversion to RGB; so what it saved has the size
    [tgt], given that [resize] and [convert] treat sizes as Pillow's do. *)
Definition resized_to (w : World) (img : image) (tgt : Z * Z)
    (calls : list call) : Prop :=
  CallResize img tgt ∈ calls
  /\ (forall img' tgt', CallResize img' tgt' ∈ calls -> img' = img /\ tgt' = tgt)
  /\ (forall saved path kwargs, CallSave saved path kwargs ∈ calls ->
        exists img1, w_resize w img tgt = inr img1
          /\ (saved = img1 \/ w_convert w img1 "RGB" = inr saved))
  /\ (keeps_sizes w ->
      forall saved path kwargs, CallSave saved path kwargs ∈ calls ->
        img_size saved = tgt).

(** ** Target format families *)

(** The targets line 99 gives a [quality]: [jpg] or [jpeg], and
    [webp], selected by name or, for "Same as input", read off the
    input file's extension. *)
Definition jpeg_family (out_format inp_ext : string) : bool :=
  if String.eqb out_format "Same as input"
  then PyStr.str_in (PyStr.lower inp_ext) [".jpg"; ".jpeg"]
  else PyStr.str_in (PyStr.lower out_format) ["jpg"; "jpeg"].





(** ** The thumbnail placeholder *)

(** [Image.new("RGB", THUMBNAIL_SIZE, (220, 220, 220))]. *)
Definition placeholder : image := Image_new "RGB" THUMBNAIL_SIZE [220; 220; 220].

(** ** The consumer *)

(** C4 as worded: the row is the one the task identifier designates
    (tasks are numbered by row position in [build_files]), its status
    becomes the message's, and the count goes up by one. *)
Definition row_of_task_id (t : list row) (task_id : Z) : option string :=
  if 0 <=? task_id then row_item <$> t !! Z.to_nat task_id else None.

Definition aggregated_by_task_id (g g' : gui) (task_id : Z)
    (status : string) : Prop :=
  exists item,
    row_of_task_id (tree g) task_id = Some item
    /\ tree_get (tree g') item "status" = Some status
    /\ progress_value g' = progress_value g + 1.

Module PollSample.

Definition queued (item path : string) : row :=
  Row item {[ "path" := path; "status" := "Queued" ]} None.

(** A batch was started on the rows [a.png], [b.png] (tasks 0 and 1);
    the list was then cleared, and in [reloaded] the two files were
    added again in the other order. *)
Definition cleared : gui := Gui [] 0 2 ∅ [] "" true.

Definition reloaded : gui :=
  Gui [queued "I003" "b.png"; queued "I004" "a.png"] 0 2 ∅ [] "" true.

Definition failed_0 : gmap string pyval :=
  error_msg 0 "a.png" (Exception "cannot identify image file").

Definition human_kb (v : pyval) : string := "-".

End PollSample.

(** ** The pool *)

(** [m] is the message of task [t]. *)
Definition task_msg_ok (t : Z * string * string) (m : gmap string pyval) : Prop :=
  is_done_msg t.1.1 t.2 m \/ is_error_msg t.1.1 t.2 m.

(** The number of scheduling steps still to come. *)
Definition pool_measure (s : pool) : nat :=
  2 * length (pending s) + length (running s) + (if notified s then 0 else 1).

(** What holds of every state the pool reaches from [files] and an
    initial queue [q0]: the tasks are split between the finished, the
    running and the pending ones; the queue holds [q0], then one
    message per finished task in order of completion, then [all_done]
    if it was put; no future raised; and [all_done] is only put when
    nothing is left. *)
Definition pool_inv (files : list (Z * string * string))
    (q0 : list (gmap string pyval)) (s : pool) : Prop :=
  exists finished msgs,
    finished ++ running s ++ pending s ≡ₚ files
    /\ Forall2 task_msg_ok finished msgs
    /\ raised s = false
    /\ pool_q s = q0 ++ msgs ++ (if notified s then [all_done_msg] else [])
    /\ (notified s = true -> pending s = [] /\ running s = []).

(** ** Sample runs *)

Module Sample.

Definition exif : list Byte.byte := [Byte.x45; Byte.x78; Byte.x69; Byte.x66].

(** A 200x300 picture with an alpha channel and an EXIF block. *)
Definition rgba : image :=
  Image (200, 300) "RGBA" {[ "exif" := exif ]} [].

(** An environment in which every call succeeds, except that, as
    Pillow's JPEG encoder does, [save] refuses modes with alpha or a
    palette. *)
Definition world : World := {|
  w_fs := {[ "out/photo.jpg" ]};
  w_getsize_inp := fun _ => inr 4096;
  w_open_inp := fun _ => inr rgba;
  w_resize := fun i sz => inr (Image sz (img_mode i) (img_info i) []);
  w_convert := fun i m => inr (Image (img_size i) m (img_info i) []);
  w_save := fun i _ _ =>
    if PyStr.str_in (img_mode i) ["RGBA"; "P"]
    then inl (Exception "cannot write mode RGBA as JPEG")
    else inr tt;
  w_getsize_out := fun _ => inr 1024;
  w_open_out := fun _ => inl (Exception "cannot identify image file");
  w_thumbnail := fun i _ => inr i
|}.

(** [photo.png] converted to JPEG, and [photo.jpg] kept as it is. *)
Definition run_to_jpg : state * (exn + unit) :=
  process_single_file_task world 0 "in/photo.png" "out" 70 "Custom Size"
    (Some 100) None "jpg" true (State [] []).

Definition run_same_as_input : state * (exn + unit) :=
  process_single_file_task world 0 "in/photo.jpg" "out" 70 "Original"
    None None "Same as input" true (State [] []).

Definition jpg_kwargs : gmap string pyval :=
  {[ "optimize" := VBool true; "format" := VStr "JPEG";
     "quality" := VInt 70; "exif" := VBytes exif ]}.

Definition same_kwargs : gmap string pyval :=
  {[ "optimize" := VBool true; "quality" := VInt 70; "exif" := VBytes exif ]}.




End Sample.

Module PoolSample.

Definition cfg : settings :=
  Settings "out" 70 "Original" None None "Same as input" true.

Definition rows : list row :=
  [ Row "I001" {[ "path" := "in/photo.jpg" ]} None;
    Row "I002" {[ "path" := "in/scan.jpg" ]} None ].

Definition files : list (Z * string * string) := build_files rows.

Definition t0 : Z * string * string := (0, "I001", "in/photo.jpg").
Definition t1 : Z * string * string := (1, "I002", "in/scan.jpg").

(** Both tasks start, the second one completes first. *)
Definition q1 : list (gmap string pyval) :=
  msg_q (run_task cfg Sample.world t1 (State [] [])).1.

Definition q2 : list (gmap string pyval) :=
  msg_q (run_task cfg Sample.world t0 (State [] q1)).1.

Definition final : pool := Pool [] [] (q2 ++ [all_done_msg]) false true.

End PoolSample.

(** ** How lines 60-112 end *)

(** Whatever the state, [m] returns a value satisfying [Phi] or raises
    an exception satisfying [Psi]. *)
Definition outcome_sat {A} (Phi : A -> Prop) (Psi : exn -> Prop) (m : M A) : Prop :=
  forall s, match (m s).2 with inr x => Phi x | inl e => Psi e end.

Section Outcome.

Variable w : World.
Variables (inp_path out_dir : string) (quality : Z).
Variables (resize_flag : string) (new_w new_h : option Z).
Variables (out_format : string) (preserve_meta : bool).

(** The image handed to [img.save]: [img1] itself, or its conversion. *)
Definition converted (img0 img1 img : image) : Prop :=
  exists rgb,
    needs_rgb (task_kwargs inp_path quality out_format preserve_meta img0) img1
      = inr rgb
    /\ (if rgb : bool then w_convert w img1 "RGB" = inr img else img = img1).

(** Lines 60-112 returned [(before_size, save_path, after_size)]. *)
Definition encode_success (before_size : Z) (save_path : string)
    (after_size : Z) : Prop :=
  w_getsize_inp w inp_path = inr before_size
  /\ save_path = task_save_path w inp_path out_dir out_format
  /\ w_getsize_out w save_path = inr after_size
  /\ exists img0 img1 img,
       w_open_inp w inp_path = inr img0
       /\ resized w resize_flag new_w new_h img0 img1
       /\ converted img0 img1 img
       /\ w_save w img save_path
            (task_kwargs inp_path quality out_format preserve_meta img0) = inr tt.

(** Lines 60-112 raised [e]: the call it came from. *)
Definition encode_failure (e : exn) : Prop :=
  w_getsize_inp w inp_path = inl e
  \/ w_open_inp w inp_path = inl e
  \/ exists img0, w_open_inp w inp_path = inr img0
      /\ ((exists tgt,
             resize_target resize_flag new_w new_h (img_size img0) = Some tgt
             /\ w_resize w img0 tgt = inl e)
          \/ exists img1, resized w resize_flag new_w new_h img0 img1
              /\ (w_convert w img1 "RGB" = inl e
                  \/ exists img, converted img0 img1 img
                      /\ let save_path := task_save_path w inp_path out_dir out_format in
                         let kwargs := task_kwargs inp_path quality out_format
                                         preserve_meta img0 in
                         w_save w img save_path kwargs = inl e
                         \/ (w_save w img save_path kwargs = inr tt
                             /\ w_getsize_out w save_path = inl e))).

End Outcome.

(** ** Rows and messages, for the consumer *)

(** What identifies a row: its item identifier and its [path] column. *)
Definition row_key (r : row) : string * option string :=
  (row_item r, row_cols r !! "path").

(** The test of line 280. *)
Definition is_all_done (m : gmap string pyval) : bool :=
  pyval_is_str (dict_get m "control") "all_done".

(** [m] is the message of some task whose input path is shown by a row
    of [t] (with an identifier that is not empty, as Tk's are). *)
Definition counted (t : list row) (m : gmap string pyval) : Prop :=
  exists task_id inp_path item,
    (is_done_msg task_id inp_path m \/ is_error_msg task_id inp_path m)
    /\ find_target t (VStr inp_path) = Some item
    /\ item <> "".

(** A status a finished task leaves in its row. *)
Definition verdict (status : string) : Prop :=
  status = "Done" \/ exists e, status = "Error: " +:+ exn_str e.

(** The row [item] of the window shows a verdict. *)
Definition has_verdict (g : gui) (item : string) : Prop :=
  exists status, tree_get (tree g) item "status" = Some status /\ verdict status.

(** ** The list of files *)

(** The [path] columns of the rows, in order. *)
Definition shown_paths (t : list row) : list string :=
  omap (fun r => row_cols r !! "path") t.

(** The list as [add_file_row] builds it: every row has its [path]
    column, no path is shown twice, and the [#] column is the row's
    position, counted from one. *)
Definition listed_once (t : list row) : Prop :=
  Forall (fun r => is_Some (row_cols r !! "path")) t
  /\ NoDup (shown_paths t)
  /\ forall i r, t !! i = Some r -> row_cols r !! "#" = Some (pretty (S i)).

(** A message of some task. *)
Definition is_result (m : gmap string pyval) : Prop :=
  exists task_id inp_path,
    is_done_msg task_id inp_path m \/ is_error_msg task_id inp_path m.

(** What the worker threads put on the queue: the message of a task,
    or the closing [all_done]. *)
Definition worker_msg (m : gmap string pyval) : Prop :=
  is_result m \/ m = all_done_msg.

(** ** Sample list of files *)

Module GuiSample.

Definition env : GuiEnv :=
  {| g_isfile := fun p => negb (String.eqb p "in/notes.txt~");
     g_getsize := fun _ => inr 2048;
     g_item := fun n => "I00" +:+ pretty (S n) |}.

Definition empty : gui := Gui [] 0 0 ∅ [] "" false.

Definition human_kb (v : pyval) : string := "2.00 KB".

(** Two files, one of them dropped twice. *)
Definition listed : gui :=
  (add_files human_kb (fun p => p) env empty 0
     ["in/a.png"; "in/b.png"; "in/a.png"]).1.1.

Definition listed_files : list (Z * string * string) :=
  [(0, "I001", "in/a.png"); (1, "I002", "in/b.png")].

Definition py_int (s : string) : option Z :=
  if String.eqb s "70" then Some 70
  else if String.eqb s "-5" then Some (-5)
  else if String.eqb s "0" then Some 0
  else None.

Definition form : inputs := Inputs "70" "Custom Size" "-5" "" "png" true "out".

Definition form_cfg : settings :=
  Settings "out" 70 "Custom Size" (Some (-5)) None "png" true.

Definition bad_form : inputs := Inputs "high" "Original" "" "" "png" true "out".

Definition original_form : inputs :=
  Inputs "70" "Original" "wide" "-5" "jpg" false "out".

Definition strip_none (s : string) : string := s.

(** The batch of [form] on [listed]: both calls start, the second
    completes first, and the first poll comes between the two results. *)
Definition q1 : list (gmap string pyval) :=
  msg_q (run_task form_cfg Sample.world (1, "I002", "in/b.png") (State [] [])).1.

Definition q2 : list (gmap string pyval) :=
  msg_q (run_task form_cfg Sample.world (0, "I001", "in/a.png") (State [] q1)).1.

Definition final : pool := Pool [] [] (q2 ++ [all_done_msg]) false true.

Definition chunks : list (list (gmap string pyval)) :=
  [take 1 q2; drop 1 q2; [all_done_msg]].

End GuiSample.

(** ** The polls of a batch *)

(** [poll_queue] is first called by the timer [start_compression] sets
    and then by the timer it sets itself. [chunks] are the messages
    that arrive before each call, in order; a call that sets no timer
    is the last. Returns the widgets and what is left on the queue. *)
Fixpoint poll_rounds (human_kb : pyval -> string)
    (totals_text : list row -> string) (g : gui)
    (chunks : list (list (gmap string pyval)))
    : gui * list (gmap string pyval) :=
  match chunks with
  | [] => (g, [])
  | c :: chunks' =>
      let g' := (poll_queue human_kb totals_text g c).1 in
      if poll_scheduled g'
      then poll_rounds human_kb totals_text g' chunks'
      else (g', concat chunks')
  end.

(** ** Naming a batch sequentially *)

(** The output names of a list of desired paths when each output is
    written before the next one is named. *)
Fixpoint name_all (fs : gset string) (paths : list string) : list string :=
  match paths with
  | [] => []
  | p :: paths' =>
      let r := ensure_unique_path fs p in
      r :: name_all ({[ r ]} ∪ fs) paths'
  end.

(** * Properties *)

(** ** Unique naming *)

Section UniqueNamer.

Variable fs : gset string.
Variables base ext : string.

Lemma string_length_app (s1 s2 : string) :
  String.length (s1 +:+ s2) = (String.length s1 + String.length s2)%nat.
Proof. induction s1 as [|a s1 IH]; simpl; [done | by rewrite IH]. Qed.

Lemma string_app_inj_r (e s1 s2 : string) : s1 +:+ e = s2 +:+ e -> s1 = s2.
Proof.
  revert s2. induction s1 as [|a s1 IH]; intros [|b s2] H; simpl in *.
  - done.
  - apply (f_equal String.length) in H.
    rewrite !string_length_app in H. simpl in H. lia.
  - apply (f_equal String.length) in H.
    rewrite !string_length_app in H. simpl in H. lia.
  - injection H as -> H. f_equal. by apply IH.
Qed.

Lemma suffixed_inj (i j : nat) : suffixed base ext i = suffixed base ext j -> i = j.
Proof.
  unfold suffixed. intros H.
  apply (inj (String.app base)) in H.
  apply (inj (String.app "_")) in H.
  apply string_app_inj_r in H.
  by apply (inj pretty) in H.
Qed.

(** Among [n + 1] consecutive suffixed names, with [n] the number of
    existing paths, one is free. *)
Lemma suffixed_free_exists (c : nat) :
  exists k, (k <= size fs)%nat /\ (suffixed base ext (c + k) ∉ fs).
Proof.
  set (names := (fun k => suffixed base ext (c + k)) <$> seq 0 (S (size fs))).
  destruct (decide (Forall (fun p => p ∈ fs) names)) as [Hall|Hex].
  - exfalso.
    assert (Hnd : NoDup names).
    { apply NoDup_fmap_2; [|apply NoDup_seq].
      intros i j Hij. apply suffixed_inj in Hij. lia. }
    assert (Hsub : list_to_set (C := gset string) names ⊆ fs).
    { intros p Hp. apply elem_of_list_to_set in Hp.
      by eapply Forall_forall in Hall. }
    apply subseteq_size in Hsub.
    rewrite size_list_to_set in Hsub by done.
    unfold names in Hsub. rewrite length_fmap, length_seq in Hsub. lia.
  - apply not_Forall_Exists in Hex; [|intros p; apply _].
    apply Exists_exists in Hex as (p & Hp & Hfree).
    apply list_elem_of_fmap in Hp as (k & -> & Hk).
    apply elem_of_seq in Hk. exists k. split; [lia | done].
Qed.

(** From a name that exists, the loop returns the first free suffixed
    name, provided one lies within reach of the fuel. *)
Lemma ensure_unique_loop_next (n c : nat) :
  (exists k, (k <= n)%nat /\ (suffixed base ext (c + k) ∉ fs)) ->
  exists k, (k <= n)%nat
    /\ ensure_unique_loop n fs base ext (c + 1) (suffixed base ext c)
       = Some (suffixed base ext (c + k))
    /\ (suffixed base ext (c + k) ∉ fs)
    /\ forall j, (j < k)%nat -> suffixed base ext (c + j) ∈ fs.
Proof.
  revert c. induction n as [|n IH]; intros c (k & Hk & Hfree).
  - assert (k = 0)%nat as -> by lia. exists 0%nat.
    rewrite Nat.add_0_r in *. simpl. unfold os_path_exists.
    rewrite bool_decide_eq_false_2 by done.
    split_and!; [lia | done | done | intros; lia].
  - destruct (decide (suffixed base ext c ∈ fs)) as [Hin|Hout].
    + destruct k as [|k]; [by rewrite Nat.add_0_r in Hfree|].
      destruct (IH (c + 1)%nat) as (k' & Hk' & Hres & Hfree' & Hlow).
      { exists k. split; [lia|]. by replace (c + 1 + k)%nat with (c + S k)%nat by lia. }
      exists (S k'). replace (c + S k')%nat with (c + 1 + k')%nat by lia.
      simpl. unfold os_path_exists at 1. rewrite bool_decide_eq_true_2 by done.
      split_and!; [lia | done | done |].
      intros [|j] Hj; [by rewrite Nat.add_0_r|].
      replace (c + S j)%nat with (c + 1 + j)%nat by lia. apply Hlow. lia.
    + exists 0%nat. rewrite Nat.add_0_r. simpl. unfold os_path_exists.
      rewrite bool_decide_eq_false_2 by done.
      split_and!; [lia | done | done | intros; lia].
Qed.

(** More fuel does not change a result. *)
Lemma ensure_unique_loop_mono (n m c : nat) (x r : string) :
  (n <= m)%nat ->
  ensure_unique_loop n fs base ext c x = Some r ->
  ensure_unique_loop m fs base ext c x = Some r.
Proof.
  revert m c x. induction n as [|n IH]; intros m c x Hnm; simpl.
  - destruct (os_path_exists fs x) eqn:E; [done|].
    intros H. destruct m; simpl; by rewrite E.
  - destruct (os_path_exists fs x) eqn:E.
    + destruct m as [|m]; [lia|]. simpl. rewrite E. apply IH. lia.
    + intros H. destruct m; simpl; by rewrite E.
Qed.

End UniqueNamer.

(** With [S (size fs)] iterations or more the loop returns, and what it
    returns is [path] when that is free, else the first free suffixed
    name. *)
Lemma ensure_unique_fuel_enough (fs : gset string) (path : string) (fuel : nat) :
  (S (size fs) <= fuel)%nat ->
  exists r, ensure_unique_path_fuel fuel fs path = Some r
    /\ (r ∉ fs)
    /\ (path ∉ fs -> r = path)
    /\ (path ∈ fs -> exists k, (1 <= k)%nat
          /\ r = suffixed (OsPath.splitext path).1 (OsPath.splitext path).2 k
          /\ forall j, (1 <= j < k)%nat ->
               suffixed (OsPath.splitext path).1 (OsPath.splitext path).2 j ∈ fs).
Proof.
  intros Hfuel. unfold ensure_unique_path_fuel.
  destruct (OsPath.splitext path) as [base ext]; simpl.
  destruct fuel as [|fuel]; [lia|].
  destruct (decide (path ∈ fs)) as [Hin|Hout].
  - destruct (ensure_unique_loop_next fs base ext (size fs) 1
                (suffixed_free_exists fs base ext 1))
      as (k & Hk & Hres & Hfree & Hlow).
    exists (suffixed base ext (1 + k)). simpl. unfold os_path_exists at 1.
    rewrite bool_decide_eq_true_2 by done.
    split_and!; [|done|done|].
    + eapply ensure_unique_loop_mono; [|exact Hres]. lia.
    + intros _. exists (1 + k)%nat. split_and!; [lia|done|].
      intros j Hj. replace j with (1 + (j - 1))%nat by lia. apply Hlow. lia.
  - exists path. simpl. unfold os_path_exists.
    rewrite bool_decide_eq_false_2 by done. done.
Qed.

(** C3. [ensure_unique_path] terminates (any fuel from [S (size fs)] on
    gives the same result); it returns [path] unchanged when no file
    exists there; when one exists it returns [base_k ext] for the least
    [k >= 1] whose name is free, every lower-numbered name having been
    found to exist; and the returned path never exists in the file
    system it was checked against. *)
Theorem ensure_unique_path_correct (fs : gset string) (path : string) :
  let base := (OsPath.splitext path).1 in
  let ext := (OsPath.splitext path).2 in
  let r := ensure_unique_path fs path in
  (forall fuel, (S (size fs) <= fuel)%nat ->
     ensure_unique_path_fuel fuel fs path = Some r)
  /\ (r ∉ fs)
  /\ (path ∉ fs -> r = path)
  /\ (path ∈ fs -> exists k, (1 <= k)%nat
        /\ r = suffixed base ext k
        /\ (suffixed base ext k ∉ fs)
        /\ forall j, (1 <= j < k)%nat -> suffixed base ext j ∈ fs).
Proof.
  intros base ext r.
  destruct (ensure_unique_fuel_enough fs path (S (size fs)) (le_n _))
    as (r0 & Hr0 & Hfree & Hsame & Hsuf).
  assert (r = r0) as Hr by (unfold r, ensure_unique_path; by rewrite Hr0).
  rewrite Hr. split_and!; [|done|done|].
  - intros fuel Hfuel.
    destruct (ensure_unique_fuel_enough fs path fuel Hfuel) as (r1 & Hr1 & _).
    rewrite Hr1. f_equal.
    unfold ensure_unique_path_fuel in *.
    destruct (OsPath.splitext path) as [b e].
    eapply ensure_unique_loop_mono in Hr0; [|exact Hfuel]. congruence.
  - intros Hin. destruct (Hsuf Hin) as (k & Hk & -> & Hlow).
    exists k. split_and!; done.
Qed.

Example ensure_unique_path_taken :
  ensure_unique_path {[ "out/photo.jpg"; "out/photo_1.jpg"; "out/photo_3.jpg" ]}
    "out/photo.jpg" = "out/photo_2.jpg".
Proof. vm_compute. reflexivity. Qed.

Example ensure_unique_path_free :
  ensure_unique_path {[ "out/photo_1.jpg" ]} "out/photo.jpg" = "out/photo.jpg".
Proof. vm_compute. reflexivity. Qed.

(** ** The worker always reports exactly once *)

Lemma quiet_ret {A} (x : A) : quiet (mret x).
Proof. by intros s. Qed.

Lemma quiet_raise {A} (e : exn) : quiet (@raise A e).
Proof. by intros s. Qed.

Lemma quiet_lib_call {A} (c : call) (a : exn + A) : quiet (lib_call c a).
Proof. by intros s. Qed.

Lemma quiet_bind {A B} (m : M A) (k : A -> M B) :
  quiet m -> (forall x, quiet (k x)) -> quiet (m ≫= k).
Proof.
  intros Hm Hk s. unfold mbind, M_bind, bind. specialize (Hm s).
  destruct (m s) as [s' [e|x]]; simpl in *; [done|].
  by rewrite Hk.
Qed.

Lemma quiet_try_except {A} (m : M A) (h : exn -> M A) :
  quiet m -> (forall e, quiet (h e)) -> quiet (try_except m h).
Proof.
  intros Hm Hh s. unfold try_except. specialize (Hm s).
  destruct (m s) as [s' [e|x]]; simpl in *; [|done].
  by rewrite Hh.
Qed.

Lemma quiet_lift {A} (a : exn + A) : quiet (lift a).
Proof. by intros s. Qed.

Lemma quiet_make_thumbnail w save_path : quiet (make_thumbnail w save_path).
Proof.
  unfold make_thumbnail, thumb_body. apply quiet_try_except.
  - apply quiet_bind; intros; apply quiet_lib_call.
  - intros; apply quiet_lib_call.
Qed.

Lemma quiet_process_encode w inp_path out_dir quality resize_flag new_w new_h
    out_format preserve_meta :
  quiet (process_encode w inp_path out_dir quality resize_flag new_w new_h
           out_format preserve_meta).
Proof.
  unfold process_encode.
  apply quiet_bind; [apply quiet_lib_call|]. intros before_size.
  apply quiet_bind; [apply quiet_lib_call|]. intros img.
  apply quiet_bind.
  { destruct (resize_target _ _ _ _); [apply quiet_lib_call | apply quiet_ret]. }
  intros img'.
  destruct (OsPath.splitext _) as [name ext].
  destruct (target_of _ _) as [target_ext target_format].
  apply quiet_bind; [apply quiet_lift|]. intros rgb.
  apply quiet_bind.
  { destruct rgb; [apply quiet_lib_call | apply quiet_ret]. }
  intros img''.
  apply quiet_bind; [apply quiet_lib_call|]. intros _.
  apply quiet_bind; [apply quiet_lib_call|]. intros after_size.
  apply quiet_ret.
Qed.

Create HintDb quiet.
#[local] Hint Resolve quiet_ret quiet_raise quiet_lib_call quiet_lift
  quiet_make_thumbnail quiet_process_encode : quiet.

Lemma puts_one_bind {A} P (m : M A) (k : A -> M unit) :
  quiet m -> (forall x, puts_one_or_raises P (k x)) ->
  puts_one_or_raises P (m ≫= k).
Proof.
  intros Hm Hk s. unfold mbind, M_bind, bind. specialize (Hm s).
  destruct (m s) as [s' [e|x]]; simpl in *.
  - right. by exists e.
  - rewrite <- Hm. apply Hk.
Qed.

Lemma puts_one_put (P : gmap string pyval -> Prop) x :
  P x -> puts_one_or_raises P (msg_q_put x).
Proof. intros HP s. left. by exists x. Qed.

Lemma process_body_puts_one w task_id inp_path out_dir quality resize_flag
    new_w new_h out_format preserve_meta :
  puts_one_or_raises (is_done_msg task_id inp_path)
    (process_body w task_id inp_path out_dir quality resize_flag new_w new_h
       out_format preserve_meta).
Proof.
  unfold process_body.
  apply puts_one_bind; [auto with quiet|]. intros [[before_size save_path] after_size].
  apply puts_one_bind; [auto with quiet|]. intros thumb_img.
  apply puts_one_put. red. eauto.
Qed.

(** The outer [try] turns either outcome of the body into a normal
    return with one message on the queue. *)
Lemma process_single_file_task_puts_one (w : World) (task_id : Z)
    (inp_path out_dir : string) (quality : Z) (resize_flag : string)
    (new_w new_h : option Z) (out_format : string) (preserve_meta : bool)
    (s : state) :
  let run := process_single_file_task w task_id inp_path out_dir quality
               resize_flag new_w new_h out_format preserve_meta s in
  run.2 = inr tt
  /\ exists m, msg_q run.1 = msg_q s ++ [m]
       /\ (is_done_msg task_id inp_path m \/ is_error_msg task_id inp_path m).
Proof.
  intros run. unfold run, process_single_file_task, try_except.
  destruct (process_body_puts_one w task_id inp_path out_dir quality
              resize_flag new_w new_h out_format preserve_meta s)
    as [(x & Hres & Hq & Hx)|(e & Hres & Hq)];
    destruct (process_body _ _ _ _ _ _ _ _ _ _ s) as [s' res];
    simpl in *; subst res; simpl.
  - split; [done|]. exists x. split; [done|]. by left.
  - split; [done|]. exists (error_msg task_id inp_path e).
    rewrite Hq. split; [done|]. right. by exists e.
Qed.

(** C2. Whatever the library calls answer, success or exception at any
    step, a run of [process_single_file_task] returns normally (no
    exception leaves it) and has put exactly one message on the queue:
    either the task's [done] message or its [error] message carrying
    [str(e)]. *)
Theorem process_single_file_task_reports_once (w : World) (task_id : Z)
    (inp_path out_dir : string) (quality : Z) (resize_flag : string)
    (new_w new_h : option Z) (out_format : string) (preserve_meta : bool)
    (s : state) :
  let run := process_single_file_task w task_id inp_path out_dir quality
               resize_flag new_w new_h out_format preserve_meta s in
  run.2 = inr tt
  /\ exists m, msg_q run.1 = msg_q s ++ [m]
       /\ m !! "task_id" = Some (VInt task_id)
       /\ m !! "inp_path" = Some (VStr inp_path)
       /\ ((is_done_msg task_id inp_path m
            /\ m !! "status" = Some (VStr "done")
            /\ m !! "error" = Some VNone)
           \/ (exists e, m = error_msg task_id inp_path e
                /\ m !! "status" = Some (VStr "error")
                /\ m !! "error" = Some (VStr (exn_str e)))).
Proof.
  intros run.
  destruct (process_single_file_task_puts_one w task_id inp_path out_dir quality
              resize_flag new_w new_h out_format preserve_meta s)
    as (Hres & m & Hq & [Hm|Hm]).
  - split; [done|]. exists m. split; [done|].
    pose proof Hm as (sp & b & a & t & ->).
    split_and!; [done|done|]. left. done.
  - split; [done|]. exists m. split; [done|].
    destruct Hm as (e & ->).
    split_and!; [done|done|]. right. by exists e.
Qed.

(** ** The library calls a run makes *)

Section CallsSat.

Context {A B : Type} (Q : call -> Prop).

Lemma calls_sat_ret (x : A) : calls_sat Q (mret x).
Proof. intros s c Hc. by left. Qed.

Lemma calls_sat_lift (a : exn + A) : calls_sat Q (lift a).
Proof. intros s c Hc. by left. Qed.

Lemma calls_sat_put m : calls_sat Q (msg_q_put m).
Proof. intros s c Hc. by left. Qed.

Lemma calls_sat_lib_call (c : call) (a : exn + A) :
  Q c -> calls_sat Q (lib_call c a).
Proof.
  intros HQ s c' Hc. simpl in Hc.
  apply elem_of_app in Hc as [Hc|Hc]; [by left|].
  apply list_elem_of_singleton in Hc as ->. by right.
Qed.

Lemma calls_sat_bind (m : M A) (k : A -> M B) :
  calls_sat Q m -> (forall x, calls_sat Q (k x)) -> calls_sat Q (m ≫= k).
Proof.
  intros Hm Hk s c. unfold mbind, M_bind, bind. specialize (Hm s).
  destruct (m s) as [s' [e|x]]; simpl in *; [apply Hm|].
  intros Hc. destruct (Hk x s' c Hc) as [Hc'|HQ]; [by apply Hm | by right].
Qed.

(** After a library call the continuation runs on what was answered. *)
Lemma calls_sat_bind_lib (c : call) (a : exn + A) (k : A -> M B) :
  Q c -> (forall x, a = inr x -> calls_sat Q (k x)) ->
  calls_sat Q (lib_call c a ≫= k).
Proof.
  intros HQ Hk s c'. unfold mbind, M_bind, bind, lib_call.
  destruct a as [e|x]; simpl.
  - intros Hc. apply elem_of_app in Hc as [Hc|Hc]; [by left|].
    apply list_elem_of_singleton in Hc as ->. by right.
  - intros Hc. destruct (Hk x eq_refl _ _ Hc) as [Hc'|HQ']; [|by right].
    simpl in Hc'. apply elem_of_app in Hc' as [Hc'|Hc']; [by left|].
    apply list_elem_of_singleton in Hc' as ->. by right.
Qed.

Lemma calls_sat_bind_lift (a : exn + A) (k : A -> M B) :
  (forall x, a = inr x -> calls_sat Q (k x)) -> calls_sat Q (lift a ≫= k).
Proof.
  intros Hk s c. unfold mbind, M_bind, bind, lift.
  destruct a as [e|x]; simpl; [by left|]. by apply Hk.
Qed.

Lemma calls_sat_bind_ret (x : A) (k : A -> M B) :
  calls_sat Q (k x) -> calls_sat Q (mret x ≫= k).
Proof. intros Hk s c. apply Hk. Qed.

Lemma calls_sat_try_except (m : M A) (h : exn -> M A) :
  calls_sat Q m -> (forall e, calls_sat Q (h e)) -> calls_sat Q (try_except m h).
Proof.
  intros Hm Hh s c. unfold try_except. specialize (Hm s).
  destruct (m s) as [s' [e|x]]; simpl in *; [|apply Hm].
  intros Hc. destruct (Hh e s' c Hc) as [Hc'|HQ]; [by apply Hm | by right].
Qed.

End CallsSat.

Section RunCalls.

Variable w : World.
Variables (task_id : Z) (inp_path out_dir : string) (quality : Z).
Variables (resize_flag : string) (new_w new_h : option Z).
Variables (out_format : string) (preserve_meta : bool).

Lemma process_encode_calls_ok :
  calls_sat (call_ok w inp_path out_dir quality resize_flag new_w new_h
               out_format preserve_meta)
    (process_encode w inp_path out_dir quality resize_flag new_w new_h
       out_format preserve_meta).
Proof.
  unfold process_encode.
  apply calls_sat_bind_lib; [done|]. intros before_size _.
  apply calls_sat_bind_lib; [done|]. intros img0 Hopen.
  assert (Hrest : forall img1, resized w resize_flag new_w new_h img0 img1 ->
    calls_sat (call_ok w inp_path out_dir quality resize_flag new_w new_h
                 out_format preserve_meta)
      (let base := OsPath.basename inp_path in
       let '(name, ext) := OsPath.splitext base in
       let ext := PyStr.lower ext in
       let '(target_ext, target_format) := target_of out_format ext in
       let save_name := name +:+ target_ext in
       let save_path := OsPath.join out_dir save_name in
       let save_path := ensure_unique_path (w_fs w) save_path in
       let save_kwargs :=
         build_save_kwargs target_ext target_format quality
           (if preserve_meta then get_exif_bytes img0 else None) in
       rgb ← lift (needs_rgb save_kwargs img1);
       img ← (if rgb : bool
              then lib_call (CallConvert img1 "RGB") (w_convert w img1 "RGB")
              else mret img1);
       _ ← lib_call (CallSave img save_path save_kwargs)
             (w_save w img save_path save_kwargs);
       after_size ← lib_call (CallGetsize save_path) (w_getsize_out w save_path);
       mret (before_size, save_path, after_size))).
  { intros img1 Hres.
    unfold call_ok, task_kwargs, task_save_path, task_target.
    simpl. destruct (OsPath.splitext _) as [name ext]. simpl.
    destruct (target_of _ _) as [target_ext target_format]. simpl.
    set (save_path := ensure_unique_path _ _).
    set (save_kwargs := build_save_kwargs _ _ _ _).
    apply calls_sat_bind_lift. intros rgb Hrgb.
    destruct rgb.
    - apply calls_sat_bind_lib.
      + split; [done|]. by exists img0.
      + intros img Hconv. apply calls_sat_bind_lib.
        * exists img0, img1, true. done.
        * intros _ _. apply calls_sat_bind_lib; [done|].
          intros; apply calls_sat_ret.
    - apply calls_sat_bind_ret. apply calls_sat_bind_lib.
      + exists img0, img1, false. done.
      + intros _ _. apply calls_sat_bind_lib; [done|].
        intros; apply calls_sat_ret. }
  unfold resized in Hrest.
  destruct (resize_target resize_flag new_w new_h (img_size img0)) as [tgt|] eqn:Htgt.
  - apply calls_sat_bind_lib; [done|]. intros img1 Hres. by apply Hrest.
  - apply calls_sat_bind_ret. by apply Hrest.
Qed.

Lemma process_calls_ok :
  calls_sat (call_ok w inp_path out_dir quality resize_flag new_w new_h
               out_format preserve_meta)
    (process_single_file_task w task_id inp_path out_dir quality resize_flag
       new_w new_h out_format preserve_meta).
Proof.
  unfold process_single_file_task. apply calls_sat_try_except.
  - unfold process_body. apply calls_sat_bind; [apply process_encode_calls_ok|].
    intros [[before_size save_path] after_size].
    apply calls_sat_bind.
    + unfold make_thumbnail, thumb_body. apply calls_sat_try_except.
      * apply calls_sat_bind_lib; [done|]. intros.
        by apply calls_sat_lib_call.
      * intros. by apply calls_sat_lib_call.
    + intros. apply calls_sat_put.
  - intros. apply calls_sat_put.
Qed.

End RunCalls.

(** ** Resize target *)

Lemma truthy_int_Some (v : Z) : truthy_int (Some v) = negb (v =? 0).
Proof. done. Qed.

Lemma resize_target_original new_w new_h size :
  resize_target "Original" new_w new_h size = None.
Proof. done. Qed.

(** What [resize_target] computes, case by case on the two entries. *)
Lemma resize_target_custom (resize_flag : string) (new_w new_h : option Z)
    (src_w src_h : Z) :
  resize_flag <> "Original" ->
  resize_target resize_flag new_w new_h (src_w, src_h) =
    if (truthy_int new_w || truthy_int new_h)%bool
    then Some (if truthy_int new_w then default 0 new_w else src_w,
               if truthy_int new_h then default 0 new_h else src_h)
    else None.
Proof.
  intros Hflag. unfold resize_target, py_or, if_else.
  apply String.eqb_neq in Hflag. rewrite Hflag. simpl.
  destruct (truthy_int new_w) eqn:Ew; simpl; [by rewrite Ew|done].
Qed.

(** With one axis entered, the target has the entry on that axis and
    the source's dimension on the other. *)
Lemma resize_target_one_axis (resize_flag : string) (v : Z) (src_w src_h : Z) :
  resize_flag <> "Original" -> v <> 0 ->
  resize_target resize_flag (Some v) None (src_w, src_h) = Some (v, src_h)
  /\ resize_target resize_flag None (Some v) (src_w, src_h) = Some (src_w, v).
Proof.
  intros Hflag Hv. rewrite !resize_target_custom by done.
  rewrite truthy_int_Some. apply Z.eqb_neq in Hv. by rewrite Hv.
Qed.

(** ** Calls are only added *)

Section CallsKept.

Context {A B : Type}.

Lemma calls_kept_ret (x : A) : calls_kept (mret x).
Proof. by intros s c Hc. Qed.

Lemma calls_kept_lift (a : exn + A) : calls_kept (lift a).
Proof. by intros s c Hc. Qed.

Lemma calls_kept_put m : calls_kept (msg_q_put m).
Proof. by intros s c Hc. Qed.

Lemma calls_kept_lib_call (c : call) (a : exn + A) : calls_kept (lib_call c a).
Proof. intros s c' Hc. simpl. apply elem_of_app. by left. Qed.

Lemma calls_kept_bind (m : M A) (k : A -> M B) :
  calls_kept m -> (forall x, calls_kept (k x)) -> calls_kept (m ≫= k).
Proof.
  intros Hm Hk s c Hc. unfold mbind, M_bind, bind. specialize (Hm s c Hc).
  destruct (m s) as [s' [e|x]]; simpl in *; [done|]. by apply Hk.
Qed.

Lemma calls_kept_try_except (m : M A) (h : exn -> M A) :
  calls_kept m -> (forall e, calls_kept (h e)) -> calls_kept (try_except m h).
Proof.
  intros Hm Hh s c Hc. unfold try_except. specialize (Hm s c Hc).
  destruct (m s) as [s' [e|x]]; simpl in *; [|done]. by apply Hh.
Qed.

(** A call that was answered is followed by the continuation. *)
Lemma bind_lib_answered (c : call) (a : exn + A) (x : A) (k : A -> M B)
    (s : state) :
  a = inr x ->
  (lib_call c a ≫= k) s = k x (State (st_calls s ++ [c]) (msg_q s)).
Proof. by intros ->. Qed.

(** A call that is made stays on the record, whatever it answers. *)
Lemma bind_lib_recorded (c : call) (a : exn + A) (k : A -> M B) (s : state) :
  (forall x, calls_kept (k x)) ->
  c ∈ st_calls ((lib_call c a ≫= k) s).1.
Proof.
  intros Hk. unfold mbind, M_bind, bind, lib_call.
  assert (Hc : c ∈ st_calls s ++ [c]).
  { apply elem_of_app. right. by apply list_elem_of_singleton. }
  destruct a as [e|x]; simpl; [done|]. by apply Hk.
Qed.

Lemma recorded_bind (m : M A) (k : A -> M B) (s : state) (c : call) :
  (forall x, calls_kept (k x)) ->
  c ∈ st_calls (m s).1 -> c ∈ st_calls ((m ≫= k) s).1.
Proof.
  intros Hk Hc. unfold mbind, M_bind, bind.
  destruct (m s) as [s' [e|x]]; simpl in *; [done|]. by apply Hk.
Qed.

Lemma recorded_try_except (m : M A) (h : exn -> M A) (s : state) (c : call) :
  (forall e, calls_kept (h e)) ->
  c ∈ st_calls (m s).1 -> c ∈ st_calls (try_except m h s).1.
Proof.
  intros Hh Hc. unfold try_except.
  destruct (m s) as [s' [e|x]]; simpl in *; [|done]. by apply Hh.
Qed.

End CallsKept.

Ltac calls_kept :=
  repeat first
    [ apply calls_kept_ret | apply calls_kept_lift | apply calls_kept_put
    | apply calls_kept_lib_call
    | apply calls_kept_bind; [|intros]
    | apply calls_kept_try_except; [|intros]
    | match goal with
      | |- calls_kept (if ?b then _ else _) => destruct b
      | |- calls_kept (match ?x with _ => _ end) => destruct x
      end ].

Section RunResizes.

Variable w : World.
Variables (task_id : Z) (inp_path out_dir : string) (quality : Z).
Variables (resize_flag : string) (new_w new_h : option Z).
Variables (out_format : string) (preserve_meta : bool).

(** A run whose input decodes and whose settings give a target does
    call [img.resize] with it, on the decoded image. *)
Lemma run_calls_resize (s : state) (before_size : Z) (img : image)
    (tgt : Z * Z) :
  w_getsize_inp w inp_path = inr before_size ->
  w_open_inp w inp_path = inr img ->
  resize_target resize_flag new_w new_h (img_size img) = Some tgt ->
  CallResize img tgt ∈
    st_calls (process_single_file_task w task_id inp_path out_dir quality
                resize_flag new_w new_h out_format preserve_meta s).1.
Proof.
  intros Hsize Hopen Htgt.
  unfold process_single_file_task.
  apply recorded_try_except; [intros; apply calls_kept_put|].
  unfold process_body.
  apply recorded_bind.
  { intros [[b sp] a]. unfold make_thumbnail, thumb_body. calls_kept. }
  unfold process_encode.
  rewrite (bind_lib_answered _ _ _ _ _ Hsize).
  rewrite (bind_lib_answered _ _ _ _ _ Hopen).
  cbv beta zeta. rewrite Htgt.
  apply bind_lib_recorded. intros img1. calls_kept.
Qed.

(** With a target, every [resize] call of a run is the one on the
    decoded image with that target, and what is saved is its result or
    the conversion of its result. *)
Lemma run_resized_to (q : list (gmap string pyval)) (before_size : Z)
    (img : image) (tgt : Z * Z) :
  w_getsize_inp w inp_path = inr before_size ->
  w_open_inp w inp_path = inr img ->
  resize_target resize_flag new_w new_h (img_size img) = Some tgt ->
  resized_to w img tgt
    (st_calls (process_single_file_task w task_id inp_path out_dir quality
                 resize_flag new_w new_h out_format preserve_meta
                 (State [] q)).1).
Proof.
  intros Hsize Hopen Htgt.
  assert (Hsaved : forall saved path kwargs,
    CallSave saved path kwargs ∈
      st_calls (process_single_file_task w task_id inp_path out_dir quality
                  resize_flag new_w new_h out_format preserve_meta
                  (State [] q)).1 ->
    exists img1, w_resize w img tgt = inr img1
      /\ (saved = img1 \/ w_convert w img1 "RGB" = inr saved)).
  { intros saved path kwargs Hc.
    apply process_calls_ok in Hc as [Hc|Hok]; [by apply elem_of_nil in Hc|].
    destruct Hok as (img0 & img1 & rgb & Hopen' & Hres & _ & Hconv & _).
    rewrite Hopen in Hopen'. injection Hopen' as <-.
    unfold resized in Hres. rewrite Htgt in Hres.
    exists img1. split; [done|]. destruct rgb; [by right | by left]. }
  split_and!.
  - by eapply run_calls_resize.
  - intros img' tgt' Hc.
    apply process_calls_ok in Hc as [Hc|[Hopen' Htgt']]; [by apply elem_of_nil in Hc|].
    rewrite Hopen in Hopen'. injection Hopen' as <-.
    rewrite Htgt in Htgt'. by injection Htgt' as <-.
  - exact Hsaved.
  - intros [Hres Hconv] saved path kwargs Hc.
    destruct (Hsaved saved path kwargs Hc) as (img1 & Hr & [->|Hc']).
    + by eapply Hres.
    + rewrite (Hconv _ _ _ Hc'). by eapply Hres.
Qed.

End RunResizes.

(** C6. In Custom mode with exactly one axis entered (and not 0), a
    run whose input decodes resizes it to the entered value on that
    axis and the source's dimension on the other, with no aspect-ratio
    scaling: it calls [img.resize] on the decoded image with that size,
    it makes no other [resize] call, what it passes to [img.save] is
    the result of that call (or its conversion to RGB), and so has that
    size wherever [resize] returns the size asked for. A 200x300 source
    with width 100 and no height is resized to 100x300. *)
Theorem custom_resize_missing_axis_is_source (w : World) (task_id : Z)
    (inp_path out_dir : string) (quality : Z) (resize_flag : string) (v : Z)
    (out_format : string) (preserve_meta : bool)
    (q : list (gmap string pyval)) (before_size : Z) (img : image) :
  resize_flag <> "Original" -> v <> 0 ->
  w_getsize_inp w inp_path = inr before_size ->
  w_open_inp w inp_path = inr img ->
  let run new_w new_h :=
    st_calls (process_single_file_task w task_id inp_path out_dir quality
                resize_flag new_w new_h out_format preserve_meta
                (State [] q)).1 in
  resized_to w img (v, (img_size img).2) (run (Some v) None)
  /\ resized_to w img ((img_size img).1, v) (run None (Some v)).
Proof.
  intros Hflag Hv Hsize Hopen run.
  destruct (resize_target_one_axis resize_flag v (img_size img).1
              (img_size img).2 Hflag Hv) as [Hw Hh].
  rewrite <- surjective_pairing in Hw, Hh.
  split; unfold run; by eapply run_resized_to.
Qed.

Lemma custom_resize_missing_axis_witness :
  resized_to Sample.world Sample.rgba (100, 300) (st_calls Sample.run_to_jpg.1).
Proof.
  apply (custom_resize_missing_axis_is_source Sample.world 0 "in/photo.png"
           "out" 70 "Custom Size" 100 "jpg" true [] 4096 Sample.rgba);
    [discriminate | discriminate | reflexivity | reflexivity].
Defined.



(** ** Encode parameters *)

Lemma lower_upper_char (a : ascii) :
  PyStr.lower_char (PyStr.upper_char a) = PyStr.lower_char a.
Proof. destruct a as [[] [] [] [] [] [] [] []]; reflexivity. Qed.

Lemma lower_upper (s : string) : PyStr.lower (PyStr.upper s) = PyStr.lower s.
Proof.
  induction s as [|a s IH]; [done|].
  unfold PyStr.lower, PyStr.upper in *. simpl. by rewrite lower_upper_char, IH.
Qed.


Lemma build_save_kwargs_format te tf q e :
  build_save_kwargs te tf q e !! "format" = VStr <$> tf.
Proof.
  unfold build_save_kwargs.
  destruct tf; simpl;
    repeat match goal with
           | |- context [if ?x then _ else _] => destruct x
           end; by simplify_map_eq.
Qed.

Lemma build_save_kwargs_quality te tf q e :
  build_save_kwargs te tf q e !! "quality" =
    if (PyStr.str_in te [".jpg"; ".jpeg"; ".webp"]
        || match tf with
           | Some f => negb (String.eqb f "") && PyStr.str_in f ["JPEG"; "WEBP"]
           | None => false
           end)%bool
    then Some (VInt q) else None.
Proof.
  unfold build_save_kwargs.
  destruct (_ || _)%bool; destruct tf; destruct (truthy_bytes e);
    by simplify_map_eq.
Qed.

Lemma build_save_kwargs_exif te tf q e :
  build_save_kwargs te tf q e !! "exif" =
    if truthy_bytes e then VBytes <$> e else None.
Proof.
  unfold build_save_kwargs.
  destruct (_ || _)%bool; destruct tf; destruct e as [[|b e]|];
    by simplify_map_eq.
Qed.




Example run_to_jpg_calls :
  st_calls Sample.run_to_jpg.1 =
    [ CallGetsize "in/photo.png"; CallOpen "in/photo.png";
      CallResize Sample.rgba (100, 300);
      CallConvert (Image (100, 300) "RGBA" {[ "exif" := Sample.exif ]} []) "RGB";
      CallSave (Image (100, 300) "RGB" {[ "exif" := Sample.exif ]} [])
        "out/photo_1.jpg" Sample.jpg_kwargs;
      CallGetsize "out/photo_1.jpg"; CallOpen "out/photo_1.jpg";
      CallNew "RGB" (64, 48) [220; 220; 220] ].
Proof. vm_compute. reflexivity. Qed.

Ltac in_list :=
  apply list_elem_of_In; vm_compute;
  repeat (first [ left; reflexivity | right ]).



(** ** Metadata *)

(** An empty byte string under [info["exif"]] is false in
    [if exif_bytes:] and is passed on no more than a missing entry. *)
Lemma empty_exif_is_not_attached te tf q :
  build_save_kwargs te tf q (Some []) !! "exif" = None.
Proof. by rewrite build_save_kwargs_exif. Qed.

(** C8. In every [img.save] call of a run of the worker: with
    [preserve_meta] off the keyword arguments carry no [exif] entry,
    whatever the source holds; with it on and a source that carries a
    metadata blob (the bytes Pillow stored under [info["exif"]], which
    are not empty), the [exif] entry is exactly that blob. *)
Theorem save_kwargs_exif (w : World) (task_id : Z)
    (inp_path out_dir : string) (quality : Z) (resize_flag : string)
    (new_w new_h : option Z) (out_format : string) (preserve_meta : bool)
    (q : list (gmap string pyval)) (img : image) (path : string)
    (kwargs : gmap string pyval) :
  CallSave img path kwargs ∈
    st_calls (process_single_file_task w task_id inp_path out_dir quality
                resize_flag new_w new_h out_format preserve_meta
                (State [] q)).1 ->
  exists img0, w_open_inp w inp_path = inr img0
    /\ (preserve_meta = false -> kwargs !! "exif" = None)
    /\ (preserve_meta = true ->
        forall b, get_exif_bytes img0 = Some b -> b <> [] ->
                  kwargs !! "exif" = Some (VBytes b)).
Proof.
  intros Hc.
  apply process_calls_ok in Hc as [Hc|Hok]; [by apply elem_of_nil in Hc|].
  destruct Hok as (img0 & img1 & rgb & Hopen & _ & _ & _ & _ & ->).
  exists img0. split; [done|]. unfold task_kwargs.
  rewrite build_save_kwargs_exif. split.
  - by intros ->.
  - intros -> b -> Hb. by destruct b.
Qed.

Lemma save_kwargs_exif_witness :
  Sample.jpg_kwargs !! "exif" = Some (VBytes Sample.exif).
Proof.
  destruct (save_kwargs_exif Sample.world 0 "in/photo.png" "out" 70
              "Custom Size" (Some 100) None "jpg" true []
              (Image (100, 300) "RGB" {[ "exif" := Sample.exif ]} [])
              "out/photo_1.jpg" Sample.jpg_kwargs ltac:(in_list))
    as (img0 & Hopen & _ & Hon).
  injection Hopen as <-.
  apply Hon; [reflexivity | reflexivity | discriminate].
Defined.

(** ** Thumbnail fallback *)

Lemma Image_new_solid (mode : string) (size : Z * Z) (color : list Z) :
  Forall (fun px => px = color) (img_pixels (Image_new mode size color)).
Proof.
  apply Forall_forall. intros px Hpx.
  by apply list_elem_of_In, repeat_spec in Hpx.
Qed.

Lemma placeholder_solid :
  img_size placeholder = (64, 48)
  /\ img_mode placeholder = "RGB"
  /\ length (img_pixels placeholder) = (64 * 48)%nat
  /\ Forall (fun px => px = [220; 220; 220]) (img_pixels placeholder).
Proof.
  split_and!; [done|done|apply repeat_length|apply Image_new_solid].
Qed.

Lemma quiet_thumb_body w save_path : quiet (thumb_body w save_path).
Proof. unfold thumb_body. apply quiet_bind; intros; apply quiet_lib_call. Qed.

(** C9. When a run has got as far as the thumbnail step (decode,
    transform, save and both size readings succeeded) and that step
    raises, whether on re-opening the output or on scaling it, the
    worker still returns normally and puts one [done] message, with
    both sizes, the output path, and as thumbnail the 64x48 bitmap
    filled with (220, 220, 220). *)
Theorem thumbnail_failure_gives_placeholder (w : World) (task_id : Z)
    (inp_path out_dir : string) (quality : Z) (resize_flag : string)
    (new_w new_h : option Z) (out_format : string) (preserve_meta : bool)
    (s s1 s2 : state) (before_size after_size : Z) (save_path : string)
    (e : exn) :
  process_encode w inp_path out_dir quality resize_flag new_w new_h
    out_format preserve_meta s = (s1, inr (before_size, save_path, after_size)) ->
  thumb_body w save_path s1 = (s2, inl e) ->
  let run := process_single_file_task w task_id inp_path out_dir quality
               resize_flag new_w new_h out_format preserve_meta s in
  let m := done_msg task_id inp_path save_path before_size after_size placeholder in
  run.2 = inr tt
  /\ msg_q run.1 = msg_q s ++ [m]
  /\ m !! "status" = Some (VStr "done")
  /\ m !! "out_path" = Some (VStr save_path)
  /\ m !! "before_size" = Some (VInt before_size)
  /\ m !! "after_size" = Some (VInt after_size)
  /\ m !! "thumb" = Some (VImage placeholder)
  /\ img_size placeholder = THUMBNAIL_SIZE
  /\ Forall (fun px => px = [220; 220; 220]) (img_pixels placeholder).
Proof.
  intros Henc Hthumb run m.
  pose proof (quiet_process_encode w inp_path out_dir quality resize_flag
                new_w new_h out_format preserve_meta s) as Hq1.
  pose proof (quiet_thumb_body w save_path s1) as Hq2.
  rewrite Henc in Hq1. rewrite Hthumb in Hq2. simpl in Hq1, Hq2.
  assert (Hrun : run = (State (st_calls s2 ++ [CallNew "RGB" THUMBNAIL_SIZE [220; 220; 220]])
                          (msg_q s2 ++ [m]), inr tt)).
  { unfold run, process_single_file_task, try_except, process_body.
    unfold mbind, M_bind, bind. rewrite Henc.
    unfold make_thumbnail, try_except. rewrite Hthumb. done. }
  rewrite Hrun. simpl. rewrite Hq2, Hq1.
  split_and!; try done.
  apply placeholder_solid.
Qed.

Lemma thumbnail_failure_gives_placeholder_witness :
  msg_q Sample.run_to_jpg.1 =
    [done_msg 0 "in/photo.png" "out/photo_1.jpg" 4096 1024 placeholder].
Proof.
  refine (proj1 (proj2
    (thumbnail_failure_gives_placeholder Sample.world 0 "in/photo.png" "out" 70
       "Custom Size" (Some 100) None "jpg" true (State [] [])
       (process_encode Sample.world "in/photo.png" "out" 70 "Custom Size"
          (Some 100) None "jpg" true (State [] [])).1
       (thumb_body Sample.world "out/photo_1.jpg"
          (process_encode Sample.world "in/photo.png" "out" 70 "Custom Size"
             (Some 100) None "jpg" true (State [] [])).1).1
       4096 1024 "out/photo_1.jpg"
       (Exception "cannot identify image file") _ _))).
  - vm_compute. reflexivity.
  - vm_compute. reflexivity.
Defined.

(** ** RGB conversion before a JPEG save *)

(** With "Same as input" the format is left to Pillow, the keyword
    arguments carry no [format] entry, and the test of line 107 is
    false: no run ever calls [img.convert]. *)
Lemma same_as_input_never_converts (w : World) (task_id : Z)
    (inp_path out_dir : string) (quality : Z) (resize_flag : string)
    (new_w new_h : option Z) (preserve_meta : bool)
    (q : list (gmap string pyval)) (img : image) (mode : string) :
  CallConvert img mode ∉
    st_calls (process_single_file_task w task_id inp_path out_dir quality
                resize_flag new_w new_h "Same as input" preserve_meta
                (State [] q)).1.
Proof.
  intros Hc.
  apply process_calls_ok in Hc as [Hc|Hok]; [by apply elem_of_nil in Hc|].
  destruct Hok as (_ & img0 & _ & _ & Hrgb).
  unfold needs_rgb, task_kwargs in Hrgb.
  rewrite build_save_kwargs_format in Hrgb. by simpl in Hrgb.
Qed.

(** When the JPEG format is selected by name, the image handed to
    [img.save] is the converted one whenever the image was in mode
    RGBA or P. *)
Lemma explicit_jpeg_save_is_converted (w : World) (task_id : Z)
    (inp_path out_dir : string) (quality : Z) (resize_flag : string)
    (new_w new_h : option Z) (out_format : string) (preserve_meta : bool)
    (q : list (gmap string pyval)) (img : image) (path : string)
    (kwargs : gmap string pyval) :
  out_format <> "Same as input" ->
  PyStr.str_in (PyStr.lower out_format) ["jpg"; "jpeg"] = true ->
  CallSave img path kwargs ∈
    st_calls (process_single_file_task w task_id inp_path out_dir quality
                resize_flag new_w new_h out_format preserve_meta
                (State [] q)).1 ->
  exists img1,
    if PyStr.str_in (img_mode img1) ["RGBA"; "P"]
    then w_convert w img1 "RGB" = inr img
    else img = img1.
Proof.
  intros Hexp Hjpeg Hc.
  apply process_calls_ok in Hc as [Hc|Hok]; [by apply elem_of_nil in Hc|].
  destruct Hok as (img0 & img1 & rgb & _ & _ & Hrgb & Himg & _ & _).
  exists img1. unfold needs_rgb, task_kwargs in Hrgb.
  rewrite build_save_kwargs_format in Hrgb.
  unfold task_target, target_of in Hrgb.
  apply String.eqb_neq in Hexp. rewrite Hexp, Hjpeg in Hrgb.
  simpl in Hrgb. injection Hrgb as <-. exact Himg.
Qed.

(** C5 (the code departs from the claim). A file named [photo.jpg]
    whose decoded image is in mode RGBA, processed with "Same as
    input": the target is in the JPEG family, yet the worker makes no
    [img.convert] call and hands the RGBA image itself to [img.save];
    here the encoder refuses it and the task ends in an error. *)
Theorem same_as_input_jpeg_keeps_alpha :
  jpeg_family "Same as input"
    (OsPath.splitext (OsPath.basename "in/photo.jpg")).2 = true
  /\ img_mode Sample.rgba = "RGBA"
  /\ st_calls Sample.run_same_as_input.1 =
       [ CallGetsize "in/photo.jpg"; CallOpen "in/photo.jpg";
         CallSave Sample.rgba "out/photo_1.jpg" Sample.same_kwargs ]
  /\ msg_q Sample.run_same_as_input.1 =
       [ error_msg 0 "in/photo.jpg"
           (Exception "cannot write mode RGBA as JPEG") ].
Proof. vm_compute. done. Qed.

(** ** The queue consumer *)

Section PollFacts.

Lemma tree_get_set_same (t : list row) (item column value : string) :
  (exists r, r ∈ t /\ row_item r = item) ->
  tree_get (tree_set t item column value) item column = Some value.
Proof.
  intros (r & Hr & Hitem). unfold tree_get, tree_set.
  induction t as [|r0 t IH]; [by apply elem_of_nil in Hr|].
  simpl. destruct (String.eqb (row_item r0) item) eqn:E; simpl.
  - rewrite E. simpl. by rewrite lookup_insert_eq.
  - rewrite E. apply IH. apply elem_of_cons in Hr as [->|Hr]; [|done].
    apply String.eqb_neq in E. done.
Qed.

Lemma tree_get_set_other_item (t : list row) (item item' column column' value : string) :
  item' <> item ->
  tree_get (tree_set t item column value) item' column' = tree_get t item' column'.
Proof.
  intros Hne. unfold tree_get, tree_set.
  induction t as [|r0 t IH]; [done|].
  simpl. destruct (String.eqb (row_item r0) item) eqn:E; simpl.
  - apply String.eqb_eq in E. rewrite E.
    apply not_eq_sym, String.eqb_neq in Hne. rewrite Hne. apply IH.
  - destruct (String.eqb (row_item r0) item'); [done|apply IH].
Qed.

Lemma tree_get_set_other_column (t : list row) (item item' column column' value : string) :
  column' <> column ->
  tree_get (tree_set t item column value) item' column' = tree_get t item' column'.
Proof.
  intros Hne. unfold tree_get, tree_set.
  induction t as [|r0 t IH]; [done|].
  simpl. destruct (String.eqb (row_item r0) item) eqn:E; simpl.
  - destruct (String.eqb (row_item r0) item'); [|apply IH].
    simpl. by rewrite lookup_insert_ne.
  - destruct (String.eqb (row_item r0) item'); [done|apply IH].
Qed.

Lemma tree_get_item_image (t : list row) (item item' column : string) (photo : image) :
  tree_get (tree_item_image t item photo) item' column = tree_get t item' column.
Proof.
  unfold tree_get, tree_item_image.
  induction t as [|r0 t IH]; [done|].
  simpl. destruct (String.eqb (row_item r0) item); simpl;
    destruct (String.eqb (row_item r0) item'); done.
Qed.

Lemma tree_set_items (t : list row) (item column value : string) :
  row_item <$> tree_set t item column value = row_item <$> t.
Proof.
  unfold tree_set. induction t as [|r0 t IH]; [done|].
  cbn [List.map]. rewrite !fmap_cons, IH.
  by destruct (String.eqb (row_item r0) item).
Qed.

Lemma tree_item_image_items (t : list row) (item : string) (photo : image) :
  row_item <$> tree_item_image t item photo = row_item <$> t.
Proof.
  unfold tree_item_image. induction t as [|r0 t IH]; [done|].
  cbn [List.map]. rewrite !fmap_cons, IH.
  by destruct (String.eqb (row_item r0) item).
Qed.

Lemma has_item_iff (t : list row) (item : string) :
  (exists r, r ∈ t /\ row_item r = item) <-> item ∈ row_item <$> t.
Proof.
  rewrite list_elem_of_fmap. split.
  - intros (r & Hr & <-). eauto.
  - intros (r & -> & Hr). eauto.
Qed.

(** The row [find_target] picks: the first one whose [path] column is
    the given path. *)
Lemma find_target_first (t : list row) (path item : string) :
  find_target t (VStr path) = Some item ->
  exists i r, t !! i = Some r /\ row_item r = item
    /\ row_cols r !! "path" = Some path
    /\ forall j r', (j < i)%nat -> t !! j = Some r' ->
         row_cols r' !! "path" <> Some path.
Proof.
  induction t as [|r0 t IH]; [done|]. simpl.
  destruct (row_cols r0 !! "path") as [p|] eqn:Ep.
  - destruct (String.eqb_spec p path) as [->|Hne].
    + intros [= <-]. exists 0%nat, r0. split_and!; [done|done|done|].
      intros; lia.
    + intros H. destruct (IH H) as (i & r & Hi & Hr & Hp & Hlow).
      exists (S i), r. split_and!; [done|done|done|].
      intros [|j] r' Hj Hj'; simpl in Hj'.
      * injection Hj' as <-. rewrite Ep. congruence.
      * apply (Hlow j); [lia|done].
  - intros H. destruct (IH H) as (i & r & Hi & Hr & Hp & Hlow).
    exists (S i), r. split_and!; [done|done|done|].
    intros [|j] r' Hj Hj'; simpl in Hj'.
    + injection Hj' as <-. rewrite Ep. congruence.
    + apply (Hlow j); [lia|done].
Qed.

Lemma find_target_none (t : list row) (path : string) :
  find_target t (VStr path) = None ->
  forall r, r ∈ t -> row_cols r !! "path" <> Some path.
Proof.
  induction t as [|r0 t IH]; intros H r Hr; [by apply elem_of_nil in Hr|].
  simpl in H. apply elem_of_cons in Hr as [->|Hr].
  - destruct (row_cols r0 !! "path") as [p|]; [|done].
    destruct (String.eqb_spec p path); [done|congruence].
  - apply IH; [|done].
    destruct (row_cols r0 !! "path") as [p|]; [|done].
    by destruct (String.eqb p path).
Qed.

End PollFacts.

Section PollMsg.

Variable human_kb : pyval -> string.

Lemma dict_get_insert_ne (m : gmap string pyval) (k k' : string) (v : pyval) :
  k <> k' -> dict_get (<[ k := v ]> m) k' = dict_get m k'.
Proof. intros H. unfold dict_get. by rewrite lookup_insert_ne. Qed.

Lemma dict_get_default_insert_ne (m : gmap string pyval) (k k' : string) (v x : pyval) :
  k <> k' -> dict_get_default (<[ k := v ]> m) k' x = dict_get_default m k' x.
Proof. intros H. unfold dict_get_default. by rewrite lookup_insert_ne. Qed.

(** [poll_msg] never reads the [task_id] entry of a message. *)
Lemma poll_msg_ignores_task_id (g : gui) (m : gmap string pyval) (v : pyval) :
  poll_msg human_kb g (<[ "task_id" := v ]> m) = poll_msg human_kb g m.
Proof.
  unfold poll_msg.
  by rewrite !dict_get_insert_ne, !dict_get_default_insert_ne.
Qed.

Lemma find_target_has_item (t : list row) (path item : string) :
  find_target t (VStr path) = Some item -> item ∈ row_item <$> t.
Proof.
  intros H. apply find_target_first in H as (i & r & Hi & <- & _).
  apply list_elem_of_fmap. exists r. split; [done|].
  by eapply list_elem_of_lookup_2.
Qed.

Lemma poll_msg_done (g : gui) (task_id : Z) (inp_path save_path : string)
    (before_size after_size : Z) (thumb_img : image) (item : string) :
  find_target (tree g) (VStr inp_path) = Some item -> item <> "" ->
  let g' := poll_msg human_kb g
              (done_msg task_id inp_path save_path before_size after_size thumb_img) in
  progress_value g' = progress_value g + 1
  /\ progress_maximum g' = progress_maximum g
  /\ tree_get (tree g') item "status" = Some "Done"
  /\ forall item' column, item' <> item ->
       tree_get (tree g') item' column = tree_get (tree g) item' column.
Proof.
  intros Hfind Hitem g'.
  assert (Hg' : g' =
    with_progress_value
      (with_tree (set_thumbnail g item (VImage thumb_img))
         (tree_set (tree_set (tree_set (tree_set
            (tree_item_image (tree g) item thumb_img)
            item "before" (human_kb (VInt before_size)))
            item "after" (human_kb (VInt after_size)))
            item "status" "Done")
            item "out"
            (if py_truthy (VStr save_path)
             then OsPath.basename save_path else "-")))
      (progress_value g + 1)).
  { unfold g', poll_msg.
    change (dict_get (done_msg _ _ _ _ _ _) "control") with VNone.
    change (dict_get (done_msg task_id inp_path save_path before_size after_size
                        thumb_img) "inp_path") with (VStr inp_path).
    cbn [pyval_is_str]. rewrite Hfind.
    apply String.eqb_neq in Hitem. rewrite Hitem.
    change (dict_get (done_msg _ _ _ _ _ _) "status") with (VStr "done").
    change (pyval_is_str (VStr "done") "done") with true. cbv iota.
    change (dict_get (done_msg task_id inp_path save_path before_size after_size
                        thumb_img) "thumb") with (VImage thumb_img).
    change (dict_get (done_msg task_id inp_path save_path before_size after_size
                        thumb_img) "out_path") with (VStr save_path).
    change (dict_get_default (done_msg task_id inp_path save_path before_size
                                after_size thumb_img) "before_size" (VInt 0))
      with (VInt before_size).
    change (dict_get_default (done_msg task_id inp_path save_path before_size
                                after_size thumb_img) "after_size" (VInt 0))
      with (VInt after_size).
    reflexivity. }
  rewrite Hg'. cbn [progress_value progress_maximum tree with_progress_value
                      with_tree set_thumbnail].
  split_and!; [done|done| |].
  - rewrite tree_get_set_other_column by done.
    apply tree_get_set_same, has_item_iff.
    rewrite !tree_set_items, tree_item_image_items.
    by eapply find_target_has_item.
  - intros item' column Hne.
    rewrite !tree_get_set_other_item by done. apply tree_get_item_image.
Qed.

Lemma poll_msg_error (g : gui) (task_id : Z) (inp_path : string) (e : exn)
    (item : string) :
  find_target (tree g) (VStr inp_path) = Some item -> item <> "" ->
  let g' := poll_msg human_kb g (error_msg task_id inp_path e) in
  progress_value g' = progress_value g + 1
  /\ progress_maximum g' = progress_maximum g
  /\ tree_get (tree g') item "status" = Some ("Error: " +:+ exn_str e)
  /\ forall item' column, item' <> item ->
       tree_get (tree g') item' column = tree_get (tree g) item' column.
Proof.
  intros Hfind Hitem g'.
  assert (Hg' : g' =
    with_progress_value
      (with_tree g (tree_set (tree g) item "status" ("Error: " +:+ exn_str e)))
      (progress_value g + 1)).
  { unfold g', poll_msg.
    change (dict_get (error_msg _ _ _) "control") with VNone.
    change (dict_get (error_msg task_id inp_path e) "inp_path") with (VStr inp_path).
    cbn [pyval_is_str]. rewrite Hfind.
    apply String.eqb_neq in Hitem. rewrite Hitem.
    change (dict_get (error_msg _ _ _) "status") with (VStr "error").
    change (pyval_is_str (VStr "error") "done") with false.
    change (pyval_is_str (VStr "error") "error") with true. cbv iota.
    change (dict_get (error_msg task_id inp_path e) "error") with (VStr (exn_str e)).
    done. }
  rewrite Hg'. cbn [progress_value progress_maximum tree with_progress_value with_tree].
  split_and!; [done|done| |].
  - apply tree_get_set_same, has_item_iff. by eapply find_target_has_item.
  - intros item' column Hne. by rewrite tree_get_set_other_item.
Qed.

Lemma poll_msg_no_row (g : gui) (m : gmap string pyval) (inp_path : string) :
  dict_get m "control" = VNone ->
  dict_get m "inp_path" = VStr inp_path ->
  find_target (tree g) (VStr inp_path) = None ->
  poll_msg human_kb g m = g.
Proof. intros Hc Hp Hf. unfold poll_msg. by rewrite Hc, Hp, Hf. Qed.

End PollMsg.

Example poll_msg_reloaded :
  let g' := poll_msg PollSample.human_kb PollSample.reloaded PollSample.failed_0 in
  row_of_task_id (tree PollSample.reloaded) 0 = Some "I003"
  /\ tree_get (tree g') "I003" "status" = Some "Queued"
  /\ tree_get (tree g') "I004" "status" = Some "Error: cannot identify image file"
  /\ progress_value g' = 1.
Proof. vm_compute. done. Qed.

(** C4 (as worded, refuted). The result of task 0 is not applied to
    the row numbered 0 when another row holds its path, and is dropped
    without counting when no row holds its path. *)
Lemma poll_msg_not_by_task_id :
  ~ aggregated_by_task_id PollSample.reloaded
      (poll_msg PollSample.human_kb PollSample.reloaded PollSample.failed_0)
      0 "Error: cannot identify image file"
  /\ ~ aggregated_by_task_id PollSample.cleared
        (poll_msg PollSample.human_kb PollSample.cleared PollSample.failed_0)
        0 "Error: cannot identify image file".
Proof.
  split.
  - intros (item & Hrow & Hst & _).
    vm_compute in Hrow. injection Hrow as <-.
    vm_compute in Hst. discriminate.
  - intros (item & Hrow & _). vm_compute in Hrow. discriminate.
Qed.

(** C4 (amended). A task's message is matched to the first row whose
    [path] column equals the message's [inp_path]; the [task_id] entry
    is not read. When there is such a row its status becomes [Done] or
    [Error: <message>], the other rows keep their columns, and the
    progress value goes up by exactly one; when there is none the
    message changes nothing. *)
Theorem poll_msg_matches_by_path (human_kb : pyval -> string) (g : gui)
    (m : gmap string pyval) (task_id : Z) (inp_path : string) :
  is_done_msg task_id inp_path m \/ is_error_msg task_id inp_path m ->
  let g' := poll_msg human_kb g m in
  (forall v, poll_msg human_kb g (<[ "task_id" := v ]> m) = g')
  /\ (find_target (tree g) (VStr inp_path) = None -> g' = g)
  /\ (forall item,
        find_target (tree g) (VStr inp_path) = Some item -> item <> "" ->
        (exists i r, tree g !! i = Some r /\ row_item r = item
           /\ row_cols r !! "path" = Some inp_path
           /\ forall j r', (j < i)%nat -> tree g !! j = Some r' ->
                row_cols r' !! "path" <> Some inp_path)
        /\ progress_value g' = progress_value g + 1
        /\ progress_maximum g' = progress_maximum g
        /\ (is_done_msg task_id inp_path m ->
              tree_get (tree g') item "status" = Some "Done")
        /\ (forall e, m = error_msg task_id inp_path e ->
              tree_get (tree g') item "status" = Some ("Error: " +:+ exn_str e))
        /\ (forall item' column, item' <> item ->
              tree_get (tree g') item' column = tree_get (tree g) item' column)).
Proof.
  intros Hm g'. split_and!.
  - intros v. apply poll_msg_ignores_task_id.
  - intros Hnone.
    destruct Hm as [(sp & b & a & t & ->)|(e & ->)];
      by apply poll_msg_no_row with inp_path.
  - intros item Hfind Hitem. split; [by apply find_target_first|].
    destruct Hm as [(sp & b & a & t & ->)|(e & ->)].
    + destruct (poll_msg_done human_kb g task_id inp_path sp b a t item Hfind Hitem)
        as (Hv & Hmax & Hst & Hother).
      split_and!; [done|done|done| |done].
      intros e He. apply (f_equal (fun d => d !! "status")) in He. done.
    + destruct (poll_msg_error human_kb g task_id inp_path e item Hfind Hitem)
        as (Hv & Hmax & Hst & Hother).
      split_and!; [done|done| | |done].
      * intros (sp & b & a & t & He).
        apply (f_equal (fun d => d !! "status")) in He. done.
      * intros e' He'. apply (f_equal (fun d => d !! "error")) in He'.
        change (Some (VStr (exn_str e)) = Some (VStr (exn_str e'))) in He'.
        injection He' as <-. done.
Qed.

Lemma poll_msg_matches_by_path_witness :
  tree_get
    (tree (poll_msg PollSample.human_kb PollSample.reloaded PollSample.failed_0))
    "I004" "status" = Some "Error: cannot identify image file"
  /\ progress_value
       (poll_msg PollSample.human_kb PollSample.reloaded PollSample.failed_0) = 1.
Proof.
  destruct (poll_msg_matches_by_path PollSample.human_kb PollSample.reloaded
              PollSample.failed_0 0 "a.png")
    as (_ & _ & Hrow).
  { right. eexists. reflexivity. }
  destruct (Hrow "I004") as (_ & Hv & _ & _ & Herr & _);
    [reflexivity | discriminate |].
  split.
  - apply (Herr (Exception "cannot identify image file")). reflexivity.
  - exact Hv.
Defined.

(** ** The worker pool *)

Section Pool.

Variable cfg : settings.
Variable files : list (Z * string * string).
Variable q0 : list (gmap string pyval).

Lemma run_task_puts_one (w : World) (t : Z * string * string)
    (q : list (gmap string pyval)) :
  (run_task cfg w t (State [] q)).2 = inr tt
  /\ exists m, msg_q (run_task cfg w t (State [] q)).1 = q ++ [m]
       /\ task_msg_ok t m.
Proof.
  destruct t as [[idx item] path]. unfold run_task, task_msg_ok. simpl.
  apply (process_single_file_task_puts_one w idx path (out_dir cfg) (quality cfg)
           (resize_flag cfg) (new_w cfg) (new_h cfg) (out_format cfg)
           (preserve_meta cfg) (State [] q)).
Qed.

Lemma step_finish_run (w : World) (t : Z * string * string) ps rs1 rs2 q r :
  pool_step cfg (Pool ps (rs1 ++ t :: rs2) q r false)
    (Pool ps (rs1 ++ rs2) (msg_q (run_task cfg w t (State [] q)).1)
       (r || is_inl (run_task cfg w t (State [] q)).2) false).
Proof. apply step_finish with (w := w). by destruct (run_task _ _ _ _). Qed.

Lemma pool_inv_init : pool_inv files q0 (pool_init files q0).
Proof.
  exists [], []. simpl. split_and!; [done|constructor|done| |done].
  by rewrite app_nil_r.
Qed.

Lemma pool_inv_step (s s' : pool) :
  pool_inv files q0 s -> pool_step cfg s s' -> pool_inv files q0 s'.
Proof.
  intros (finished & msgs & Hperm & Hmsgs & Hraised & Hq & Hnot) Hstep.
  destruct Hstep as [t ps rs q r Hfree|w t ps rs1 rs2 q r s1 res Hrun|q];
    simpl in *.
  - exists finished, msgs. simpl. split_and!; [|done|done|done|done].
    rewrite <- Hperm. by rewrite <- (app_assoc rs [t] ps).
  - destruct (run_task_puts_one w t q) as (Hres & m & Hput & Hm).
    rewrite Hrun in Hres, Hput. simpl in Hres, Hput. subst res r.
    exists (finished ++ [t]), (msgs ++ [m]). simpl.
    split_and!; [| |done| |done].
    + rewrite <- Hperm. rewrite <- !app_assoc. simpl.
      apply Permutation_app_head, Permutation_middle.
    + apply Forall2_app; [done|]. by constructor.
    + rewrite Hput, Hq, !app_nil_r. by rewrite <- app_assoc.
  - exists finished, msgs. simpl. split_and!; [done|done|done| |done].
    rewrite Hq, app_nil_r. by rewrite <- app_assoc.
Qed.

Lemma pool_inv_reachable (s : pool) :
  rtc (pool_step cfg) (pool_init files q0) s -> pool_inv files q0 s.
Proof.
  intros Hrtc.
  refine (rtc_ind_r (R := pool_step cfg) (pool_inv files q0) (pool_init files q0)
            pool_inv_init _ s Hrtc).
  intros y z _ Hstep Hy. by eapply pool_inv_step.
Qed.

Lemma pool_step_measure (s s' : pool) :
  pool_step cfg s s' -> pool_measure s = S (pool_measure s').
Proof.
  intros [t ps rs q r Hfree|w t ps rs1 rs2 q r s1 res Hrun|q];
    unfold pool_measure; simpl; rewrite ?length_app; simpl; lia.
Qed.

Lemma pool_nsteps_measure (n : nat) (s s' : pool) :
  nsteps (pool_step cfg) n s s' -> pool_measure s = (n + pool_measure s')%nat.
Proof.
  induction 1 as [|n x y z Hstep _ IH]; [done|].
  apply pool_step_measure in Hstep. lia.
Qed.

(** While [all_done] has not been put, some step is possible. *)
Lemma pool_progress (w : World) (s : pool) :
  pool_inv files q0 s -> notified s = false -> exists s', pool_step cfg s s'.
Proof.
  intros (finished & msgs & _ & _ & Hraised & _) Hnot.
  destruct s as [ps rs q r n]. simpl in *. subst r n.
  destruct rs as [|t rs].
  - destruct ps as [|t ps].
    + eexists. apply step_all_done.
    + eexists. apply step_start. simpl. unfold WORKER_THREADS. lia.
  - eexists. apply (step_finish_run w t ps [] rs).
Qed.

Lemma pool_notified_stuck (s s' : pool) :
  notified s = true -> ~ pool_step cfg s s'.
Proof. intros Hn Hstep. by destruct Hstep. Qed.

Lemma task_msg_ok_task_id (t : Z * string * string) (m : gmap string pyval) :
  task_msg_ok t m ->
  dict_get m "task_id" = VInt t.1.1 /\ dict_get m "inp_path" = VStr t.2
  /\ m !! "control" = None.
Proof. intros [(sp & b & a & th & ->)|(e & ->)]; done. Qed.

Lemma task_msgs_ids (finished : list (Z * string * string))
    (msgs : list (gmap string pyval)) :
  Forall2 task_msg_ok finished msgs ->
  (fun m => dict_get m "task_id") <$> msgs = (fun t => VInt t.1.1) <$> finished.
Proof.
  induction 1 as [|t m ts ms Hm _ IH]; [done|].
  rewrite !fmap_cons, IH. f_equal. by apply task_msg_ok_task_id.
Qed.

End Pool.

(** [build_files] numbers the tasks by row position: the identifiers
    are distinct. *)
Lemma build_files_from_ids (idx : Z) (rows : list row) :
  Forall (fun t => idx <= t.1.1) (build_files_from idx rows)
  /\ NoDup ((fun t => t.1.1) <$> build_files_from idx rows).
Proof.
  revert idx. induction rows as [|r rows IH]; intros idx; simpl.
  - split; constructor.
  - destruct (IH (idx + 1)) as [Hge Hnd].
    assert (Hge' : Forall (fun t => idx <= t.1.1) (build_files_from (idx + 1) rows)).
    { eapply Forall_impl; [exact Hge|]. simpl. intros; lia. }
    destruct (row_cols r !! "path") as [path|]; [|done].
    split.
    + constructor; [simpl; lia|done].
    + rewrite fmap_cons. constructor; [|done]. simpl.
      intros Hin. apply list_elem_of_fmap in Hin as (t & Ht & Hin).
      eapply Forall_forall in Hge; [|exact Hin]. simpl in Hge. lia.
Qed.

Lemma build_files_ids_distinct (rows : list row) :
  NoDup ((fun t => t.1.1) <$> build_files rows).
Proof. apply build_files_from_ids. Qed.

Lemma pool_sample_run :
  rtc (pool_step PoolSample.cfg) (pool_init PoolSample.files []) PoolSample.final.
Proof.
  eapply rtc_l.
  { apply (step_start PoolSample.cfg PoolSample.t0 [PoolSample.t1] [] [] false).
    simpl. unfold WORKER_THREADS. lia. }
  eapply rtc_l.
  { apply (step_start PoolSample.cfg PoolSample.t1 [] [PoolSample.t0] [] false).
    simpl. unfold WORKER_THREADS. lia. }
  eapply rtc_l.
  { apply (step_finish_run PoolSample.cfg Sample.world PoolSample.t1 []
             [PoolSample.t0] [] [] false). }
  eapply rtc_l.
  { apply (step_finish_run PoolSample.cfg Sample.world PoolSample.t0 []
             [] [] PoolSample.q1 _). }
  eapply rtc_l; [|apply rtc_refl].
  apply (step_all_done PoolSample.cfg PoolSample.q2).
Qed.

(** C1. From a batch [files] and a queue holding [q0], in every state
    the pool can reach, under any scheduling and whatever the tasks
    meet: the queue holds [q0], then exactly one message per finished
    task, each with that task's identifier and none of them the
    completion message, then [all_done] if it was put. Once [all_done]
    is there, every submitted task has its message before it (as many
    messages as tasks, their identifiers those of the tasks, distinct
    when the tasks' are) and nothing more happens, so it is put once.
    Until then a step is always possible, and every run puts
    [all_done] after exactly [pool_measure] steps. *)
Theorem worker_submit_delivers (cfg : settings)
    (files : list (Z * string * string)) (q0 : list (gmap string pyval))
    (s : pool) :
  rtc (pool_step cfg) (pool_init files q0) s ->
  (exists finished msgs,
     pool_q s = q0 ++ msgs ++ (if notified s then [all_done_msg] else [])
     /\ Forall2 task_msg_ok finished msgs
     /\ finished ⊆+ files
     /\ (fun m => dict_get m "task_id") <$> msgs = (fun t => VInt t.1.1) <$> finished
     /\ Forall (fun m => m <> all_done_msg) msgs
     /\ (notified s = true ->
           finished ≡ₚ files
           /\ length msgs = length files
           /\ (NoDup ((fun t => t.1.1) <$> files) ->
                 NoDup ((fun m => dict_get m "task_id") <$> msgs))))
  /\ (notified s = false -> exists s', pool_step cfg s s')
  /\ (notified s = true -> forall s', ~ pool_step cfg s s')
  /\ (forall n s', nsteps (pool_step cfg) n s s' ->
        (n <= pool_measure s)%nat
        /\ (notified s' = true <-> n = pool_measure s)).
Proof.
  intros Hreach. pose proof (pool_inv_reachable cfg files q0 s Hreach) as Hinv.
  split_and!.
  - destruct Hinv as (finished & msgs & Hperm & Hmsgs & Hraised & Hq & Hnot).
    exists finished, msgs. split_and!; [done|done| | | |].
    + rewrite <- Hperm. by apply submseteq_inserts_r.
    + by apply task_msgs_ids.
    + clear -Hmsgs. induction Hmsgs as [|t m ts ms Hm _ IH]; constructor; [|done].
      intros ->. apply task_msg_ok_task_id in Hm as (_ & _ & Hm). done.
    + intros Hn. destruct (Hnot Hn) as [Hp Hr]. rewrite Hp, Hr, !app_nil_r in Hperm.
      split_and!; [done| |].
      * apply Forall2_length in Hmsgs. rewrite <- Hmsgs. by rewrite Hperm.
      * intros Hnd. rewrite (task_msgs_ids _ _ Hmsgs).
        replace ((fun t : Z * string * string => VInt t.1.1) <$> finished)
          with (VInt <$> ((fun t : Z * string * string => t.1.1) <$> finished))
          by (by rewrite <- list_fmap_compose).
        apply NoDup_fmap_2; [intros x y [=]; done|]. by rewrite Hperm.
  - intros Hn. by apply (pool_progress cfg files q0 Sample.world).
  - intros Hn s'. by apply pool_notified_stuck.
  - intros n s' Hsteps.
    pose proof (pool_nsteps_measure cfg n s s' Hsteps) as Hmeasure.
    assert (Hinv' : pool_inv files q0 s').
    { apply (pool_inv_reachable cfg). etrans; [exact Hreach|].
      by eapply rtc_nsteps_2. }
    destruct Hinv' as (_ & _ & _ & _ & _ & _ & Hnot').
    split; [lia|]. split.
    + intros Hn. destruct (Hnot' Hn) as [Hp Hr].
      assert (pool_measure s' = 0%nat) as Hzero
        by (unfold pool_measure; by rewrite Hp, Hr, Hn).
      lia.
    + intros ->. assert (pool_measure s' = 0%nat) as Hzero by lia.
      unfold pool_measure in Hzero. destruct (notified s'); [done|lia].
Qed.

Lemma worker_submit_delivers_witness :
  exists msgs,
    pool_q PoolSample.final = msgs ++ [all_done_msg]
    /\ length msgs = 2%nat
    /\ (fun m => dict_get m "task_id") <$> msgs = [VInt 1; VInt 0].
Proof.
  destruct (worker_submit_delivers PoolSample.cfg PoolSample.files []
              PoolSample.final pool_sample_run)
    as ((finished & msgs & Hq & _ & _ & _ & _ & Hdone) & _).
  destruct (Hdone eq_refl) as (_ & Hlen & _).
  exists msgs. simpl in Hq. split; [exact Hq|]. split; [exact Hlen|].
  apply app_inj_tail in Hq as [<- _]. vm_compute. reflexivity.
Defined.

(** * Further properties *)

(** ** [os.path.splitext] and the names [ensure_unique_path] builds *)

Lemma append_cons (a : ascii) (s t : string) :
  String a s +:+ t = String a (s +:+ t).
Proof. reflexivity. Qed.

Lemma append_nil_l (t : string) : "" +:+ t = t.
Proof. reflexivity. Qed.

Lemma string_app_nil_r_aux (s : string) : s +:+ "" = s.
Proof. induction s as [|a s IH]; [done|]. by rewrite append_cons, IH. Qed.

Lemma substring_0_length (s : string) : substring 0 (String.length s) s = s.
Proof. induction s as [|a s IH]; simpl; [done | by rewrite IH]. Qed.

Lemma substring_split (s : string) (n : nat) :
  substring 0 n s +:+ substring n (String.length s - n) s = s.
Proof.
  revert n. induction s as [|a s IH]; intros [|n]; simpl; try done.
  - rewrite append_nil_l. by rewrite substring_0_length.
  - by rewrite append_cons, IH.
Qed.

Lemma substring_skip (s1 s2 : string) :
  substring (String.length s1) (String.length (s1 +:+ s2) - String.length s1)
    (s1 +:+ s2) = s2.
Proof.
  induction s1 as [|a s1 IH].
  - rewrite append_nil_l. simpl. rewrite Nat.sub_0_r. apply substring_0_length.
  - rewrite append_cons. simpl. apply IH.
Qed.

(** Where [rfind] finds the character, the string splits there. *)
Lemma rfind_from_found (c : ascii) (s : string) (i last : Z) :
  last < i ->
  PyStr.rfind_from c s i last <> last ->
  exists s1 s2, s = s1 +:+ String c s2
    /\ PyStr.rfind_from c s i last = i + Z.of_nat (String.length s1).
Proof.
  revert i last. induction s as [|a s IH]; intros i last Hlt Hne; simpl in *.
  - done.
  - destruct (Ascii.eqb_spec a c) as [->|Hac].
    + destruct (decide (PyStr.rfind_from c s (i + 1) i = i)) as [Heq|Hneq].
      * exists "", s. split; [done|]. rewrite Heq. simpl. lia.
      * destruct (IH (i + 1) i ltac:(lia) Hneq) as (s1 & s2 & -> & Hr).
        exists (String c s1), s2. split; [done|]. rewrite Hr. simpl. lia.
    + destruct (IH (i + 1) last ltac:(lia) Hne) as (s1 & s2 & -> & Hr).
      exists (String a s1), s2. split; [done|]. rewrite Hr. simpl. lia.
Qed.

(** [splitext] cuts the path in two, and the extension is empty or
    begins with the dot. *)
Lemma splitext_parts (p : string) :
  (OsPath.splitext p).1 +:+ (OsPath.splitext p).2 = p
  /\ ((OsPath.splitext p).2 = ""
      \/ exists e, (OsPath.splitext p).2 = String "." e).
Proof.
  unfold OsPath.splitext.
  destruct (Z.ltb_spec (PyStr.rfind "/" p) (PyStr.rfind "." p)) as [Hlt|Hge];
    simpl; [|split; [apply string_app_nil_r_aux | by left]].
  - destruct (OsPath.splitext_scan _ _ _); simpl;
      [|split; [apply string_app_nil_r_aux | by left]].
    split.
    + unfold PyStr.slice_to, PyStr.slice_from. apply substring_split.
    + right. unfold PyStr.rfind in *.
      destruct (rfind_from_found "." p 0 (-1)) as (s1 & s2 & -> & Hr); [lia| |].
      { pose proof (rfind_from_found "/" p 0 (-1) ltac:(lia)) as Hs.
        destruct (decide (PyStr.rfind_from "/" p 0 (-1) = -1)) as [E|E]; [lia|].
        destruct (Hs E) as (? & ? & _ & Hs'). lia. }
      exists s2. unfold PyStr.slice_from. rewrite Hr.
      replace (Z.to_nat (0 + Z.of_nat (String.length s1))) with (String.length s1)
        by lia.
      apply (substring_skip s1 (String "." s2)).
Qed.

Lemma ensure_unique_path_is_free (fs : gset string) (path : string) :
  ensure_unique_path fs path ∉ fs.
Proof.
  destruct (ensure_unique_fuel_enough fs path (S (size fs)) (le_n _))
    as (r & Hr & Hfree & _).
  unfold ensure_unique_path. by rewrite Hr.
Qed.

(** X1. As the docstring says, the number goes before the extension:
    [splitext] cuts the desired path into a stem and an extension that
    is empty or begins with a dot, and the result is the path itself
    or the stem, [_k] for some [k >= 1], and the extension. *)
Theorem ensure_unique_path_numbers_before_extension (fs : gset string)
    (path : string) :
  let stem := (OsPath.splitext path).1 in
  let ext := (OsPath.splitext path).2 in
  stem +:+ ext = path
  /\ (ext = "" \/ exists e, ext = String "." e)
  /\ (ensure_unique_path fs path = path
      \/ exists k, (1 <= k)%nat
           /\ ensure_unique_path fs path = stem +:+ "_" +:+ pretty k +:+ ext).
Proof.
  intros stem ext. destruct (splitext_parts path) as [Hcut Hext].
  split_and!; [done|done|].
  destruct (ensure_unique_fuel_enough fs path (S (size fs)) (le_n _))
    as (r & Hr & _ & Hsame & Hsuf).
  unfold ensure_unique_path. rewrite Hr. simpl.
  destruct (decide (path ∈ fs)) as [Hin|Hout]; [|left; by apply Hsame].
  right. destruct (Hsuf Hin) as (k & Hk & -> & _). by exists k.
Qed.

(** X2. Naming a batch output after output, each file written before
    the next is named: the names are pairwise distinct, none of them
    existed beforehand, and there is one per desired path. *)
Theorem name_all_distinct_and_fresh (fs : gset string) (paths : list string) :
  NoDup (name_all fs paths)
  /\ Forall (fun r => r ∉ fs) (name_all fs paths)
  /\ length (name_all fs paths) = length paths.
Proof.
  revert fs. induction paths as [|p paths IH]; intros fs; simpl.
  - split_and!; constructor.
  - destruct (IH ({[ensure_unique_path fs p]} ∪ fs)) as (Hnd & Hfresh & Hlen).
    split_and!.
    + constructor; [|done]. intros Hin.
      eapply Forall_forall in Hfresh; [|exact Hin].
      apply Hfresh, elem_of_union_l, elem_of_singleton. done.
    + constructor; [apply ensure_unique_path_is_free|].
      eapply Forall_impl; [exact Hfresh|]. simpl.
      intros r Hr Hin. by apply Hr, elem_of_union_r.
    + by rewrite Hlen.
Qed.

(** X3. Two tasks that want the same path, free at the start: the
    first gets it, the second gets the stem with the least number
    [k >= 1] whose name is free, before the extension. *)
Theorem name_all_same_path_twice (fs : gset string) (path : string) :
  path ∉ fs ->
  exists k, (1 <= k)%nat
    /\ name_all fs [path; path]
       = [path; suffixed (OsPath.splitext path).1 (OsPath.splitext path).2 k]
    /\ (suffixed (OsPath.splitext path).1 (OsPath.splitext path).2 k ∉ fs)
    /\ (forall j, (1 <= j < k)%nat ->
          suffixed (OsPath.splitext path).1 (OsPath.splitext path).2 j ∈ fs).
Proof.
  intros Hfree. simpl.
  destruct (ensure_unique_fuel_enough fs path (S (size fs)) (le_n _))
    as (r & Hr & _ & Hsame & _).
  assert (ensure_unique_path fs path = path) as ->.
  { unfold ensure_unique_path. rewrite Hr. simpl. by apply Hsame. }
  destruct (ensure_unique_fuel_enough ({[path]} ∪ fs) path
              (S (size ({[path]} ∪ fs))) (le_n _))
    as (r2 & Hr2 & Hfree2 & _ & Hsuf).
  destruct (Hsuf ltac:(set_solver)) as (k & Hk & -> & Hlow).
  exists k. split_and!; [done| |set_solver|].
  - unfold ensure_unique_path. by rewrite Hr2.
  - intros j Hj. specialize (Hlow j Hj).
    apply elem_of_union in Hlow as [Hp|Hfs]; [|done].
    apply elem_of_singleton in Hp. exfalso.
    destruct (splitext_parts path) as [Hcut _].
    apply (f_equal String.length) in Hcut, Hp.
    unfold suffixed in Hp. rewrite !string_length_app in Hp, Hcut.
    simpl in Hp. rewrite append_nil_l, string_length_app in Hp. lia.
Qed.

Lemma name_all_same_path_twice_witness :
  name_all {[ "out/photo_1.jpg" ]} ["out/photo.jpg"; "out/photo.jpg"]
    = ["out/photo.jpg"; "out/photo_2.jpg"].
Proof.
  destruct (name_all_same_path_twice {[ "out/photo_1.jpg" ]} "out/photo.jpg")
    as (k & Hk & Hnames & Hfree & Hlow).
  { intros H. apply elem_of_singleton in H. discriminate. }
  simpl in Hnames. simpl. rewrite Hnames. do 2 f_equal.
  destruct k as [|[|[|k]]]; [lia| |reflexivity|].
  - exfalso. apply Hfree. apply elem_of_singleton. reflexivity.
  - exfalso. assert (Hin : "out/photo_2.jpg" ∈ ({[ "out/photo_1.jpg" ]} : gset string))
      by (apply (Hlow 2%nat); lia).
    apply elem_of_singleton in Hin. discriminate.
Defined.

(** ** How a run of the worker ends *)

Section OutcomeSat.

Context {A B : Type} (Phi : B -> Prop) (Psi : exn -> Prop).

Lemma outcome_ret (x : B) : Phi x -> outcome_sat Phi Psi (mret x).
Proof. intros H s. exact H. Qed.

Lemma outcome_bind_lib (c : call) (a : exn + A) (k : A -> M B) :
  (forall e, a = inl e -> Psi e) ->
  (forall x, a = inr x -> outcome_sat Phi Psi (k x)) ->
  outcome_sat Phi Psi (lib_call c a ≫= k).
Proof.
  intros He Hk s. unfold mbind, M_bind, bind, lib_call.
  destruct a as [e|x]; simpl; [by apply He|]. by apply Hk.
Qed.

Lemma outcome_bind_lift (a : exn + A) (k : A -> M B) :
  (forall e, a = inl e -> Psi e) ->
  (forall x, a = inr x -> outcome_sat Phi Psi (k x)) ->
  outcome_sat Phi Psi (lift a ≫= k).
Proof.
  intros He Hk s. unfold mbind, M_bind, bind, lift.
  destruct a as [e|x]; simpl; [by apply He|]. by apply Hk.
Qed.

Lemma outcome_bind_ret (x : A) (k : A -> M B) :
  outcome_sat Phi Psi (k x) -> outcome_sat Phi Psi (mret x ≫= k).
Proof. intros Hk s. apply Hk. Qed.

End OutcomeSat.

Section OutcomeFacts.

Variable w : World.
Variables (task_id : Z) (inp_path out_dir : string) (quality : Z).
Variables (resize_flag : string) (new_w new_h : option Z).
Variables (out_format : string) (preserve_meta : bool).

(** The keyword arguments the worker builds always hold a string under
    [format], if anything: the test of line 107 cannot raise. *)
Lemma needs_rgb_built (te : string) (tf : option string) (q : Z)
    (e : option (list Byte.byte)) (img : image) :
  needs_rgb (build_save_kwargs te tf q e) img =
    inr (PyStr.str_in (PyStr.upper (default "" tf)) ["JPEG"]
         && PyStr.str_in (img_mode img) ["RGBA"; "P"])%bool.
Proof.
  unfold needs_rgb. rewrite build_save_kwargs_format. by destruct tf.
Qed.

Lemma process_encode_outcome :
  outcome_sat
    (fun r => encode_success w inp_path out_dir quality resize_flag new_w new_h
                out_format preserve_meta r.1.1 r.1.2 r.2)
    (encode_failure w inp_path out_dir quality resize_flag new_w new_h
       out_format preserve_meta)
    (process_encode w inp_path out_dir quality resize_flag new_w new_h
       out_format preserve_meta).
Proof.
  unfold process_encode.
  apply outcome_bind_lib; [intros e He; by left|]. intros b Hb.
  apply outcome_bind_lib; [intros e He; by right; left|]. intros img0 Ho.
  assert (Hrest : forall img1, resized w resize_flag new_w new_h img0 img1 ->
    outcome_sat
      (fun r => encode_success w inp_path out_dir quality resize_flag new_w new_h
                  out_format preserve_meta r.1.1 r.1.2 r.2)
      (encode_failure w inp_path out_dir quality resize_flag new_w new_h
         out_format preserve_meta)
      (let base := OsPath.basename inp_path in
       let '(name, ext) := OsPath.splitext base in
       let ext := PyStr.lower ext in
       let '(target_ext, target_format) := target_of out_format ext in
       let save_name := name +:+ target_ext in
       let save_path := OsPath.join out_dir save_name in
       let save_path := ensure_unique_path (w_fs w) save_path in
       let save_kwargs :=
         build_save_kwargs target_ext target_format quality
           (if preserve_meta then get_exif_bytes img0 else None) in
       rgb ← lift (needs_rgb save_kwargs img1);
       img ← (if rgb : bool
              then lib_call (CallConvert img1 "RGB") (w_convert w img1 "RGB")
              else mret img1);
       _ ← lib_call (CallSave img save_path save_kwargs)
             (w_save w img save_path save_kwargs);
       after_size ← lib_call (CallGetsize save_path) (w_getsize_out w save_path);
       mret (b, save_path, after_size))).
  { intros img1 Hres.
    unfold encode_success, encode_failure, converted, task_kwargs,
      task_save_path, task_target.
    simpl. destruct (OsPath.splitext _) as [name ext]. simpl.
    destruct (target_of _ _) as [target_ext target_format]. simpl.
    set (save_path := ensure_unique_path _ _).
    set (save_kwargs := build_save_kwargs _ _ _ _).
    assert (Hsave : forall img rgb,
      needs_rgb save_kwargs img1 = inr rgb ->
      (if rgb : bool then w_convert w img1 "RGB" = inr img else img = img1) ->
      outcome_sat
        (fun r =>
           w_getsize_inp w inp_path = inr r.1.1 /\ r.1.2 = save_path
           /\ w_getsize_out w r.1.2 = inr r.2
           /\ exists i0 i1 i,
                w_open_inp w inp_path = inr i0
                /\ resized w resize_flag new_w new_h i0 i1
                /\ (exists rgb',
                      needs_rgb
                        (build_save_kwargs target_ext target_format quality
                           (if preserve_meta then get_exif_bytes i0 else None)) i1
                        = inr rgb'
                      /\ (if rgb' : bool then w_convert w i1 "RGB" = inr i
                          else i = i1))
                /\ w_save w i r.1.2
                     (build_save_kwargs target_ext target_format quality
                        (if preserve_meta then get_exif_bytes i0 else None))
                   = inr tt)
        (fun e =>
           w_getsize_inp w inp_path = inl e
           \/ w_open_inp w inp_path = inl e
           \/ exists i0, w_open_inp w inp_path = inr i0
               /\ ((exists tgt,
                      resize_target resize_flag new_w new_h (img_size i0) = Some tgt
                      /\ w_resize w i0 tgt = inl e)
                   \/ exists i1, resized w resize_flag new_w new_h i0 i1
                       /\ (w_convert w i1 "RGB" = inl e
                           \/ exists i,
                               (exists rgb',
                                  needs_rgb
                                    (build_save_kwargs target_ext target_format
                                       quality
                                       (if preserve_meta then get_exif_bytes i0
                                        else None)) i1 = inr rgb'
                                  /\ (if rgb' : bool
                                      then w_convert w i1 "RGB" = inr i
                                      else i = i1))
                               /\ (w_save w i save_path
                                     (build_save_kwargs target_ext target_format
                                        quality
                                        (if preserve_meta then get_exif_bytes i0
                                         else None)) = inl e
                                   \/ (w_save w i save_path
                                         (build_save_kwargs target_ext
                                            target_format quality
                                            (if preserve_meta
                                             then get_exif_bytes i0 else None))
                                       = inr tt
                                       /\ w_getsize_out w save_path = inl e)))))
        (_ ← lib_call (CallSave img save_path save_kwargs)
               (w_save w img save_path save_kwargs);
         after_size ← lib_call (CallGetsize save_path) (w_getsize_out w save_path);
         mret (b, save_path, after_size))).
    { intros img rgb Hrgb Himg.
      apply outcome_bind_lib.
      - intros e He. right; right. exists img0. split; [done|]. right.
        exists img1. split; [done|]. right. exists img.
        split; [by exists rgb|]. by left.
      - intros [] Hs. apply outcome_bind_lib.
        + intros e He. right; right. exists img0. split; [done|]. right.
          exists img1. split; [done|]. right. exists img.
          split; [by exists rgb|]. by right.
        + intros a Ha. apply outcome_ret. simpl.
          split_and!; [done|done|done|].
          exists img0, img1, img. split_and!; [done|done|by exists rgb|done]. }
    apply outcome_bind_lift.
    { intros e He. unfold save_kwargs in He. rewrite needs_rgb_built in He. done. }
    intros rgb Hrgb. destruct rgb.
    - apply outcome_bind_lib.
      + intros e He. right; right. exists img0. split; [done|]. right.
        exists img1. split; [done|]. by left.
      + intros img Hconv. by apply (Hsave img true).
    - apply outcome_bind_ret. by apply (Hsave img1 false). }
  unfold resized in Hrest.
  destruct (resize_target resize_flag new_w new_h (img_size img0)) as [tgt|] eqn:Htgt.
  - apply outcome_bind_lib.
    + intros e He. right; right. exists img0. split; [done|]. left. by exists tgt.
    + intros img1 Hres. by apply Hrest.
  - apply outcome_bind_ret. by apply Hrest.
Qed.

End OutcomeFacts.

Section RunOutcome.

Variable w : World.
Variables (task_id : Z) (inp_path out_dir : string) (quality : Z).
Variables (resize_flag : string) (new_w new_h : option Z).
Variables (out_format : string) (preserve_meta : bool).

(** The thumbnail step always yields a bitmap. *)
Lemma make_thumbnail_returns (save_path : string) (s : state) :
  exists thumb_img, (make_thumbnail w save_path s).2 = inr thumb_img.
Proof.
  unfold make_thumbnail, try_except, thumb_body, mbind, M_bind, bind, lib_call.
  destruct (w_open_out w save_path) as [e|t]; simpl; [eauto|].
  destruct (w_thumbnail w t THUMBNAIL_SIZE) as [e|t']; simpl; eauto.
Qed.

(** The one message of a run: the [done] message of a successful pass
    through lines 60-112, or the [error] message of the exception that
    ended it. *)
Lemma run_outcome (s : state) :
  exists m,
    msg_q (process_single_file_task w task_id inp_path out_dir quality
             resize_flag new_w new_h out_format preserve_meta s).1
      = msg_q s ++ [m]
    /\ ((exists before_size save_path after_size thumb_img,
           m = done_msg task_id inp_path save_path before_size after_size thumb_img
           /\ encode_success w inp_path out_dir quality resize_flag new_w new_h
                out_format preserve_meta before_size save_path after_size)
        \/ (exists e,
              m = error_msg task_id inp_path e
              /\ encode_failure w inp_path out_dir quality resize_flag new_w new_h
                   out_format preserve_meta e)).
Proof.
  unfold process_single_file_task, try_except, process_body.
  unfold mbind, M_bind, bind.
  pose proof (process_encode_outcome w inp_path out_dir quality resize_flag
                new_w new_h out_format preserve_meta s) as Hout.
  pose proof (quiet_process_encode w inp_path out_dir quality resize_flag
                new_w new_h out_format preserve_meta s) as Hq.
  destruct (process_encode _ _ _ _ _ _ _ _ _ s) as [s1 [e|[[b sp] a]]];
    simpl in Hout, Hq.
  - exists (error_msg task_id inp_path e). simpl. rewrite Hq.
    split; [done|]. right. by exists e.
  - destruct (make_thumbnail_returns sp s1) as [thumb Hthumb].
    pose proof (quiet_make_thumbnail w sp s1) as Hq2.
    destruct (make_thumbnail w sp s1) as [s2 res]. simpl in Hthumb, Hq2.
    subst res. simpl.
    exists (done_msg task_id inp_path sp b a thumb). rewrite Hq2, Hq.
    split; [done|]. left. by exists b, sp, a, thumb.
Qed.

End RunOutcome.

(** X4. A task is reported [done] only when its output was written:
    the message's [out_path] is the path [img.save] was called with and
    returned from, it did not exist when it was chosen, and the two
    sizes are what [os.path.getsize] gave for the input and for that
    output. *)
Theorem done_means_written (w : World) (task_id : Z)
    (inp_path out_dir : string) (quality : Z) (resize_flag : string)
    (new_w new_h : option Z) (out_format : string) (preserve_meta : bool)
    (s : state) (m : gmap string pyval) :
  msg_q (process_single_file_task w task_id inp_path out_dir quality
           resize_flag new_w new_h out_format preserve_meta s).1
    = msg_q s ++ [m] ->
  m !! "status" = Some (VStr "done") ->
  exists before_size save_path after_size thumb_img img kwargs,
    m = done_msg task_id inp_path save_path before_size after_size thumb_img
    /\ w_save w img save_path kwargs = inr tt
    /\ (save_path ∉ w_fs w)
    /\ w_getsize_inp w inp_path = inr before_size
    /\ w_getsize_out w save_path = inr after_size.
Proof.
  intros Hq Hdone.
  destruct (run_outcome w task_id inp_path out_dir quality resize_flag new_w
              new_h out_format preserve_meta s) as (m' & Hq' & Hm).
  rewrite Hq in Hq'. apply app_inj_tail in Hq' as [_ <-].
  destruct Hm as [(b & sp & a & thumb & -> & Hb & Hsp & Ha & i0 & i1 & img & _ & _ & _ & Hsave)
                 |(e & -> & _)]; [|done].
  exists b, sp, a, thumb, img,
    (task_kwargs inp_path quality out_format preserve_meta i0).
  split_and!; [done|done| |done|done].
  rewrite Hsp. apply ensure_unique_path_is_free.
Qed.

Lemma done_means_written_witness :
  exists img kwargs, w_save Sample.world img "out/photo_1.jpg" kwargs = inr tt.
Proof.
  destruct (done_means_written Sample.world 0 "in/photo.png" "out" 70
              "Custom Size" (Some 100) None "jpg" true (State [] [])
              (done_msg 0 "in/photo.png" "out/photo_1.jpg" 4096 1024 placeholder))
    as (b & sp & a & t & img & kw & Hm & Hsave & _).
  - vm_compute. reflexivity.
  - reflexivity.
  - apply (f_equal (fun d => d !! "out_path")) in Hm.
    change (Some (VStr "out/photo_1.jpg") = Some (VStr sp)) in Hm.
    injection Hm as <-. by exists img, kw.
Defined.

(** X5. A task reported as [error] carries the [str] of the exception
    of exactly one library call: reading the input's size, decoding,
    resizing, converting, saving, or reading the output's size. In the
    last case the output had already been written. A failure of the
    thumbnail step is never reported. *)
Theorem error_comes_from_one_call (w : World) (task_id : Z)
    (inp_path out_dir : string) (quality : Z) (resize_flag : string)
    (new_w new_h : option Z) (out_format : string) (preserve_meta : bool)
    (s : state) (m : gmap string pyval) :
  msg_q (process_single_file_task w task_id inp_path out_dir quality
           resize_flag new_w new_h out_format preserve_meta s).1
    = msg_q s ++ [m] ->
  m !! "status" = Some (VStr "error") ->
  exists e,
    m !! "error" = Some (VStr (exn_str e))
    /\ encode_failure w inp_path out_dir quality resize_flag new_w new_h
         out_format preserve_meta e.
Proof.
  intros Hq Herr.
  destruct (run_outcome w task_id inp_path out_dir quality resize_flag new_w
              new_h out_format preserve_meta s) as (m' & Hq' & Hm).
  rewrite Hq in Hq'. apply app_inj_tail in Hq' as [_ <-].
  destruct Hm as [(b & sp & a & thumb & -> & _)|(e & -> & Hfail)]; [done|].
  by exists e.
Qed.

Lemma error_comes_from_one_call_witness :
  exists e, exn_str e = "cannot write mode RGBA as JPEG".
Proof.
  destruct (error_comes_from_one_call Sample.world 0 "in/photo.jpg" "out" 70
              "Original" None None "Same as input" true (State [] [])
              (error_msg 0 "in/photo.jpg"
                 (Exception "cannot write mode RGBA as JPEG")))
    as (e & He & _).
  - vm_compute. reflexivity.
  - reflexivity.
  - exists e. change (Some (VStr "cannot write mode RGBA as JPEG")
                      = Some (VStr (exn_str e))) in He.
    by injection He.
Defined.

(** X6. The worker never writes over a file: every path [img.save] is
    called with was absent from the file system the name was checked
    against; in particular it is not the input file when that exists. *)
Theorem save_never_overwrites (w : World) (task_id : Z)
    (inp_path out_dir : string) (quality : Z) (resize_flag : string)
    (new_w new_h : option Z) (out_format : string) (preserve_meta : bool)
    (q : list (gmap string pyval)) (img : image) (path : string)
    (kwargs : gmap string pyval) :
  CallSave img path kwargs ∈
    st_calls (process_single_file_task w task_id inp_path out_dir quality
                resize_flag new_w new_h out_format preserve_meta
                (State [] q)).1 ->
  (path ∉ w_fs w) /\ (inp_path ∈ w_fs w -> path <> inp_path).
Proof.
  intros Hc.
  apply process_calls_ok in Hc as [Hc|Hok]; [by apply elem_of_nil in Hc|].
  destruct Hok as (img0 & img1 & rgb & _ & _ & _ & _ & -> & _).
  pose proof (ensure_unique_path_is_free (w_fs w)
                (OsPath.join out_dir
                   ((OsPath.splitext (OsPath.basename inp_path)).1
                    +:+ (task_target inp_path out_format).1))) as Hfree.
  split; [exact Hfree|]. intros Hin Heq. apply Hfree.
  unfold task_save_path in Heq. by rewrite Heq.
Qed.

Lemma save_never_overwrites_witness :
  "out/photo_1.jpg" ∉ w_fs Sample.world.
Proof.
  apply (save_never_overwrites Sample.world 0 "in/photo.png" "out" 70
           "Custom Size" (Some 100) None "jpg" true []
           (Image (100, 300) "RGB" {[ "exif" := Sample.exif ]} [])
           "out/photo_1.jpg" Sample.jpg_kwargs).
  in_list.
Defined.

(** X7. A file whose size can be read but which cannot be decoded: the
    run makes those two calls and no other (nothing is resized,
    converted, saved or re-opened) and puts the [error] message with
    the decoder's [str]. *)
Theorem undecodable_input_is_only_reported (w : World) (task_id : Z)
    (inp_path out_dir : string) (quality : Z) (resize_flag : string)
    (new_w new_h : option Z) (out_format : string) (preserve_meta : bool)
    (q : list (gmap string pyval)) (before_size : Z) (e : exn) :
  w_getsize_inp w inp_path = inr before_size ->
  w_open_inp w inp_path = inl e ->
  process_single_file_task w task_id inp_path out_dir quality resize_flag
    new_w new_h out_format preserve_meta (State [] q)
  = (State [CallGetsize inp_path; CallOpen inp_path]
       (q ++ [error_msg task_id inp_path e]), inr tt).
Proof.
  intros Hsize Hopen.
  unfold process_single_file_task, try_except, process_body, process_encode.
  unfold mbind, M_bind, bind, lib_call. by rewrite Hsize, Hopen.
Qed.

Lemma undecodable_input_is_only_reported_witness :
  msg_q (process_single_file_task
           {| w_fs := ∅;
              w_getsize_inp := fun _ => inr 12;
              w_open_inp := fun _ => inl (Exception "cannot identify image file");
              w_resize := w_resize Sample.world;
              w_convert := w_convert Sample.world;
              w_save := w_save Sample.world;
              w_getsize_out := w_getsize_out Sample.world;
              w_open_out := w_open_out Sample.world;
              w_thumbnail := w_thumbnail Sample.world |}
           1 "in/broken.png" "out" 70 "Original" None None "png" false
           (State [] [])).1
  = [error_msg 1 "in/broken.png" (Exception "cannot identify image file")].
Proof.
  erewrite undecodable_input_is_only_reported; reflexivity.
Defined.

(** X8. Transparency is only ever dropped for a JPEG selected by name:
    every [img.convert] call of a run converts to RGB, and is made only
    when the format is not "Same as input", reads [jpg] or [jpeg] in
    any letter case, and the image is in mode RGBA or P. *)
Theorem convert_only_for_named_jpeg (w : World) (task_id : Z)
    (inp_path out_dir : string) (quality : Z) (resize_flag : string)
    (new_w new_h : option Z) (out_format : string) (preserve_meta : bool)
    (q : list (gmap string pyval)) (img : image) (mode : string) :
  CallConvert img mode ∈
    st_calls (process_single_file_task w task_id inp_path out_dir quality
                resize_flag new_w new_h out_format preserve_meta
                (State [] q)).1 ->
  mode = "RGB"
  /\ out_format <> "Same as input"
  /\ PyStr.str_in (PyStr.lower out_format) ["jpg"; "jpeg"] = true
  /\ PyStr.str_in (img_mode img) ["RGBA"; "P"] = true.
Proof.
  intros Hc.
  apply process_calls_ok in Hc as [Hc|Hok]; [by apply elem_of_nil in Hc|].
  destruct Hok as (-> & img0 & _ & _ & Hrgb).
  unfold task_kwargs in Hrgb. rewrite needs_rgb_built in Hrgb.
  injection Hrgb as Hrgb. apply andb_prop in Hrgb as [Hfmt Hmode].
  split_and!; [done| | |done].
  - intros ->. by vm_compute in Hfmt.
  - unfold task_target, target_of in Hfmt.
    destruct (String.eqb out_format "Same as input"); [by vm_compute in Hfmt|].
    cbn [negb snd default] in Hfmt.
    destruct (PyStr.str_in (PyStr.lower out_format) ["jpg"; "jpeg"]) eqn:E; [done|].
    cbn [default PyStr.str_in existsb] in Hfmt. rewrite orb_false_r in Hfmt.
    apply String.eqb_eq in Hfmt. unfold id in Hfmt.
    apply (f_equal PyStr.lower) in Hfmt. rewrite !lower_upper in Hfmt.
    rewrite Hfmt in E. by vm_compute in E.
Qed.

Lemma convert_only_for_named_jpeg_witness :
  PyStr.str_in (PyStr.lower "jpg") ["jpg"; "jpeg"] = true.
Proof.
  apply (convert_only_for_named_jpeg Sample.world 0 "in/photo.png" "out" 70
           "Custom Size" (Some 100) None "jpg" true []
           (Image (100, 300) "RGBA" {[ "exif" := Sample.exif ]} []) "RGB").
  in_list.
Defined.

(** X9. With "Original" nothing is resized, whatever width and height
    are passed along: no run calls [img.resize]. *)
Theorem original_never_resizes (w : World) (task_id : Z)
    (inp_path out_dir : string) (quality : Z) (new_w new_h : option Z)
    (out_format : string) (preserve_meta : bool)
    (q : list (gmap string pyval)) (img : image) (size : Z * Z) :
  CallResize img size ∉
    st_calls (process_single_file_task w task_id inp_path out_dir quality
                "Original" new_w new_h out_format preserve_meta
                (State [] q)).1.
Proof.
  intros Hc.
  apply process_calls_ok in Hc as [Hc|[_ Htgt]]; [by apply elem_of_nil in Hc|].
  by rewrite resize_target_original in Htgt.
Qed.

(** ** More on the pool *)

Section PoolFacts.

Variable cfg : settings.

Lemma pool_rtc_ind (P : pool -> Prop) (s0 : pool) :
  P s0 ->
  (forall s s', rtc (pool_step cfg) s0 s -> P s -> pool_step cfg s s' -> P s') ->
  forall s, rtc (pool_step cfg) s0 s -> P s.
Proof.
  intros H0 Hstep s Hrtc.
  refine (rtc_ind_r (R := pool_step cfg) P s0 H0 _ s Hrtc).
  intros y z Hy Hyz HP. by eapply Hstep.
Qed.

End PoolFacts.

(** X10. At most [WORKER_THREADS] (four) calls of the worker run at
    any moment, whatever the size of the batch. *)
Theorem pool_runs_at_most_four (cfg : settings)
    (files : list (Z * string * string)) (q0 : list (gmap string pyval))
    (s : pool) :
  rtc (pool_step cfg) (pool_init files q0) s ->
  (length (running s) <= WORKER_THREADS)%nat.
Proof.
  revert s.
  apply pool_rtc_ind; [simpl; lia|].
  intros s s' _ Hs Hstep.
  destruct Hstep as [t ps rs q r Hfree|w t ps rs1 rs2 q r s1 res Hrun|q];
    simpl in *; rewrite ?length_app in *; simpl in *; lia.
Qed.

Lemma pool_runs_at_most_four_witness :
  (length (running PoolSample.final) <= 4)%nat.
Proof.
  apply (pool_runs_at_most_four PoolSample.cfg PoolSample.files []
           PoolSample.final pool_sample_run).
Defined.

(** X11. Calls are started in the order they were submitted: what is
    still pending is always a tail of [files], and every running call
    comes from the part before it. *)
Theorem pool_starts_in_submission_order (cfg : settings)
    (files : list (Z * string * string)) (q0 : list (gmap string pyval))
    (s : pool) :
  rtc (pool_step cfg) (pool_init files q0) s ->
  exists started,
    files = started ++ pending s
    /\ forall t, t ∈ running s -> t ∈ started.
Proof.
  revert s. apply pool_rtc_ind.
  - exists []. split; [done|]. simpl. intros t Ht. by apply elem_of_nil in Ht.
  - intros s s' _ (started & Hfiles & Hrun) Hstep.
    destruct Hstep as [t ps rs q r Hfree|w t ps rs1 rs2 q r s1 res Hres|q];
      simpl in *.
    + exists (started ++ [t]). split; [by rewrite <- app_assoc|].
      intros t' Ht'. apply elem_of_app in Ht' as [Ht'|Ht'].
      * apply elem_of_app. left. by apply Hrun.
      * apply elem_of_app. by right.
    + exists started. split; [done|]. intros t' Ht'. apply Hrun.
      apply elem_of_app in Ht' as [Ht'|Ht']; apply elem_of_app;
        [by left | right; by apply elem_of_cons; right].
    + by exists started.
Qed.

Lemma pool_starts_in_submission_order_witness :
  exists started, PoolSample.files = started ++ pending PoolSample.final.
Proof.
  destruct (pool_starts_in_submission_order PoolSample.cfg PoolSample.files []
              PoolSample.final pool_sample_run) as (started & Hfiles & _).
  by exists started.
Defined.

(** X12. The pool only ever appends to the queue: between any two
    states of a run, what was on the queue is still there, in the same
    order, at the front. *)
Theorem pool_queue_is_append_only (cfg : settings) (s s' : pool) :
  rtc (pool_step cfg) s s' ->
  exists more, pool_q s' = pool_q s ++ more.
Proof.
  revert s'. apply pool_rtc_ind.
  - exists []. by rewrite app_nil_r.
  - intros s1 s2 _ (more & Hq) Hstep.
    destruct Hstep as [t ps rs q r Hfree|w t ps rs1 rs2 q r s3 res Hres|q];
      simpl in *.
    + by exists more.
    + destruct (run_task_puts_one cfg w t q) as (_ & m & Hput & _).
      rewrite Hres in Hput. simpl in Hput.
      exists (more ++ [m]). by rewrite Hput, Hq, app_assoc.
    + exists (more ++ [all_done_msg]). by rewrite Hq, app_assoc.
Qed.

Lemma pool_queue_is_append_only_witness :
  exists more, pool_q PoolSample.final = [] ++ more.
Proof.
  apply (pool_queue_is_append_only PoolSample.cfg
           (pool_init PoolSample.files []) PoolSample.final pool_sample_run).
Defined.

(** X13. No future ever holds an exception, so no [f.result()] raises
    and the submitting thread always gets to its final [put]; and
    [all_done] is put only when nothing is pending or running. *)
Theorem pool_never_raises (cfg : settings)
    (files : list (Z * string * string)) (q0 : list (gmap string pyval))
    (s : pool) :
  rtc (pool_step cfg) (pool_init files q0) s ->
  raised s = false
  /\ (notified s = true -> pending s = [] /\ running s = []).
Proof.
  intros Hreach.
  destruct (pool_inv_reachable cfg files q0 s Hreach)
    as (_ & _ & _ & _ & Hraised & _ & Hnot).
  done.
Qed.

Lemma pool_never_raises_witness : raised PoolSample.final = false.
Proof.
  apply (pool_never_raises PoolSample.cfg PoolSample.files []
           PoolSample.final pool_sample_run).
Defined.

(** ** More on the consumer *)

Section PollFrame.

Variable human_kb : pyval -> string.

Lemma tree_set_keys (t : list row) (item column value : string) :
  column <> "path" ->
  row_key <$> tree_set t item column value = row_key <$> t.
Proof.
  intros Hcol. unfold tree_set. induction t as [|r t IH]; [done|].
  cbn [List.map]. rewrite !fmap_cons, IH. f_equal.
  destruct (String.eqb (row_item r) item); [|done].
  unfold row_key. simpl. by rewrite lookup_insert_ne.
Qed.

Lemma tree_item_image_keys (t : list row) (item : string) (photo : image) :
  row_key <$> tree_item_image t item photo = row_key <$> t.
Proof.
  unfold tree_item_image. induction t as [|r t IH]; [done|].
  cbn [List.map]. rewrite !fmap_cons, IH. f_equal.
  by destruct (String.eqb (row_item r) item).
Qed.

(** [find_target] only looks at the keys. *)
Lemma find_target_keys (t t' : list row) (p : pyval) :
  row_key <$> t = row_key <$> t' -> find_target t p = find_target t' p.
Proof.
  revert t'. induction t as [|r t IH]; intros [|r' t'] Hk; try done.
  rewrite !fmap_cons in Hk.
  assert (row_item r = row_item r' /\ row_cols r !! "path" = row_cols r' !! "path"
          /\ row_key <$> t = row_key <$> t') as (Hitem & Hpath & Ht)
    by (unfold row_key at 1 3 in Hk; by injection Hk).
  simpl. rewrite Hpath, Hitem, (IH t' Ht). done.
Qed.

(** One message: the rows keep their keys and the maximum stays. *)
Lemma poll_msg_keys (g : gui) (m : gmap string pyval) :
  row_key <$> tree (poll_msg human_kb g m) = row_key <$> tree g
  /\ progress_maximum (poll_msg human_kb g m) = progress_maximum g.
Proof.
  unfold poll_msg.
  destruct (pyval_is_str (dict_get m "control") "all_done"); [done|].
  destruct (find_target (tree g) (dict_get m "inp_path")) as [item|]; [|done].
  destruct (String.eqb item ""); [done|].
  destruct (pyval_is_str (dict_get m "status") "done").
  - cbn [tree progress_maximum with_progress_value with_tree].
    rewrite !tree_set_keys by done.
    unfold set_thumbnail. destruct (dict_get m "thumb"); try done.
    cbn [tree progress_maximum]. by rewrite tree_item_image_keys.
  - destruct (pyval_is_str (dict_get m "status") "error"); [|done].
    cbn [tree progress_maximum with_progress_value with_tree].
    by rewrite tree_set_keys.
Qed.

(** One message: what happens to the count and to the dialogs. *)
Lemma poll_msg_count (g : gui) (m : gmap string pyval) :
  if is_all_done m
  then progress_value (poll_msg human_kb g m) = progress_maximum g
       /\ dialogs (poll_msg human_kb g m)
          = dialogs g ++ [("Done", "Batch compression completed!")]
  else (progress_value (poll_msg human_kb g m) = progress_value g
        \/ progress_value (poll_msg human_kb g m) = progress_value g + 1)
       /\ dialogs (poll_msg human_kb g m) = dialogs g.
Proof.
  unfold is_all_done, poll_msg.
  destruct (pyval_is_str (dict_get m "control") "all_done"); [done|].
  destruct (find_target (tree g) (dict_get m "inp_path")) as [item|]; [|auto].
  destruct (String.eqb item ""); [auto|].
  destruct (pyval_is_str (dict_get m "status") "done").
  - cbn [progress_value dialogs with_progress_value with_tree].
    unfold set_thumbnail. destruct (dict_get m "thumb"); auto.
  - destruct (pyval_is_str (dict_get m "status") "error"); auto.
Qed.

Lemma fold_poll_keys (q : list (gmap string pyval)) (g : gui) :
  row_key <$> tree (fold_left (poll_msg human_kb) q g) = row_key <$> tree g
  /\ progress_maximum (fold_left (poll_msg human_kb) q g) = progress_maximum g.
Proof.
  revert g. induction q as [|m q IH]; intros g; [done|]. simpl.
  destruct (IH (poll_msg human_kb g m)) as [Hk Hm].
  destruct (poll_msg_keys g m) as [Hk' Hm'].
  split; [by rewrite Hk | by rewrite Hm].
Qed.

End PollFrame.

Lemma sample_worker_msgs : Forall worker_msg [PollSample.failed_0; all_done_msg].
Proof.
  apply Forall_cons. split.
  - left. exists 0, "a.png". right.
    exists (Exception "cannot identify image file"). reflexivity.
  - apply Forall_cons. split; [by right | constructor].
Qed.

(** X14. Draining what the workers put leaves the list of files as it
    is: no row is added, removed or moved, no row changes its
    identifier or its [path] column, and the progress maximum stays. *)
Theorem poll_queue_keeps_rows (human_kb : pyval -> string)
    (totals_text : list row -> string) (g : gui)
    (q : list (gmap string pyval)) :
  Forall worker_msg q ->
  row_key <$> tree (poll_queue human_kb totals_text g q).1 = row_key <$> tree g
  /\ length (tree (poll_queue human_kb totals_text g q).1) = length (tree g)
  /\ progress_maximum (poll_queue human_kb totals_text g q).1 = progress_maximum g.
Proof.
  intros _.
  destruct (fold_poll_keys human_kb q g) as [Hk Hm].
  assert (Hgoal :
    row_key <$> tree (poll_queue human_kb totals_text g q).1 = row_key <$> tree g
    /\ progress_maximum (poll_queue human_kb totals_text g q).1 = progress_maximum g).
  { unfold poll_queue. by destruct (_ <? _). }
  destruct Hgoal as (H2 & H3). split_and!; [done| |done].
  apply (f_equal length) in H2. by rewrite !length_fmap in H2.
Qed.

Lemma poll_queue_keeps_rows_witness :
  row_key <$> tree (poll_queue PollSample.human_kb (fun _ => "")
                      PollSample.reloaded [PollSample.failed_0; all_done_msg]).1
  = row_key <$> tree PollSample.reloaded.
Proof.
  apply (poll_queue_keeps_rows PollSample.human_kb (fun _ => "")
           PollSample.reloaded [PollSample.failed_0; all_done_msg]).
  exact sample_worker_msgs.
Defined.

Section PollCount.

Variable human_kb : pyval -> string.

(** Once the count has reached the maximum it stays there or above,
    and a completion dialog once shown stays. *)
Lemma poll_msg_reached (g : gui) (m : gmap string pyval) :
  progress_maximum g <= progress_value g ->
  progress_maximum (poll_msg human_kb g m) <= progress_value (poll_msg human_kb g m).
Proof.
  intros Hge. destruct (poll_msg_keys human_kb g m) as [_ ->].
  pose proof (poll_msg_count human_kb g m) as Hc.
  destruct (is_all_done m); [lia|]. destruct Hc as [[?|?] _]; lia.
Qed.

Lemma fold_poll_reached (q : list (gmap string pyval)) (g : gui) :
  progress_maximum g <= progress_value g ->
  progress_maximum (fold_left (poll_msg human_kb) q g)
    <= progress_value (fold_left (poll_msg human_kb) q g).
Proof.
  revert g. induction q as [|m q IH]; intros g Hge; [done|].
  simpl. by apply IH, poll_msg_reached.
Qed.

Lemma poll_msg_dialogs_grow (g : gui) (m : gmap string pyval) d :
  d ∈ dialogs g -> d ∈ dialogs (poll_msg human_kb g m).
Proof.
  intros Hd. pose proof (poll_msg_count human_kb g m) as Hc.
  destruct (is_all_done m).
  - destruct Hc as [_ ->]. apply elem_of_app. by left.
  - destruct Hc as [_ ->]. done.
Qed.

Lemma fold_poll_dialogs_grow (q : list (gmap string pyval)) (g : gui) d :
  d ∈ dialogs g -> d ∈ dialogs (fold_left (poll_msg human_kb) q g).
Proof.
  revert g. induction q as [|m q IH]; intros g Hd; [done|].
  simpl. by apply IH, poll_msg_dialogs_grow.
Qed.

(** Draining messages that all count: the count goes up by their
    number, and no dialog is shown. *)
Lemma fold_poll_counted (q : list (gmap string pyval)) (g : gui) :
  Forall (counted (tree g)) q ->
  progress_value (fold_left (poll_msg human_kb) q g)
    = progress_value g + Z.of_nat (length q)
  /\ dialogs (fold_left (poll_msg human_kb) q g) = dialogs g.
Proof.
  revert g. induction q as [|m q IH]; intros g Hall.
  - simpl. split; [lia|done].
  - apply Forall_cons in Hall as [Hm Hall]. simpl.
    destruct (poll_msg_keys human_kb g m) as [Hkeys _].
    destruct (IH (poll_msg human_kb g m)) as [Hv Hd].
    { eapply Forall_impl; [exact Hall|].
      intros m' (id & p & item & Hres & Hfind & Hitem).
      exists id, p, item. split_and!; [done| |done].
      by rewrite (find_target_keys _ _ _ Hkeys). }
    rewrite Hv, Hd.
    destruct Hm as (id & p & item & Hres & Hfind & Hitem).
    destruct Hres as [(sp & b & a & t & ->)|(e & ->)].
    + destruct (poll_msg_done human_kb g id p sp b a t item Hfind Hitem)
        as (Hval & _).
      pose proof (poll_msg_count human_kb g (done_msg id p sp b a t)) as Hc.
      change (is_all_done (done_msg id p sp b a t)) with false in Hc.
      destruct Hc as [_ ->]. split; [lia|done].
    + destruct (poll_msg_error human_kb g id p e item Hfind Hitem) as (Hval & _).
      pose proof (poll_msg_count human_kb g (error_msg id p e)) as Hc.
      change (is_all_done (error_msg id p e)) with false in Hc.
      destruct Hc as [_ ->]. split; [lia|done].
Qed.

End PollCount.

(** X15. Draining a queue of worker messages that holds [all_done]
    always ends the polling, however few results were counted and
    whichever results come before or after it: the count is at the
    maximum or above, no further poll is scheduled, and the completion
    dialog has been shown. *)
Theorem all_done_ends_polling (human_kb : pyval -> string)
    (totals_text : list row -> string) (g : gui)
    (q : list (gmap string pyval)) :
  Forall worker_msg q ->
  all_done_msg ∈ q ->
  let g' := (poll_queue human_kb totals_text g q).1 in
  poll_scheduled g' = false
  /\ progress_maximum g' <= progress_value g'
  /\ ("Done", "Batch compression completed!") ∈ dialogs g'.
Proof.
  intros _ Hin g'.
  apply list_elem_of_split in Hin as (q1 & q2 & ->).
  set (g1 := fold_left (poll_msg human_kb) q1 g).
  set (g2 := poll_msg human_kb g1 all_done_msg).
  assert (Hfold : fold_left (poll_msg human_kb) (q1 ++ all_done_msg :: q2) g
                  = fold_left (poll_msg human_kb) q2 g2)
    by (by rewrite fold_left_app).
  pose proof (poll_msg_count human_kb g1 all_done_msg) as Hc.
  change (is_all_done all_done_msg) with true in Hc. destruct Hc as [Hv Hd].
  destruct (poll_msg_keys human_kb g1 all_done_msg) as [_ Hmax].
  assert (Hreached : progress_maximum (fold_left (poll_msg human_kb) q2 g2)
                     <= progress_value (fold_left (poll_msg human_kb) q2 g2)).
  { apply fold_poll_reached. fold g2 in Hv, Hmax. lia. }
  assert (Hdialog : ("Done", "Batch compression completed!")
                    ∈ dialogs (fold_left (poll_msg human_kb) q2 g2)).
  { apply fold_poll_dialogs_grow. fold g2 in Hd. rewrite Hd.
    apply elem_of_app. right. by apply list_elem_of_singleton. }
  unfold g', poll_queue. rewrite Hfold.
  destruct (Z.ltb_spec (progress_value (fold_left (poll_msg human_kb) q2 g2))
              (progress_maximum (fold_left (poll_msg human_kb) q2 g2)));
    [lia|]. done.
Qed.

Lemma all_done_ends_polling_witness :
  poll_scheduled
    (poll_queue PollSample.human_kb (fun _ => "") PollSample.reloaded
       [PollSample.failed_0; all_done_msg]).1 = false.
Proof.
  apply (all_done_ends_polling PollSample.human_kb (fun _ => "")
           PollSample.reloaded [PollSample.failed_0; all_done_msg]).
  - exact sample_worker_msgs.
  - apply elem_of_cons. right. apply list_elem_of_singleton. reflexivity.
Defined.

(** X16. The polling can end before [all_done] is seen: when the
    drained messages are all results of tasks whose rows are in the
    list and bring the count up to the maximum, no further poll is
    scheduled although no completion dialog has been shown (an
    [all_done] put afterwards stays on the queue). *)
Theorem polling_ends_when_count_is_full (human_kb : pyval -> string)
    (totals_text : list row -> string) (g : gui)
    (q : list (gmap string pyval)) :
  Forall (counted (tree g)) q ->
  progress_value g + Z.of_nat (length q) = progress_maximum g ->
  let g' := (poll_queue human_kb totals_text g q).1 in
  poll_scheduled g' = false
  /\ progress_value g' = progress_maximum g'
  /\ dialogs g' = dialogs g.
Proof.
  intros Hall Hfull g'.
  destruct (fold_poll_counted human_kb q g Hall) as [Hv Hd].
  destruct (fold_poll_keys human_kb q g) as [_ Hm].
  unfold g', poll_queue.
  destruct (Z.ltb_spec (progress_value (fold_left (poll_msg human_kb) q g))
              (progress_maximum (fold_left (poll_msg human_kb) q g)));
    [lia|].
  cbn [fst poll_scheduled progress_value progress_maximum dialogs].
  split_and!; [done|lia|done].
Qed.

Lemma polling_ends_when_count_is_full_witness :
  poll_scheduled
    (poll_queue PollSample.human_kb (fun _ => "") PollSample.reloaded
       [PollSample.failed_0;
        error_msg 1 "b.png" (Exception "cannot identify image file")]).1 = false.
Proof.
  apply (polling_ends_when_count_is_full PollSample.human_kb (fun _ => "")
           PollSample.reloaded
           [PollSample.failed_0;
            error_msg 1 "b.png" (Exception "cannot identify image file")]).
  - repeat constructor.
    + exists 0, "a.png", "I004". split_and!; [right; by eexists|reflexivity|discriminate].
    + exists 1, "b.png", "I003". split_and!; [right; by eexists|reflexivity|discriminate].
  - reflexivity.
Defined.

(** X17. A message never lowers a count that is within the maximum,
    and never raises it by more than one unless it is [all_done],
    which sets it to the maximum; this holds for any dictionary found
    on the queue. *)
Theorem poll_msg_count_moves_up (human_kb : pyval -> string) (g : gui)
    (m : gmap string pyval) :
  progress_value g <= progress_maximum g ->
  progress_value g <= progress_value (poll_msg human_kb g m)
  /\ (progress_value (poll_msg human_kb g m) <= progress_value g + 1
      \/ (is_all_done m = true
          /\ progress_value (poll_msg human_kb g m) = progress_maximum g)).
Proof.
  intros Hle. pose proof (poll_msg_count human_kb g m) as Hc.
  destruct (is_all_done m).
  - destruct Hc as [-> _]. split; [done|]. by right.
  - destruct Hc as [[->| ->] _]; split; try lia; left; lia.
Qed.

Lemma poll_msg_count_moves_up_witness :
  progress_value PollSample.reloaded
    <= progress_value
         (poll_msg PollSample.human_kb PollSample.reloaded PollSample.failed_0).
Proof.
  apply (poll_msg_count_moves_up PollSample.human_kb PollSample.reloaded
           PollSample.failed_0).
  vm_compute. discriminate.
Defined.

(** ** The list of files: [add_files], [add_file_row], [clear_files] *)

Lemma has_path_shown (t : list row) (path : string) :
  has_path t path = true <-> path ∈ shown_paths t.
Proof.
  unfold shown_paths. induction t as [|r t IH]; simpl.
  - split; [done|]. intros H. by apply elem_of_nil in H.
  - destruct (row_cols r !! "path") as [p|] eqn:Ep; simpl; [|done].
    destruct (String.eqb_spec p path) as [->|Hne].
    + split; [intros _; by apply elem_of_cons; left|done].
    + rewrite IH. split; [intros H; by apply elem_of_cons; right|].
      intros H. apply elem_of_cons in H as [H|H]; [congruence|done].
Qed.

Lemma shown_paths_snoc (t : list row) (r : row) (path : string) :
  row_cols r !! "path" = Some path ->
  shown_paths (t ++ [r]) = shown_paths t ++ [path].
Proof.
  intros Hp. unfold shown_paths. rewrite omap_app. simpl. by rewrite Hp.
Qed.

Section GuiFacts.

Variable human_kb : pyval -> string.
Variable py_strip : string -> string.
Variable py_int : string -> option Z.

(** What one call of [add_file_row] does to the list: nothing, or one
    new row at the end, queued, showing [path]. *)
Lemma add_file_row_tree (env : GuiEnv) (g : gui) (n : nat) (path : string) :
  let '(g', n', e) := add_file_row human_kb env g n path in
  progress_value g' = progress_value g
  /\ progress_maximum g' = progress_maximum g
  /\ dialogs g' = dialogs g
  /\ ((tree g' = tree g /\ n' = n
       /\ (path ∈ shown_paths (tree g) \/ exists x, e = Some x))
      \/ (exists r, tree g' = tree g ++ [r] /\ n' = S n /\ e = None
            /\ (path ∉ shown_paths (tree g))
            /\ row_item r = g_item env n
            /\ row_cols r !! "path" = Some path
            /\ row_cols r !! "status" = Some "Queued"
            /\ row_cols r !! "#" = Some (pretty (S (length (tree g)))))).
Proof.
  unfold add_file_row.
  destruct (has_path (tree g) path) eqn:Hhas.
  - split_and!; [done|done|done|]. left. split_and!; [done|done|].
    left. by apply has_path_shown.
  - destruct (g_getsize env path) as [e|size].
    + split_and!; [done|done|done|]. left. split_and!; [done|done|].
      right. by exists e.
    + split_and!; [done|done|done|]. right. eexists. split; [reflexivity|].
      split_and!; try done.
      * intros Hin. apply has_path_shown in Hin. congruence.
      * simpl. by rewrite Nat.add_1_r.
Qed.

Lemma listed_once_snoc (t : list row) (r : row) (path : string) :
  listed_once t ->
  path ∉ shown_paths t ->
  row_cols r !! "path" = Some path ->
  row_cols r !! "#" = Some (pretty (S (length t))) ->
  listed_once (t ++ [r]).
Proof.
  intros (Hall & Hnd & Hnum) Hnew Hp Hn. split_and!.
  - apply Forall_app. split; [done|]. constructor; [by rewrite Hp|constructor].
  - rewrite (shown_paths_snoc t r path Hp). apply NoDup_app. split_and!; [done| |].
    + intros x Hx Hx'. apply list_elem_of_singleton in Hx' as ->. done.
    + apply NoDup_singleton.
  - intros i r' Hi. destruct (decide (i < length t)%nat) as [Hlt|Hge].
    + rewrite lookup_app_l in Hi by done. by apply Hnum.
    + assert (i = length t) as ->.
      { apply lookup_lt_Some in Hi. rewrite length_app in Hi. simpl in Hi. lia. }
      rewrite lookup_app_r, Nat.sub_diag in Hi by lia. by injection Hi as <-.
Qed.

(** X18. [add_files] keeps the list well formed and only ever extends
    it at the end: afterwards every row still has its [path] column,
    no path is shown twice, each [#] is the row's position, the rows
    that were there are unchanged, every added row is [Queued], and
    the progress bar and the dialogs are untouched. This holds also
    when [os.path.getsize] raises in the middle. *)
Theorem add_files_keeps_list (env : GuiEnv) (paths : list string) (g : gui)
    (n : nat) :
  listed_once (tree g) ->
  let g' := (add_files human_kb py_strip env g n paths).1.1 in
  listed_once (tree g')
  /\ (exists more, tree g' = tree g ++ more
        /\ Forall (fun r => row_cols r !! "status" = Some "Queued") more)
  /\ progress_value g' = progress_value g
  /\ progress_maximum g' = progress_maximum g
  /\ dialogs g' = dialogs g.
Proof.
  revert g n. induction paths as [|p paths IH]; intros g n Hok; simpl.
  - split_and!; [done| |done|done|done]. exists []. by rewrite app_nil_r.
  - destruct (g_isfile env (py_strip p)); [|by apply IH].
    pose proof (add_file_row_tree env g n (py_strip p)) as Hrow.
    destruct (add_file_row human_kb env g n (py_strip p)) as [[g1 n1] e].
    destruct Hrow as (Hv & Hm & Hd & Htree).
    assert (Hok1 : listed_once (tree g1)
                   /\ exists more, tree g1 = tree g ++ more
                        /\ Forall (fun r => row_cols r !! "status" = Some "Queued") more).
    { destruct Htree as [(Ht & _)|(r & Ht & _ & _ & Hnew & _ & Hp & Hs & Hn)].
      - rewrite Ht. split; [done|]. exists []. by rewrite app_nil_r.
      - rewrite Ht. split; [by eapply listed_once_snoc|].
        exists [r]. split; [done|]. by constructor. }
    destruct Hok1 as (Hok1 & more1 & Hmore1 & Hq1).
    destruct e as [e|].
    + simpl. split_and!; [done| |done|done|done]. by exists more1.
    + destruct (IH g1 n1 Hok1) as (Hok2 & (more2 & Hmore2 & Hq2) & Hv2 & Hm2 & Hd2).
      split_and!; [done| |congruence|congruence|congruence].
      exists (more1 ++ more2). split.
      * by rewrite Hmore2, Hmore1, app_assoc.
      * by apply Forall_app.
Qed.

(** X19. [add_files] lists files and nothing else: a path shown
    afterwards was shown before or is one of the given paths,
    stripped, for which [os.path.isfile] holds; and, unless
    [os.path.getsize] raised, every such path is shown. *)
Theorem add_files_lists_the_files (env : GuiEnv) (paths : list string)
    (g : gui) (n : nat) :
  let g' := (add_files human_kb py_strip env g n paths).1.1 in
  let given p := exists p0, p0 ∈ paths /\ p = py_strip p0
                            /\ g_isfile env p = true in
  (forall p, p ∈ shown_paths (tree g') -> p ∈ shown_paths (tree g) \/ given p)
  /\ ((add_files human_kb py_strip env g n paths).2 = None ->
      forall p, p ∈ shown_paths (tree g) \/ given p -> p ∈ shown_paths (tree g')).
Proof.
  revert g n. induction paths as [|p0 paths IH]; intros g n; simpl.
  - split; [by left|]. intros _ p [Hp|(p1 & Hin & _)]; [done|].
    by apply elem_of_nil in Hin.
  - destruct (g_isfile env (py_strip p0)) eqn:Hfile.
    + pose proof (add_file_row_tree env g n (py_strip p0)) as Hrow.
      destruct (add_file_row human_kb env g n (py_strip p0)) as [[g1 n1] e].
      destruct Hrow as (_ & _ & _ & Htree).
      assert (Hshown : forall p, p ∈ shown_paths (tree g1) ->
                p ∈ shown_paths (tree g) \/ p = py_strip p0).
      { intros p Hp. destruct Htree as [(Ht & _)|(r & Ht & _ & _ & _ & _ & Hcol & _)].
        - left. by rewrite <- Ht.
        - rewrite Ht, (shown_paths_snoc _ _ _ Hcol) in Hp.
          apply elem_of_app in Hp as [Hp|Hp]; [by left|].
          right. by apply list_elem_of_singleton in Hp. }
      destruct e as [e|]; simpl.
      * split; [|done]. intros p Hp.
        destruct (Hshown p Hp) as [?| ->]; [by left|].
        right. exists p0. split_and!; [by apply elem_of_cons; left|done|done].
      * destruct (IH g1 n1) as [Hfrom Hto]. split.
        -- intros p Hp. destruct (Hfrom p Hp) as [Hp1|(p1 & Hin & Hp1 & Hf)].
           ++ destruct (Hshown p Hp1) as [?| ->]; [by left|].
              right. exists p0. split_and!; [by apply elem_of_cons; left|done|done].
           ++ right. exists p1. split_and!; [by apply elem_of_cons; right|done|done].
        -- intros Hnone p Hp. apply (Hto Hnone).
           assert (Hold : forall x, x ∈ shown_paths (tree g) -> x ∈ shown_paths (tree g1)).
           { intros x Hx. destruct Htree as [(Ht & _)|(r & Ht & _ & _ & _ & _ & Hcol & _)].
             - by rewrite Ht.
             - rewrite Ht, (shown_paths_snoc _ _ _ Hcol). apply elem_of_app. by left. }
           destruct Hp as [Hp|(p1 & Hin & -> & Hf)]; [left; by apply Hold|].
           apply elem_of_cons in Hin as [->|Hin].
           ++ left. destruct Htree as [(Ht & _ & [Hsh|[x Hx]])
                                      |(r & Ht & _ & _ & _ & _ & Hcol & _)].
              ** by rewrite Ht.
              ** done.
              ** rewrite Ht, (shown_paths_snoc _ _ _ Hcol). apply elem_of_app.
                 right. by apply list_elem_of_singleton.
           ++ right. by exists p1.
    + destruct (IH g n) as [Hfrom Hto]. split.
      * intros p Hp. destruct (Hfrom p Hp) as [?|(p1 & Hin & Hp1 & Hf)]; [by left|].
        right. exists p1. split_and!; [by apply elem_of_cons; right|done|done].
      * intros Hnone p Hp. apply (Hto Hnone).
        destruct Hp as [?|(p1 & Hin & -> & Hf)]; [by left|].
        apply elem_of_cons in Hin as [->|Hin]; [congruence|].
        right. by exists p1.
Qed.

End GuiFacts.

Lemma listed_once_nil : listed_once [].
Proof.
  split_and!; [constructor|constructor|]. intros i r Hi. done.
Qed.

Lemma add_files_keeps_list_witness :
  length (tree GuiSample.listed) = 2%nat
  /\ listed_once (tree GuiSample.listed).
Proof.
  split; [reflexivity|].
  apply (add_files_keeps_list GuiSample.human_kb (fun p => p) GuiSample.env
           ["in/a.png"; "in/b.png"; "in/a.png"] GuiSample.empty 0).
  apply listed_once_nil.
Defined.

(** X20. After [clear_files] the results that are still to come are
    thrown away: draining any number of task messages leaves the
    cleared window as it is, nothing is counted, and the polling goes
    on (as long as the maximum of the running batch is positive) until
    [all_done] arrives. *)
Theorem clear_files_discards_results (human_kb : pyval -> string)
    (totals_text : list row -> string) (g : gui)
    (q : list (gmap string pyval)) :
  Forall is_result q ->
  fold_left (poll_msg human_kb) q (clear_files g) = clear_files g
  /\ tree (clear_files g) = []
  /\ progress_value (clear_files g) = 0
  /\ (0 < progress_maximum g ->
      poll_scheduled (poll_queue human_kb totals_text (clear_files g) q).1 = true
      /\ progress_value (poll_queue human_kb totals_text (clear_files g) q).1 = 0).
Proof.
  intros Hall.
  assert (Hfold : fold_left (poll_msg human_kb) q (clear_files g) = clear_files g).
  { induction Hall as [|m q (id & p & Hm) _ IH]; [done|]. simpl.
    rewrite (poll_msg_no_row human_kb (clear_files g) m p); [done| |  |done].
    - by destruct Hm as [(sp & b & a & t & ->)|(e & ->)].
    - by destruct Hm as [(sp & b & a & t & ->)|(e & ->)]. }
  split_and!; [done|done|done|].
  intros Hmax. unfold poll_queue. rewrite Hfold.
  change (progress_value (clear_files g)) with 0.
  change (progress_maximum (clear_files g)) with (progress_maximum g).
  destruct (Z.ltb_spec 0 (progress_maximum g)); [done|lia].
Qed.

Lemma clear_files_discards_results_witness :
  poll_msg PollSample.human_kb (clear_files PollSample.reloaded) PollSample.failed_0
  = clear_files PollSample.reloaded.
Proof.
  apply (clear_files_discards_results PollSample.human_kb (fun _ => "")
           PollSample.reloaded [PollSample.failed_0]).
  constructor; [|constructor]. exists 0, "a.png". right. by eexists.
Defined.

(** ** [start_compression] *)

Section StartFacts.

Variable py_strip : string -> string.
Variable py_int : string -> option Z.

(** What a started batch was started with. *)
Lemma start_compression_started (g g' : gui) (i : inputs) (cfg : settings)
    (files : list (Z * string * string)) :
  start_compression py_strip py_int g i = (g', Some (cfg, files)) ->
  py_int (quality_input i) = Some (quality cfg)
  /\ 1 <= quality cfg <= 100
  /\ resize_flag cfg = resize_var i
  /\ (if String.eqb (resize_var i) "Original"
      then new_w cfg = None /\ new_h cfg = None
      else parse_dimension py_strip py_int (width_input i) = Some (new_w cfg)
           /\ parse_dimension py_strip py_int (height_input i) = Some (new_h cfg))
  /\ out_dir cfg = chosen_dir i /\ chosen_dir i <> ""
  /\ out_format cfg = format_var i /\ preserve_meta cfg = meta_var i
  /\ files = build_files (tree g) /\ files <> []
  /\ g' = Gui (mark_queued (tree g) files) 0 (Z.of_nat (length files))
            (thumb_refs g) (dialogs g) (size_label g) true.
Proof.
  unfold start_compression.
  destruct (tree g) as [|r0 t0] eqn:Ht; [done|].
  destruct (py_int (quality_input i)) as [qv|]; [|done].
  destruct (Z.leb_spec 1 qv); simpl; [|done].
  destruct (Z.leb_spec qv 100); simpl; [|done].
  destruct (String.eqb (resize_var i) "Original") eqn:Hflag; simpl.
  - destruct (String.eqb_spec (chosen_dir i) ""); [done|].
    destruct (build_files (r0 :: t0)) as [|f fs] eqn:Hfiles; [done|].
    intros [= <- <- <-]. simpl. by split_and!.
  - destruct (parse_dimension py_strip py_int (width_input i)) as [nw|]; [|done].
    destruct (parse_dimension py_strip py_int (height_input i)) as [nh|]; [|done].
    destruct (String.eqb_spec (chosen_dir i) ""); [done|].
    destruct (build_files (r0 :: t0)) as [|f fs] eqn:Hfiles; [done|].
    intros [= <- <- <-]. simpl. by split_and!.
Qed.

(** What a refused start leaves behind. *)
Lemma start_compression_refused (g g' : gui) (i : inputs) :
  start_compression py_strip py_int g i = (g', None) ->
  g' = g \/ exists title text, g' = show_dialog g title text.
Proof.
  unfold start_compression.
  destruct (tree g) as [|r0 t0]; [intros [= <-]; right; eauto|].
  destruct (match py_int (quality_input i) with
            | Some quality =>
                if negb ((1 <=? quality) && (quality <=? 100))
                then None else Some quality
            | None => None
            end); [|intros [= <-]; right; eauto].
  destruct (if negb (String.eqb (resize_var i) "Original")
            then match parse_dimension py_strip py_int (width_input i) with
                 | Some new_w =>
                     match parse_dimension py_strip py_int (height_input i) with
                     | Some new_h => Some (new_w, new_h)
                     | None => None
                     end
                 | None => None
                 end
            else Some (None, None)) as [[nw nh]|]; [|intros [= <-]; right; eauto].
  destruct (String.eqb (chosen_dir i) ""); [intros [= <-]; by left|].
  destruct (build_files (r0 :: t0)); [intros [= <-]; right; eauto|done].
Qed.

End StartFacts.

(** X21. No task is ever submitted with a quality outside 1..100:
    a batch is started only when [int] accepts the quality entry and
    the value is in that range, and whenever [img.save] is given a
    [quality] in a task of that batch it is this value. *)
Theorem started_quality_in_range (py_strip : string -> string)
    (py_int : string -> option Z) (g g' : gui) (i : inputs) (cfg : settings)
    (files : list (Z * string * string)) :
  start_compression py_strip py_int g i = (g', Some (cfg, files)) ->
  py_int (quality_input i) = Some (quality cfg)
  /\ 1 <= quality cfg <= 100
  /\ forall w t q img path kwargs v,
       CallSave img path kwargs ∈ st_calls (run_task cfg w t (State [] q)).1 ->
       kwargs !! "quality" = Some (VInt v) -> 1 <= v <= 100.
Proof.
  intros Hstart.
  destruct (start_compression_started py_strip py_int g g' i cfg files Hstart)
    as (Hq & Hrange & _).
  split; [done|]. split; [done|].
  intros w [[idx item] path0] q img path kwargs v Hc Hkw.
  unfold run_task in Hc.
  apply process_calls_ok in Hc as [Hc|Hok]; [by apply elem_of_nil in Hc|].
  destruct Hok as (img0 & img1 & rgb & _ & _ & _ & _ & _ & ->).
  unfold task_kwargs in Hkw. rewrite build_save_kwargs_quality in Hkw.
  destruct (_ || _)%bool; [|done]. by injection Hkw as <-.
Qed.

(** X22. A start that is refused (no files, a bad quality, a width or
    height that is not an integer, no directory chosen) changes
    nothing in the window beyond showing at most one dialog: the list,
    the progress bar and the polling are as before. *)
Theorem refused_start_changes_nothing (py_strip : string -> string)
    (py_int : string -> option Z) (g g' : gui) (i : inputs) :
  start_compression py_strip py_int g i = (g', None) ->
  tree g' = tree g
  /\ progress_value g' = progress_value g
  /\ progress_maximum g' = progress_maximum g
  /\ thumb_refs g' = thumb_refs g
  /\ poll_scheduled g' = poll_scheduled g
  /\ (dialogs g' = dialogs g \/ exists d, dialogs g' = dialogs g ++ [d]).
Proof.
  intros Hstart.
  destruct (start_compression_refused py_strip py_int g g' i Hstart)
    as [->|(title & text & ->)].
  - split_and!; try done. by left.
  - split_and!; try done. right. by eexists.
Qed.

(** X23. With "Original" the width and height entries are not read:
    whatever they hold, text that is no number included, the outcome is
    the same, and a started batch passes no width and no height. *)
Theorem original_ignores_dimensions (py_strip : string -> string)
    (py_int : string -> option Z) (g : gui) (i : inputs)
    (width height : string) :
  resize_var i = "Original" ->
  start_compression py_strip py_int g i
  = start_compression py_strip py_int g
      (Inputs (quality_input i) (resize_var i) width height (format_var i)
         (meta_var i) (chosen_dir i))
  /\ forall g' cfg files,
       start_compression py_strip py_int g i = (g', Some (cfg, files)) ->
       new_w cfg = None /\ new_h cfg = None.
Proof.
  intros Hflag. split.
  - unfold start_compression. simpl. by rewrite Hflag.
  - intros g' cfg files Hstart.
    destruct (start_compression_started py_strip py_int g g' i cfg files Hstart)
      as (_ & _ & _ & Hdim & _).
    by rewrite Hflag in Hdim.
Qed.

(** X24. Width and height are checked for being integers, not for
    their sign or size: in a started batch a width other than 0 that
    [int] read from the entry, negative ones included, is the width
    [img.resize] is called with in every run of a task whose input
    decodes; and so is a height. *)
Theorem entered_width_is_not_range_checked (py_strip : string -> string)
    (py_int : string -> option Z) (g g' : gui) (i : inputs) (cfg : settings)
    (files : list (Z * string * string)) :
  start_compression py_strip py_int g i = (g', Some (cfg, files)) ->
  (forall v, new_w cfg = Some v -> v <> 0 ->
     py_int (width_input i) = Some v
     /\ forall w t q before_size img,
          w_getsize_inp w t.2 = inr before_size ->
          w_open_inp w t.2 = inr img ->
          exists tgt_h,
            CallResize img (v, tgt_h)
              ∈ st_calls (run_task cfg w t (State [] q)).1)
  /\ (forall v, new_h cfg = Some v -> v <> 0 ->
        py_int (height_input i) = Some v
        /\ forall w t q before_size img,
             w_getsize_inp w t.2 = inr before_size ->
             w_open_inp w t.2 = inr img ->
             exists tgt_w,
               CallResize img (tgt_w, v)
                 ∈ st_calls (run_task cfg w t (State [] q)).1).
Proof.
  intros Hstart.
  destruct (start_compression_started py_strip py_int g g' i cfg files Hstart)
    as (_ & _ & Hflag & Hdim & _).
  assert (Hread : forall text v,
    parse_dimension py_strip py_int text = Some (Some v) -> py_int text = Some v).
  { intros text v Hp. unfold parse_dimension in Hp.
    destruct (negb _); [|done].
    destruct (py_int text); [|done]. by injection Hp as ->. }
  split; intros v Hv Hnz.
  - destruct (String.eqb_spec (resize_var i) "Original") as [Horig|Hcustom].
    { destruct Hdim as [Hnone _]. congruence. }
    destruct Hdim as [Hpw _]. rewrite Hv in Hpw. split; [by apply Hread|].
    intros w [[idx item] path] q before_size img Hsize Hopen. simpl in Hsize, Hopen.
    destruct (img_size img) as [src_w src_h] eqn:Himg.
    assert (Htgt : exists tgt_h,
      resize_target (resize_flag cfg) (new_w cfg) (new_h cfg) (img_size img)
      = Some (v, tgt_h)).
    { rewrite Himg, resize_target_custom by congruence.
      rewrite Hv, truthy_int_Some.
      apply Z.eqb_neq in Hnz. rewrite Hnz. simpl. eauto. }
    destruct Htgt as [tgt_h Htgt]. exists tgt_h.
    unfold run_task. by eapply run_calls_resize.
  - destruct (String.eqb_spec (resize_var i) "Original") as [Horig|Hcustom].
    { destruct Hdim as [_ Hnone]. congruence. }
    destruct Hdim as [_ Hph]. rewrite Hv in Hph. split; [by apply Hread|].
    intros w [[idx item] path] q before_size img Hsize Hopen. simpl in Hsize, Hopen.
    destruct (img_size img) as [src_w src_h] eqn:Himg.
    assert (Htgt : exists tgt_w,
      resize_target (resize_flag cfg) (new_w cfg) (new_h cfg) (img_size img)
      = Some (tgt_w, v)).
    { rewrite Himg, resize_target_custom by congruence.
      rewrite Hv, truthy_int_Some.
      apply Z.eqb_neq in Hnz. rewrite Hnz, orb_true_r. eauto. }
    destruct Htgt as [tgt_w Htgt]. exists tgt_w.
    unfold run_task. by eapply run_calls_resize.
Qed.

Lemma sample_start :
  start_compression GuiSample.strip_none GuiSample.py_int GuiSample.listed
    GuiSample.form
  = (Gui (mark_queued (tree GuiSample.listed) GuiSample.listed_files) 0 2
       (thumb_refs GuiSample.listed) [] "" true,
     Some (GuiSample.form_cfg, GuiSample.listed_files)).
Proof. vm_compute. reflexivity. Qed.

Lemma started_quality_in_range_witness :
  GuiSample.py_int (quality_input GuiSample.form) = Some 70 /\ 1 <= 70 <= 100.
Proof.
  destruct (started_quality_in_range GuiSample.strip_none GuiSample.py_int
              GuiSample.listed _ GuiSample.form GuiSample.form_cfg
              GuiSample.listed_files sample_start) as (Hq & Hrange & _).
  split; [exact Hq | exact Hrange].
Defined.

Lemma refused_start_changes_nothing_witness :
  tree (start_compression GuiSample.strip_none GuiSample.py_int GuiSample.listed
          GuiSample.bad_form).1
  = tree GuiSample.listed.
Proof.
  apply (refused_start_changes_nothing GuiSample.strip_none GuiSample.py_int
           GuiSample.listed _ GuiSample.bad_form).
  vm_compute. reflexivity.
Defined.

Lemma original_ignores_dimensions_witness :
  start_compression GuiSample.strip_none GuiSample.py_int GuiSample.listed
    GuiSample.original_form
  = start_compression GuiSample.strip_none GuiSample.py_int GuiSample.listed
      (Inputs "70" "Original" "" "" "jpg" false "out").
Proof.
  apply (original_ignores_dimensions GuiSample.strip_none GuiSample.py_int
           GuiSample.listed GuiSample.original_form "" "").
  reflexivity.
Defined.

Lemma entered_width_is_not_range_checked_witness :
  exists tgt_h,
    CallResize Sample.rgba (-5, tgt_h)
      ∈ st_calls (run_task GuiSample.form_cfg Sample.world
                    (0, "I001", "in/a.png") (State [] [])).1.
Proof.
  destruct (entered_width_is_not_range_checked GuiSample.strip_none
              GuiSample.py_int GuiSample.listed _ GuiSample.form
              GuiSample.form_cfg GuiSample.listed_files sample_start)
    as [Hwidth _].
  destruct (Hwidth (-5) eq_refl ltac:(discriminate)) as [_ Hrun].
  apply (Hrun Sample.world (0, "I001", "in/a.png") [] 4096 Sample.rgba);
    reflexivity.
Defined.

(** ** From the list of files to the tasks and back *)

Lemma build_files_from_rows (k : Z) (rows : list row) (idx : Z)
    (item path : string) :
  (idx, item, path) ∈ build_files_from k rows ->
  exists i r, rows !! i = Some r /\ idx = k + Z.of_nat i
    /\ row_item r = item /\ row_cols r !! "path" = Some path.
Proof.
  revert k. induction rows as [|r rows IH]; intros k Hin; simpl in Hin.
  - by apply elem_of_nil in Hin.
  - destruct (row_cols r !! "path") as [p|] eqn:Ep.
    + apply elem_of_cons in Hin as [[= -> -> ->]|Hin].
      * exists 0%nat, r. split_and!; [done|lia|done|done].
      * destruct (IH _ Hin) as (i & r' & Hi & -> & Hitem & Hp).
        exists (S i), r'. split_and!; [done|lia|done|done].
    + destruct (IH _ Hin) as (i & r' & Hi & -> & Hitem & Hp).
      exists (S i), r'. split_and!; [done|lia|done|done].
Qed.

Lemma build_files_from_length (k : Z) (rows : list row) :
  Forall (fun r => is_Some (row_cols r !! "path")) rows ->
  length (build_files_from k rows) = length rows.
Proof.
  intros Hall. revert k. induction Hall as [|r rows [p Hp] _ IH]; intros k; [done|].
  simpl. rewrite Hp. simpl. by rewrite IH.
Qed.

Lemma build_files_from_paths (k : Z) (rows : list row) (idx : Z)
    (item path : string) :
  (idx, item, path) ∈ build_files_from k rows -> path ∈ shown_paths rows.
Proof.
  intros Hin. apply build_files_from_rows in Hin as (i & r & Hi & _ & _ & Hp).
  unfold shown_paths. apply list_elem_of_omap. exists r. split; [|done].
  by eapply list_elem_of_lookup_2.
Qed.

(** With no path shown twice, the row [find_target] picks for a task's
    path is the task's own row. *)
Lemma build_files_from_find (k : Z) (rows : list row) (idx : Z)
    (item path : string) :
  NoDup (shown_paths rows) ->
  (idx, item, path) ∈ build_files_from k rows ->
  find_target rows (VStr path) = Some item.
Proof.
  revert k. induction rows as [|r rows IH]; intros k Hnd Hin; simpl in Hin.
  - by apply elem_of_nil in Hin.
  - unfold shown_paths in Hnd. simpl in *.
    destruct (row_cols r !! "path") as [p|] eqn:Ep.
    + apply NoDup_cons in Hnd as [Hnew Hnd].
      apply elem_of_cons in Hin as [[= -> -> ->]|Hin].
      * by rewrite String.eqb_refl.
      * destruct (String.eqb_spec p path) as [->|Hne].
        { exfalso. apply Hnew. by eapply build_files_from_paths. }
        by eapply IH.
    + by eapply IH.
Qed.

Lemma mark_queued_keys (files : list (Z * string * string)) (t : list row) :
  row_key <$> mark_queued t files = row_key <$> t.
Proof.
  unfold mark_queued. revert t. induction files as [|f files IH]; intros t; [done|].
  simpl. rewrite IH. by rewrite !tree_set_keys.
Qed.

Lemma mark_queued_other (files : list (Z * string * string)) (t : list row)
    (item column : string) :
  item ∉ (fun f => f.1.2) <$> files ->
  tree_get (mark_queued t files) item column = tree_get t item column.
Proof.
  unfold mark_queued. revert t. induction files as [|f files IH]; intros t Hnot; [done|].
  simpl. rewrite fmap_cons in Hnot. apply not_elem_of_cons in Hnot as [Hne Hnot].
  rewrite IH by done. by rewrite !tree_get_set_other_item.
Qed.

Lemma mark_queued_status (files : list (Z * string * string)) (t : list row)
    (item : string) :
  item ∈ (fun f => f.1.2) <$> files ->
  item ∈ row_item <$> t ->
  tree_get (mark_queued t files) item "status" = Some "Queued"
  /\ tree_get (mark_queued t files) item "after" = Some "-".
Proof.
  revert t. induction files as [|f files IH]; intros t Hin Hrow.
  - by apply elem_of_nil in Hin.
  - change (mark_queued t (f :: files))
      with (mark_queued (tree_set (tree_set t f.1.2 "after" "-") f.1.2 "status" "Queued")
              files).
    destruct (decide (item ∈ (fun f => f.1.2) <$> files)) as [Hlater|Hnot].
    + apply IH; [done|]. by rewrite !tree_set_items.
    + rewrite !mark_queued_other by done.
      rewrite fmap_cons in Hin. apply elem_of_cons in Hin as [->|Hin]; [|done].
      split.
      * apply tree_get_set_same, has_item_iff. by rewrite tree_set_items.
      * rewrite tree_get_set_other_column by done.
        by apply tree_get_set_same, has_item_iff.
Qed.

(** X25. A started batch: its tasks are the rows of the list in
    order, numbered from 0; the progress bar is reset to 0 out of the
    number of tasks; each task's row shows [Queued] and no size after;
    no row is added, removed or renamed; the first poll is scheduled.
    With a list built by [add_files] there is one task per row. *)
Theorem started_batch_is_queued (py_strip : string -> string)
    (py_int : string -> option Z) (g g' : gui) (i : inputs) (cfg : settings)
    (files : list (Z * string * string)) :
  start_compression py_strip py_int g i = (g', Some (cfg, files)) ->
  files = build_files (tree g)
  /\ progress_value g' = 0
  /\ progress_maximum g' = Z.of_nat (length files)
  /\ poll_scheduled g' = true
  /\ row_key <$> tree g' = row_key <$> tree g
  /\ (forall idx item path, (idx, item, path) ∈ files ->
        tree_get (tree g') item "status" = Some "Queued"
        /\ tree_get (tree g') item "after" = Some "-"
        /\ exists r, tree g !! Z.to_nat idx = Some r /\ 0 <= idx
             /\ row_item r = item /\ row_cols r !! "path" = Some path)
  /\ (listed_once (tree g) -> length files = length (tree g)).
Proof.
  intros Hstart.
  destruct (start_compression_started py_strip py_int g g' i cfg files Hstart)
    as (_ & _ & _ & _ & _ & _ & _ & _ & Hfiles & _ & ->).
  cbn [progress_value progress_maximum poll_scheduled tree].
  split_and!; [done|done|done|done|apply mark_queued_keys| |].
  - intros idx item path Hin.
    pose proof Hin as Hin'. rewrite Hfiles in Hin'.
    apply build_files_from_rows in Hin' as (k & r & Hk & Hidx & Hitem & Hpath).
    destruct (mark_queued_status files (tree g) item) as [Hs Ha].
    { apply list_elem_of_fmap. by exists (idx, item, path). }
    { apply list_elem_of_fmap. exists r. split; [done|].
      by eapply list_elem_of_lookup_2. }
    split_and!; [done|done|]. exists r.
    replace (Z.to_nat idx) with k by lia. split_and!; [done|lia|done|done].
  - intros (Hall & _). rewrite Hfiles. by apply build_files_from_length.
Qed.

Lemma started_batch_is_queued_witness :
  GuiSample.listed_files = build_files (tree GuiSample.listed).
Proof.
  apply (started_batch_is_queued GuiSample.strip_none GuiSample.py_int
           GuiSample.listed _ GuiSample.form GuiSample.form_cfg
           GuiSample.listed_files sample_start).
Defined.

(** ** A whole batch, from the start to the last poll *)

Section Rounds.

Variable human_kb : pyval -> string.
Variable totals_text : list row -> string.

Lemma poll_queue_fields (g : gui) (c : list (gmap string pyval)) :
  let g' := (poll_queue human_kb totals_text g c).1 in
  let f := fold_left (poll_msg human_kb) c g in
  tree g' = tree f /\ progress_value g' = progress_value f
  /\ progress_maximum g' = progress_maximum f /\ dialogs g' = dialogs f
  /\ poll_scheduled g' = (progress_value f <? progress_maximum f).
Proof. simpl. unfold poll_queue. by destruct (_ <? _). Qed.

Lemma tree_get_row (t : list row) (item column value : string) :
  tree_get t item column = Some value -> item ∈ row_item <$> t.
Proof.
  unfold tree_get. intros H.
  destruct (List.find _ t) as [r|] eqn:Hf; [|done].
  apply find_some in Hf as [Hin Heq]. apply String.eqb_eq in Heq.
  apply list_elem_of_fmap. exists r. split; [done|]. by apply list_elem_of_In.
Qed.

(** A verdict, once shown, is only ever replaced by a verdict. *)
Lemma poll_msg_verdict_kept (g : gui) (m : gmap string pyval) (item : string) :
  has_verdict g item -> has_verdict (poll_msg human_kb g m) item.
Proof.
  intros (st & Hst & Hv). unfold has_verdict, poll_msg.
  destruct (pyval_is_str (dict_get m "control") "all_done"); [by exists st|].
  destruct (find_target (tree g) (dict_get m "inp_path")) as [ti|]; [|by exists st].
  destruct (String.eqb ti ""); [by exists st|].
  pose proof (tree_get_row _ _ _ _ Hst) as Hrow.
  destruct (pyval_is_str (dict_get m "status") "done").
  - cbn [tree with_progress_value with_tree].
    rewrite tree_get_set_other_column by done.
    assert (Hinner : forall t, row_item <$> t = row_item <$> tree g ->
              (forall c, ti <> item -> tree_get t item c = tree_get (tree g) item c) ->
              exists status,
                tree_get (tree_set (tree_set (tree_set t ti "before"
                            (human_kb (dict_get_default m "before_size" (VInt 0))))
                            ti "after"
                            (human_kb (dict_get_default m "after_size" (VInt 0))))
                            ti "status" "Done") item "status" = Some status
                /\ verdict status).
    { intros t Hitems Hsame. destruct (decide (ti = item)) as [->|Hne].
      - exists "Done". split; [|by left].
        apply tree_get_set_same, has_item_iff.
        by rewrite !tree_set_items, Hitems.
      - exists st. split; [|done].
        rewrite !tree_get_set_other_item by done. by rewrite Hsame. }
    unfold set_thumbnail. destruct (dict_get m "thumb"); try (by apply Hinner).
    cbn [tree]. apply Hinner; [apply tree_item_image_items|].
    intros c _. apply tree_get_item_image.
  - destruct (pyval_is_str (dict_get m "status") "error"); [|by exists st].
    cbn [tree with_progress_value with_tree].
    destruct (decide (ti = item)) as [->|Hne].
    + eexists. split; [by apply tree_get_set_same, has_item_iff|].
      right. by exists (Exception (py_str (dict_get m "error"))).
    + exists st. split; [|done]. by rewrite tree_get_set_other_item.
Qed.

Lemma fold_verdict_kept (q : list (gmap string pyval)) (g : gui) (item : string) :
  has_verdict g item -> has_verdict (fold_left (poll_msg human_kb) q g) item.
Proof.
  revert g. induction q as [|m q IH]; intros g Hv; [done|].
  simpl. by apply IH, poll_msg_verdict_kept.
Qed.

(** The message of a task whose row is in the list leaves a verdict in
    that row. *)
Lemma poll_msg_gives_verdict (g : gui) (m : gmap string pyval) (task_id : Z)
    (inp_path item : string) :
  is_done_msg task_id inp_path m \/ is_error_msg task_id inp_path m ->
  find_target (tree g) (VStr inp_path) = Some item -> item <> "" ->
  has_verdict (poll_msg human_kb g m) item.
Proof.
  intros [(sp & b & a & t & ->)|(e & ->)] Hfind Hitem.
  - destruct (poll_msg_done human_kb g task_id inp_path sp b a t item Hfind Hitem)
      as (_ & _ & Hst & _).
    exists "Done". split; [done|by left].
  - destruct (poll_msg_error human_kb g task_id inp_path e item Hfind Hitem)
      as (_ & _ & Hst & _).
    eexists. split; [exact Hst|]. right. by exists e.
Qed.

Lemma fold_gives_verdicts (q : list (gmap string pyval)) (g : gui)
    (m : gmap string pyval) (task_id : Z) (inp_path item : string) :
  m ∈ q ->
  is_done_msg task_id inp_path m \/ is_error_msg task_id inp_path m ->
  find_target (tree g) (VStr inp_path) = Some item -> item <> "" ->
  has_verdict (fold_left (poll_msg human_kb) q g) item.
Proof.
  revert g. induction q as [|m0 q IH]; intros g Hin Hm Hfind Hitem.
  - by apply elem_of_nil in Hin.
  - simpl. apply elem_of_cons in Hin as [->|Hin].
    + apply fold_verdict_kept. by eapply poll_msg_gives_verdict.
    + apply IH; [done|done| |done].
      destruct (poll_msg_keys human_kb g m0) as [Hk _].
      by rewrite (find_target_keys _ _ _ Hk).
Qed.

(** The polls of a batch whose results all count and are followed by
    [all_done]. *)
Lemma poll_rounds_end (chunks : list (list (gmap string pyval)))
    (rs : list (gmap string pyval)) (g : gui) :
  concat chunks = rs ++ [all_done_msg] ->
  Forall (counted (tree g)) rs ->
  progress_value g + Z.of_nat (length rs) = progress_maximum g ->
  let g' := (poll_rounds human_kb totals_text g chunks).1 in
  let rest := (poll_rounds human_kb totals_text g chunks).2 in
  poll_scheduled g' = false
  /\ progress_value g' = progress_maximum g
  /\ progress_maximum g' = progress_maximum g
  /\ row_key <$> tree g' = row_key <$> tree g
  /\ ((rest = [] /\ dialogs g'
                   = dialogs g ++ [("Done", "Batch compression completed!")])
      \/ (rest = [all_done_msg] /\ dialogs g' = dialogs g))
  /\ (forall item, has_verdict g item -> has_verdict g' item)
  /\ (forall m task_id inp_path item,
        m ∈ rs ->
        is_done_msg task_id inp_path m \/ is_error_msg task_id inp_path m ->
        find_target (tree g) (VStr inp_path) = Some item -> item <> "" ->
        has_verdict g' item).
Proof.
  revert rs g. induction chunks as [|c chunks IH]; intros rs g Hcat Hall Hfull.
  { simpl in Hcat. by destruct rs. }
  simpl in Hcat. cbn [poll_rounds].
  destruct (poll_queue_fields g c) as (Ht & Hv & Hm & Hd & Hs).
  set (gc := (poll_queue human_kb totals_text g c).1) in *.
  destruct (fold_poll_keys human_kb c g) as [Hkeys Hmax].
  assert (Hcases : (exists rs2, rs = c ++ rs2 /\ concat chunks = rs2 ++ [all_done_msg])
                   \/ (c = rs ++ [all_done_msg] /\ concat chunks = [])).
  { apply app_eq_inv in Hcat as [(k & -> & Hk)|(k & -> & Hk)].
    - destruct k as [|x k].
      + left. exists []. rewrite !app_nil_r. split; [done|]. by rewrite Hk.
      + right. simpl in Hk. injection Hk as <- Hk.
        symmetry in Hk. apply app_eq_nil in Hk as [-> ->]. done.
    - left. by exists k. }
  destruct Hcases as [(rs2 & -> & Hrest)|[-> Hrest]].
  - (* the chunk holds results only *)
    apply Forall_app in Hall as [Hall1 Hall2].
    destruct (fold_poll_counted human_kb c g Hall1) as [Hval Hdia].
    rewrite length_app, Nat2Z.inj_add in Hfull.
    assert (Hkc : row_key <$> tree gc = row_key <$> tree g) by (by rewrite Ht).
    assert (Hverd1 : forall item, has_verdict g item -> has_verdict gc item).
    { intros item Hi. destruct (fold_verdict_kept c g item Hi) as (st & Hst & Hvd).
      exists st. by rewrite Ht. }
    assert (Hverd2 : forall m task_id inp_path item, m ∈ c ->
              is_done_msg task_id inp_path m \/ is_error_msg task_id inp_path m ->
              find_target (tree g) (VStr inp_path) = Some item -> item <> "" ->
              has_verdict gc item).
    { intros m id p item Hin Hm' Hf Hi.
      destruct (fold_gives_verdicts c g m id p item Hin Hm' Hf Hi) as (st & Hst & Hvd).
      exists st. by rewrite Ht. }
    destruct rs2 as [|r2 rs2'].
    + (* they bring the count to the maximum: no further poll *)
      simpl in Hfull. rewrite Hs.
      destruct (Z.ltb_spec (progress_value (fold_left (poll_msg human_kb) c g))
                  (progress_maximum (fold_left (poll_msg human_kb) c g))); [lia|].
      cbn [fst snd]. fold gc.
      split_and!; [done|lia|congruence|done| |done|].
      * right. split; [by rewrite Hrest|congruence].
      * intros m id p item Hin. rewrite app_nil_r in Hin. by apply Hverd2.
    + rewrite Hs.
      destruct (Z.ltb_spec (progress_value (fold_left (poll_msg human_kb) c g))
                  (progress_maximum (fold_left (poll_msg human_kb) c g)));
        [|simpl in Hfull; lia].
      destruct (IH (r2 :: rs2') gc Hrest) as (Hs' & Hv' & Hm' & Hk' & Hd' & Hvk & Hvs).
      { eapply Forall_impl; [exact Hall2|].
        intros m (id & p & item & Hres & Hf & Hi). exists id, p, item.
        split_and!; [done| |done]. by rewrite (find_target_keys _ _ _ Hkc). }
      { lia. }
      split_and!; [done|lia|lia|congruence| | |].
      * destruct Hd' as [[? ?]|[? ?]]; [left|right]; split; congruence.
      * intros item Hi. by apply Hvk, Hverd1.
      * intros m id p item Hin Hm'' Hf Hi.
        apply elem_of_app in Hin as [Hin|Hin].
        -- apply Hvk. by eapply Hverd2.
        -- eapply Hvs; [done|done| |done]. by rewrite (find_target_keys _ _ _ Hkc).
  - (* the chunk holds the last results and [all_done] *)
    assert (Hfold : fold_left (poll_msg human_kb) (rs ++ [all_done_msg]) g
                    = poll_msg human_kb (fold_left (poll_msg human_kb) rs g)
                        all_done_msg) by (by rewrite fold_left_app).
    destruct (fold_poll_counted human_kb rs g Hall) as [Hval Hdia].
    destruct (fold_poll_keys human_kb rs g) as [_ Hmax'].
    pose proof (poll_msg_count human_kb (fold_left (poll_msg human_kb) rs g)
                  all_done_msg) as Hc.
    change (is_all_done all_done_msg) with true in Hc. destruct Hc as [Hcv Hcd].
    rewrite Hfold in *. rewrite Hs.
    destruct (Z.ltb_spec
                (progress_value (poll_msg human_kb (fold_left (poll_msg human_kb) rs g)
                                   all_done_msg))
                (progress_maximum (poll_msg human_kb
                                     (fold_left (poll_msg human_kb) rs g)
                                     all_done_msg))); [lia|].
    cbn [fst snd]. fold gc.
    split_and!; [done|lia|congruence|by rewrite Ht| | |].
    + left. split; [by rewrite Hrest|]. rewrite Hd, Hcd. by rewrite Hdia.
    + intros item Hi.
      destruct (poll_msg_verdict_kept _ all_done_msg item
                  (fold_verdict_kept rs g item Hi)) as (st & Hst & Hvd).
      exists st. by rewrite Ht.
    + intros m id p item Hin Hm' Hf Hi.
      destruct (poll_msg_verdict_kept _ all_done_msg item
                  (fold_gives_verdicts rs g m id p item Hin Hm' Hf Hi))
        as (st & Hst & Hvd).
      exists st. by rewrite Ht.
Qed.

End Rounds.

Lemma task_msgs_of (finished : list (Z * string * string))
    (msgs : list (gmap string pyval)) :
  Forall2 task_msg_ok finished msgs ->
  (forall m, m ∈ msgs -> exists t, t ∈ finished /\ task_msg_ok t m)
  /\ (forall t, t ∈ finished -> exists m, m ∈ msgs /\ task_msg_ok t m).
Proof.
  induction 1 as [|t m ts ms Hm _ [IH1 IH2]].
  - split; intros x Hx; by apply elem_of_nil in Hx.
  - split.
    + intros m' Hin. apply elem_of_cons in Hin as [->|Hin].
      * exists t. split; [by apply elem_of_cons; left|done].
      * destruct (IH1 m' Hin) as (t' & Ht' & Hok). exists t'.
        split; [by apply elem_of_cons; right|done].
    + intros t' Hin. apply elem_of_cons in Hin as [->|Hin].
      * exists m. split; [by apply elem_of_cons; left|done].
      * destruct (IH2 t' Hin) as (m' & Hm' & Hok). exists m'.
        split; [by apply elem_of_cons; right|done].
Qed.

(** X26. A whole batch that is started while [msg_q] is empty, on a
    list in which no path is shown twice and that is left alone while
    the batch runs: however the calls are scheduled, whatever they
    meet, and however the messages are spread over the polls, the
    polling ends; by then every task's row shows [Done] or
    [Error: ...], the progress bar is full, and no row was added,
    removed or renamed. The completion dialog is shown when [all_done]
    was drained; otherwise the count was already full and [all_done] is
    all that is left on the queue (where the next batch will find it). *)
Theorem batch_ends_with_a_verdict_per_file (human_kb : pyval -> string)
    (totals_text : list row -> string) (py_strip : string -> string)
    (py_int : string -> option Z) (g g1 : gui) (i : inputs) (cfg : settings)
    (files : list (Z * string * string)) (q0 : list (gmap string pyval))
    (s : pool) (chunks : list (list (gmap string pyval))) :
  q0 = [] ->
  NoDup (shown_paths (tree g)) ->
  Forall (fun r => row_item r <> "") (tree g) ->
  start_compression py_strip py_int g i = (g1, Some (cfg, files)) ->
  rtc (pool_step cfg) (pool_init files q0) s ->
  notified s = true ->
  concat chunks = pool_q s ->
  let g' := (poll_rounds human_kb totals_text g1 chunks).1 in
  let rest := (poll_rounds human_kb totals_text g1 chunks).2 in
  poll_scheduled g' = false
  /\ progress_value g' = Z.of_nat (length files)
  /\ progress_maximum g' = Z.of_nat (length files)
  /\ row_key <$> tree g' = row_key <$> tree g
  /\ (forall idx item path, (idx, item, path) ∈ files -> has_verdict g' item)
  /\ ((rest = []
       /\ dialogs g' = dialogs g ++ [("Done", "Batch compression completed!")])
      \/ (rest = [all_done_msg] /\ dialogs g' = dialogs g)).
Proof.
  intros -> Hnd Hitems Hstart Hreach Hnot Hchunks.
  destruct (start_compression_started py_strip py_int g g1 i cfg files Hstart)
    as (_ & _ & _ & _ & _ & _ & _ & _ & Hfiles & _ & Hg1).
  destruct (pool_inv_reachable cfg files [] s Hreach)
    as (finished & msgs & Hperm & Hmsgs & _ & Hq & Hdone).
  destruct (Hdone Hnot) as [Hp Hr]. rewrite Hp, Hr, !app_nil_r in Hperm.
  rewrite Hnot in Hq. simpl in Hq. rewrite Hq in Hchunks.
  destruct (task_msgs_of finished msgs Hmsgs) as [Hfrom Hto].
  assert (Hkeys1 : row_key <$> tree g1 = row_key <$> tree g).
  { rewrite Hg1. apply mark_queued_keys. }
  assert (Hfind : forall idx item path, (idx, item, path) ∈ files ->
            find_target (tree g1) (VStr path) = Some item /\ item <> "").
  { intros idx item path Hin. rewrite (find_target_keys _ _ _ Hkeys1).
    rewrite Hfiles in Hin. split; [by eapply build_files_from_find|].
    apply build_files_from_rows in Hin as (k & r & Hk & _ & <- & _).
    eapply Forall_forall in Hitems; [exact Hitems|].
    by eapply list_elem_of_lookup_2. }
  assert (Hcounted : Forall (counted (tree g1)) msgs).
  { apply Forall_forall. intros m Hm.
    destruct (Hfrom m Hm) as ([[idx item] path] & Ht & Hok).
    destruct (Hfind idx item path) as [Hf Hi]; [by rewrite <- Hperm|].
    by exists idx, path, item. }
  assert (Hlen : length msgs = length files).
  { apply Forall2_length in Hmsgs. by rewrite <- Hmsgs, Hperm. }
  destruct (poll_rounds_end human_kb totals_text chunks msgs g1 Hchunks Hcounted)
    as (Hs & Hv & Hm & Hk & Hd & _ & Hverdicts).
  { rewrite Hg1. cbn [progress_value progress_maximum]. lia. }
  assert (Hmax1 : progress_maximum g1 = Z.of_nat (length files)) by (by rewrite Hg1).
  assert (Hdia1 : dialogs g1 = dialogs g) by (by rewrite Hg1).
  split_and!; [done|congruence|congruence|congruence| |].
  - intros idx item path Hin.
    destruct (Hto (idx, item, path)) as (m & Hm' & Hok); [by rewrite Hperm|].
    destruct (Hfind idx item path Hin) as [Hf Hi].
    by apply (Hverdicts m idx path item).
  - rewrite <- Hdia1. exact Hd.
Qed.

Lemma sample_batch_run :
  rtc (pool_step GuiSample.form_cfg) (pool_init GuiSample.listed_files [])
    GuiSample.final.
Proof.
  eapply rtc_l.
  { apply (step_start GuiSample.form_cfg (0, "I001", "in/a.png")
             [(1, "I002", "in/b.png")] [] [] false).
    simpl. unfold WORKER_THREADS. lia. }
  eapply rtc_l.
  { apply (step_start GuiSample.form_cfg (1, "I002", "in/b.png") []
             [(0, "I001", "in/a.png")] [] false).
    simpl. unfold WORKER_THREADS. lia. }
  eapply rtc_l.
  { apply (step_finish_run GuiSample.form_cfg Sample.world
             (1, "I002", "in/b.png") [] [(0, "I001", "in/a.png")] [] [] false). }
  eapply rtc_l.
  { apply (step_finish_run GuiSample.form_cfg Sample.world
             (0, "I001", "in/a.png") [] [] [] GuiSample.q1 _). }
  eapply rtc_l; [|apply rtc_refl].
  apply (step_all_done GuiSample.form_cfg GuiSample.q2).
Qed.

Lemma sample_listed_paths : NoDup (shown_paths (tree GuiSample.listed)).
Proof.
  change (NoDup ["in/a.png"; "in/b.png"]).
  apply NoDup_cons. split.
  - intros H. apply list_elem_of_singleton in H. discriminate.
  - apply NoDup_singleton.
Qed.

Lemma sample_listed_items :
  Forall (fun r => row_item r <> "") (tree GuiSample.listed).
Proof. repeat constructor; discriminate. Qed.

Lemma batch_ends_with_a_verdict_per_file_witness :
  has_verdict
    (poll_rounds GuiSample.human_kb (fun _ => "")
       (Gui (mark_queued (tree GuiSample.listed) GuiSample.listed_files) 0 2
          (thumb_refs GuiSample.listed) [] "" true)
       GuiSample.chunks).1
    "I001".
Proof.
  destruct (batch_ends_with_a_verdict_per_file GuiSample.human_kb (fun _ => "")
              GuiSample.strip_none GuiSample.py_int GuiSample.listed _
              GuiSample.form GuiSample.form_cfg GuiSample.listed_files []
              GuiSample.final GuiSample.chunks eq_refl sample_listed_paths
              sample_listed_items sample_start sample_batch_run eq_refl)
    as (_ & _ & _ & _ & Hverdicts & _).
  - vm_compute. reflexivity.
  - apply (Hverdicts 0 "I001" "in/a.png").
    apply elem_of_cons. left. reflexivity.
Defined.

(** X27. The empty queue matters: a batch started while an [all_done]
    is still on [msg_q] (left there by a batch whose polling ended on a
    full count) is over at its first poll when that poll finds nothing
    else yet: the bar is set full, the completion dialog is shown and no
    further poll is scheduled, while every task's row still shows
    [Queued]. *)
Theorem stale_all_done_ends_new_batch (human_kb : pyval -> string)
    (totals_text : list row -> string) (py_strip : string -> string)
    (py_int : string -> option Z) (g g1 : gui) (i : inputs) (cfg : settings)
    (files : list (Z * string * string)) :
  start_compression py_strip py_int g i = (g1, Some (cfg, files)) ->
  let g' := (poll_queue human_kb totals_text g1 [all_done_msg]).1 in
  poll_scheduled g' = false
  /\ progress_value g' = Z.of_nat (length files)
  /\ dialogs g' = dialogs g ++ [("Done", "Batch compression completed!")]
  /\ (forall idx item path, (idx, item, path) ∈ files ->
        tree_get (tree g') item "status" = Some "Queued").
Proof.
  intros Hstart.
  destruct (start_compression_started py_strip py_int g g1 i cfg files Hstart)
    as (_ & _ & _ & _ & _ & _ & _ & _ & Hfiles & _ & ->).
  unfold poll_queue. cbn [fold_left].
  assert (Hmsg : poll_msg human_kb
            (Gui (mark_queued (tree g) files) 0 (Z.of_nat (length files))
               (thumb_refs g) (dialogs g) (size_label g) true) all_done_msg
          = Gui (mark_queued (tree g) files) (Z.of_nat (length files))
              (Z.of_nat (length files)) (thumb_refs g)
              (dialogs g ++ [("Done", "Batch compression completed!")])
              (size_label g) true) by done.
  rewrite Hmsg. cbn [progress_value progress_maximum].
  rewrite Z.ltb_irrefl. cbn [fst poll_scheduled progress_value dialogs tree].
  split_and!; [done|done|done|].
  intros idx item path Hin.
  pose proof Hin as Hin'. rewrite Hfiles in Hin'.
  apply build_files_from_rows in Hin' as (k & r & Hk & _ & Hitem & _).
  apply (mark_queued_status files (tree g) item).
  - apply list_elem_of_fmap. by exists (idx, item, path).
  - apply list_elem_of_fmap. exists r. split; [done|].
    by eapply list_elem_of_lookup_2.
Qed.

Lemma stale_all_done_ends_new_batch_witness :
  tree_get
    (tree (poll_queue GuiSample.human_kb (fun _ => "")
             (Gui (mark_queued (tree GuiSample.listed) GuiSample.listed_files)
                0 2 (thumb_refs GuiSample.listed) [] "" true)
             [all_done_msg]).1)
    "I001" "status"
  = Some "Queued".
Proof.
  destruct (stale_all_done_ends_new_batch GuiSample.human_kb (fun _ => "")
              GuiSample.strip_none GuiSample.py_int GuiSample.listed _
              GuiSample.form GuiSample.form_cfg GuiSample.listed_files
              sample_start) as (_ & _ & _ & Hrows).
  apply (Hrows 0 "I001" "in/a.png").
  apply elem_of_cons. left. reflexivity.
Defined.
